(** * DigiGovDashboard: the extraction pipeline of [daily_dashboard.py]

    A shallow embedding of the data-processing core of the dashboard
    script and the properties proved of it:
    - the monthly-to-daily synthesizer: [_fetch_eaddress_resource],
      [_build_daily_rates] and [get_eaddress_data] with its local helpers
      [vary] and [_find_rate];
    - the hybrid summarizer: [_ai_extract_essence],
      [_regex_extract_essence], [_extract_essence];
    - the cabinet agenda extractor [get_cabinet_cudars_items];
    - the parliament agenda extractor [get_parliament_agenda].

    Conventions.
    - A Python [str] is the list of its Unicode code points ([pystr]);
      [len], slicing and [in] then have their Python meaning.  Literals are
      written as UTF-8 text and decoded by [py].  Character properties
      (case, digits, word characters) are those of U+0000..U+017F, the
      blocks that hold Latvian text.
    - A Python [int] is a [Z].  A Python [float] is an exact rational
      ([Q]): the binary64 rounding of intermediate results is not
      modelled.
    - A Python exception is a value of [exn]; a computation that may raise
      returns a [result].
    - The network, the generative backend and the clock are a [World]; a
      run returns its value with the list of requests it made.  Console
      output is left out. *)

From stdpp Require Import base option list sorting gmap strings.
From Stdlib Require Import ZArith QArith Qround Lia Lqa.

Local Open Scope Z_scope.

(** ** Python strings *)

Module PyStr.

Abbreviation pystr := (list Z) (only parsing).

(** The bytes of a Rocq string literal. *)
Fixpoint bytes_of_string (s : string) : list Z :=
  match s with
  | EmptyString => []
  | String c s' => Z.of_N (Ascii.N_of_ascii c) :: bytes_of_string s'
  end.

(** UTF-8 decoding of well-formed text, one code point per sequence. *)
Fixpoint utf8_decode (bs : list Z) : pystr :=
  match bs with
  | [] => []
  | b0 :: r0 =>
    if b0 <? 0x80 then b0 :: utf8_decode r0
    else match r0 with
    | [] => [b0]
    | b1 :: r1 =>
      if b0 <? 0xE0 then
        ((b0 - 0xC0) * 64 + (b1 - 0x80)) :: utf8_decode r1
      else match r1 with
      | [] => [b0; b1]
      | b2 :: r2 =>
        if b0 <? 0xF0 then
          ((b0 - 0xE0) * 4096 + (b1 - 0x80) * 64 + (b2 - 0x80)) :: utf8_decode r2
        else match r2 with
        | [] => [b0; b1; b2]
        | b3 :: r3 =>
          ((b0 - 0xF0) * 262144 + (b1 - 0x80) * 4096
           + (b2 - 0x80) * 64 + (b3 - 0x80)) :: utf8_decode r3
        end
      end
    end
  end.

(** [py "text"]: the Python string with that text. *)
Definition py (s : string) : pystr := utf8_decode (bytes_of_string s).

(** [str.encode()]: UTF-8 encoding of a code point sequence. *)
Definition utf8_encode_cp (c : Z) : list Z :=
  if c <? 0x80 then [c]
  else if c <? 0x800 then [0xC0 + c / 64; 0x80 + c mod 64]
  else if c <? 0x10000 then
    [0xE0 + c / 4096; 0x80 + (c / 64) mod 64; 0x80 + c mod 64]
  else
    [0xF0 + c / 262144; 0x80 + (c / 4096) mod 64;
     0x80 + (c / 64) mod 64; 0x80 + c mod 64].

Definition encode (s : pystr) : list Z := flat_map utf8_encode_cp s.

(** [s.startswith(p)]. *)
Fixpoint startswith (p s : pystr) : bool :=
  match p, s with
  | [], _ => true
  | _ :: _, [] => false
  | a :: p', b :: s' => (a =? b) && startswith p' s'
  end.

(** [needle in hay] on strings: [needle] occurs as a contiguous run. *)
Fixpoint contains (needle hay : pystr) : bool :=
  startswith needle hay ||
  match hay with
  | [] => false
  | _ :: hay' => contains needle hay'
  end.

(** [str.isspace] on one character, which is also what [\s] matches in a
    [str] pattern (for the added separators U+001C..U+001F as well). *)
Definition is_space (c : Z) : bool :=
  ((0x09 <=? c) && (c <=? 0x0D)) || ((0x1C <=? c) && (c <=? 0x20))
  || (c =? 0x85) || (c =? 0xA0) || (c =? 0x1680)
  || ((0x2000 <=? c) && (c <=? 0x200A))
  || (c =? 0x2028) || (c =? 0x2029) || (c =? 0x202F) || (c =? 0x205F)
  || (c =? 0x3000).

Fixpoint lstrip (s : pystr) : pystr :=
  match s with
  | c :: s' => if is_space c then lstrip s' else s
  | [] => []
  end.

Definition rstrip (s : pystr) : pystr := reverse (lstrip (reverse s)).

(** [s.strip()]. *)
Definition strip (s : pystr) : pystr := rstrip (lstrip s).

(** [sep.join(parts)]. *)
Fixpoint join (sep : pystr) (parts : list pystr) : pystr :=
  match parts with
  | [] => []
  | [p] => p
  | p :: rest => p ++ sep ++ join sep rest
  end.

(** [str.lower] for one code point.  The simple lower-case mappings of
    Basic Latin, Latin-1 Supplement and Latin Extended-A (which hold the
    Latvian alphabet), with the one expanding mapping of that range,
    U+0130; code points of other blocks are left as they are. *)
Definition lower_cp (c : Z) : pystr :=
  if (0x41 <=? c) && (c <=? 0x5A) then [c + 32]
  else if (0xC0 <=? c) && (c <=? 0xDE) && negb (c =? 0xD7) then [c + 32]
  else if c =? 0x130 then [0x69; 0x307]
  else if c =? 0x178 then [0xFF]
  else if ((0x100 <=? c) && (c <=? 0x12F) || (0x132 <=? c) && (c <=? 0x137)
           || (0x14A <=? c) && (c <=? 0x177)) && Z.even c then [c + 1]
  else if ((0x139 <=? c) && (c <=? 0x148) || (0x179 <=? c) && (c <=? 0x17E))
          && Z.odd c then [c + 1]
  else [c].

(** The one-character lower case of a code point, as case-insensitive
    matching uses it: as [lower_cp], but U+0130 goes to [i]. *)
Definition simple_lower (c : Z) : Z :=
  match lower_cp c with
  | [l] => l
  | _ => 0x69
  end.

(** [s.lower()]. *)
Definition lower (s : pystr) : pystr := flat_map lower_cp s.

(** ASCII decimal digit, the digits [\d] is modelled on. *)
Definition is_digit (c : Z) : bool := (0x30 <=? c) && (c <=? 0x39).

End PyStr.
Import PyStr.

(** ** Exceptions *)

Module PyExn.

(** The exception classes the code distinguishes; every class is a
    subclass of [Exception]. *)
Inductive exn :=
| ValueError
| KeyError
| TypeError
| IndexError
| ZeroDivisionError
| OverflowError
| RequestException      (* requests: timeout, connection error *)
| BackendError.         (* any failure of the generative backend *)

Inductive result (A : Type) :=
| Ok (a : A)
| Raise (e : exn).
Arguments Ok {A} a.
Arguments Raise {A} e.

Definition bind {A B} (m : result A) (f : A -> result B) : result B :=
  match m with
  | Ok a => f a
  | Raise e => Raise e
  end.

#[global] Instance exn_eq_dec : EqDecision exn.
Proof. solve_decision. Defined.

#[global] Instance result_eq_dec {A} `{EqDecision A} : EqDecision (result A).
Proof. solve_decision. Defined.

(** [for x in xs: out.append(f(x))], stopping at the first exception. *)
Fixpoint for_each {A B} (f : A -> result B) (xs : list A) : result (list B) :=
  match xs with
  | [] => Ok []
  | x :: xs' =>
    bind (f x) (fun y => bind (for_each f xs') (fun ys => Ok (y :: ys)))
  end.

End PyExn.
Import PyExn.

Notation "x <- m ;; k" := (PyExn.bind m (fun x => k))
  (at level 100, m at next level, right associativity).

(** ** Regular expressions: Python's [re] on [str] patterns

    A backtracking matcher with [re]'s priorities: alternatives are tried
    left to right, a greedy repetition tries one more round first and a
    lazy one tries the continuation first.  Character properties ([\w],
    [\d], case folding) are those of U+0000..U+017F. *)

Module Re.

Inductive regex :=
| Eps
| Chr (f : Z -> bool)
| Seq (a b : regex)
| Alt (a b : regex)
| Star (greedy : bool) (a : regex)
| Group (i : nat) (a : regex)
| Look (a : regex)          (* (?=a) *)
| Bol                       (* ^ *)
| Eol                       (* $ *)
| EndZ                      (* \Z *)
| WordB.                    (* \b *)

(** A position in the subject: its offset, the character before it, the
    text after it, and the spans of the groups closed so far. *)
Record mstate := mkState {
  st_pos : nat;
  st_prev : option Z;
  st_rest : pystr;
  st_caps : list (nat * (nat * nat));
}.

(** [\w]: letters, digits and numerics of U+0000..U+017F, and [_]. *)
Definition is_word (c : Z) : bool :=
  is_digit c || ((0x41 <=? c) && (c <=? 0x5A)) || ((0x61 <=? c) && (c <=? 0x7A))
  || (c =? 0x5F) || (c =? 0xAA) || (c =? 0xB2) || (c =? 0xB3) || (c =? 0xB5)
  || (c =? 0xB9) || (c =? 0xBA) || ((0xBC <=? c) && (c <=? 0xBE))
  || ((0xC0 <=? c) && (c <=? 0x17F) && negb (c =? 0xD7) && negb (c =? 0xF7)).

Definition is_word_opt (c : option Z) : bool :=
  match c with Some c => is_word c | None => false end.

Fixpoint run (r : regex) (st : mstate) (k : mstate -> option mstate)
  {struct r} : option mstate :=
  match r with
  | Eps => k st
  | Chr f =>
    match st_rest st with
    | c :: rest' =>
      if f c then k (mkState (S (st_pos st)) (Some c) rest' (st_caps st))
      else None
    | [] => None
    end
  | Seq a b => run a st (fun st' => run b st' k)
  | Alt a b =>
    match run a st k with
    | Some out => Some out
    | None => run b st k
    end
  | Star greedy a =>
    (fix rounds (fuel : nat) (st : mstate) {struct fuel} : option mstate :=
       match fuel with
       | O => k st
       | S fuel' =>
         if greedy then
           match run a st (fun st' =>
                   if (st_pos st <? st_pos st')%nat then rounds fuel' st'
                   else None) with
           | Some out => Some out
           | None => k st
           end
         else
           match k st with
           | Some out => Some out
           | None =>
             run a st (fun st' =>
               if (st_pos st <? st_pos st')%nat then rounds fuel' st'
               else None)
           end
       end) (S (length (st_rest st))) st
  | Group i a =>
    run a st (fun st' =>
      k (mkState (st_pos st') (st_prev st') (st_rest st')
                 ((i, (st_pos st, st_pos st')) :: st_caps st')))
  | Look a =>
    match run a st Some with
    | Some st' =>
      k (mkState (st_pos st) (st_prev st) (st_rest st) (st_caps st'))
    | None => None
    end
  | Bol => if (st_pos st =? 0)%nat then k st else None
  | Eol =>
    match st_rest st with
    | [] => k st
    | [c] => if c =? 10 then k st else None
    | _ => None
    end
  | EndZ => match st_rest st with [] => k st | _ => None end
  | WordB =>
    if xorb (is_word_opt (st_prev st)) (is_word_opt (head (st_rest st)))
    then k st else None
  end.

(** *** Pattern combinators *)

Definition chr (c : Z) : regex := Chr (Z.eqb c).
(** The other characters a lower-case letter stands for under
    [re.IGNORECASE], beyond its upper case: dotless i and long s. *)
Definition case_fixes (lo : Z) : list Z :=
  if lo =? 0x69 then [0x131]
  else if lo =? 0x131 then [0x69]
  else if lo =? 0x73 then [0x17F]
  else if lo =? 0x17F then [0x73]
  else [].

(** [d] matches the literal [c] under [re.IGNORECASE]. *)
Definition eq_ignore_case (c d : Z) : bool :=
  let lo := simple_lower c in
  let ld := simple_lower d in
  (ld =? lo) || existsb (Z.eqb ld) (case_fixes lo).

(** A literal character under [re.IGNORECASE]. *)
Definition chr_i (c : Z) : regex := Chr (eq_ignore_case c).
(** A character class of literals under [re.IGNORECASE]. *)
Definition class_i (cs : pystr) : regex :=
  Chr (fun d => existsb (fun c => eq_ignore_case c d) cs).
Definition seqs (rs : list regex) : regex := foldr Seq Eps rs.
Definition alts (rs : list regex) : regex :=
  match rs with
  | [] => Chr (fun _ => false)
  | r :: rs' => foldl Alt r rs'
  end.
Definition lit (s : pystr) : regex := seqs (map chr s).
Definition lit_i (s : pystr) : regex := seqs (map chr_i s).
Definition plus (a : regex) : regex := Seq a (Star true a).
Definition star (a : regex) : regex := Star true a.
Definition lazy_star (a : regex) : regex := Star false a.
Definition opt (a : regex) : regex := Alt a Eps.
Fixpoint rep (n : nat) (a : regex) : regex :=
  match n with O => Eps | S n' => Seq a (rep n' a) end.
Definition any : regex := Chr (fun _ => true).              (* . with DOTALL *)
Definition digit : regex := Chr is_digit.                   (* \d *)
Definition word : regex := Chr is_word.                     (* \w *)
Definition space : regex := Chr is_space.                   (* \s *)
Definition nonspace : regex := Chr (fun c => negb (is_space c)). (* \S *)
Definition not_chr (c : Z) : regex := Chr (fun d => negb (d =? c)). (* [^c] *)

(** *** Match objects and the module functions *)

Record rmatch := mkMatch {
  m_start : nat;
  m_end : nat;
  m_caps : list (nat * (nat * nat));
}.

Fixpoint span_of (i : nat) (caps : list (nat * (nat * nat)))
  : option (nat * nat) :=
  match caps with
  | [] => None
  | (j, sp) :: rest => if (i =? j)%nat then Some sp else span_of i rest
  end.

Definition slice (s : pystr) (a b : nat) : pystr := take (b - a) (drop a s).

(** [m.group(i)] for a group that took part in the match; [None] for one
    that did not. *)
Definition group (s : pystr) (m : rmatch) (i : nat) : option pystr :=
  match span_of i (m_caps m) with
  | Some (a, b) => Some (slice s a b)
  | None => None
  end.

(** [m.group(i)] where the pattern makes the group mandatory. *)
Definition group_str (s : pystr) (m : rmatch) (i : nat) : pystr :=
  default [] (group s m i).

(** One attempt at a position.  [must_advance] refuses the empty match
    there (the rule for the search after an empty match). *)
Definition match_at (r : regex) (must_advance : bool) (st : mstate)
  : option rmatch :=
  match run r st (fun st' =>
          if must_advance && (st_pos st' =? st_pos st)%nat then None
          else Some st') with
  | Some st' => Some (mkMatch (st_pos st) (st_pos st') (st_caps st'))
  | None => None
  end.

(** The leftmost match at or after a position. *)
Fixpoint search_at (r : regex) (must_advance : bool) (p : nat)
    (prev : option Z) (rest : pystr) : option rmatch :=
  match match_at r must_advance (mkState p prev rest []) with
  | Some m => Some m
  | None =>
    match rest with
    | [] => None
    | c :: rest' => search_at r false (S p) (Some c) rest'
    end
  end.

(** [re.match(r, s)]. *)
Definition re_match (r : regex) (s : pystr) : option rmatch :=
  match_at r false (mkState 0 None s []).

(** [re.search(r, s)]. *)
Definition search (r : regex) (s : pystr) : option rmatch :=
  search_at r false 0 None s.

Definition prev_char (s : pystr) (p : nat) : option Z :=
  match p with O => None | S p' => s !! p' end.

(** The successive matches [re.finditer], [re.findall], [re.sub] and
    [re.split] walk over: each search starts where the last match ended,
    and after an empty match the next one must advance. *)
Fixpoint scan_loop (r : regex) (s : pystr) (fuel : nat) (start : nat)
    (must_advance : bool) : list rmatch :=
  match fuel with
  | O => []
  | S fuel' =>
    match search_at r must_advance start (prev_char s start) (drop start s) with
    | None => []
    | Some m =>
      m :: scan_loop r s fuel' (m_end m) (m_end m =? m_start m)%nat
    end
  end.

(** [re.finditer(r, s)]. *)
Definition finditer (r : regex) (s : pystr) : list rmatch :=
  scan_loop r s (2 * length s + 2) 0 false.

Fixpoint sub_pieces (repl : rmatch -> pystr) (s : pystr) (last : nat)
    (ms : list rmatch) : pystr :=
  match ms with
  | [] => drop last s
  | m :: ms' =>
    slice s last (m_start m) ++ repl m ++ sub_pieces repl s (m_end m) ms'
  end.

(** [re.sub(r, repl, s)], with [repl] a function of the match. *)
Definition sub (r : regex) (repl : rmatch -> pystr) (s : pystr) : pystr :=
  sub_pieces repl s 0 (finditer r s).

Fixpoint split_pieces (s : pystr) (last : nat) (ms : list rmatch)
  : list pystr :=
  match ms with
  | [] => [drop last s]
  | m :: ms' => slice s last (m_start m) :: split_pieces s (m_end m) ms'
  end.

(** [re.split(r, s)] for a pattern without groups. *)
Definition split (r : regex) (s : pystr) : list pystr :=
  split_pieces s 0 (finditer r s).

End Re.

(** ** [hashlib.md5]: the MD5 digest (RFC 1321) *)

Module MD5.

Definition mask32 (x : Z) : Z := x mod 4294967296.

Definition rotl32 (x c : Z) : Z :=
  mask32 (Z.lor (Z.shiftl x c) (Z.shiftr x (32 - c))).

Definition not32 (x : Z) : Z := 4294967295 - x.

(** The per-round additive constants, [floor (2^32 * |sin (i + 1)|)]. *)
Definition sines : list Z :=
  [0xd76aa478; 0xe8c7b756; 0x242070db; 0xc1bdceee;
   0xf57c0faf; 0x4787c62a; 0xa8304613; 0xfd469501;
   0x698098d8; 0x8b44f7af; 0xffff5bb1; 0x895cd7be;
   0x6b901122; 0xfd987193; 0xa679438e; 0x49b40821;
   0xf61e2562; 0xc040b340; 0x265e5a51; 0xe9b6c7aa;
   0xd62f105d; 0x02441453; 0xd8a1e681; 0xe7d3fbc8;
   0x21e1cde6; 0xc33707d6; 0xf4d50d87; 0x455a14ed;
   0xa9e3e905; 0xfcefa3f8; 0x676f02d9; 0x8d2a4c8a;
   0xfffa3942; 0x8771f681; 0x6d9d6122; 0xfde5380c;
   0xa4beea44; 0x4bdecfa9; 0xf6bb4b60; 0xbebfbc70;
   0x289b7ec6; 0xeaa127fa; 0xd4ef3085; 0x04881d05;
   0xd9d4d039; 0xe6db99e5; 0x1fa27cf8; 0xc4ac5665;
   0xf4292244; 0x432aff97; 0xab9423a7; 0xfc93a039;
   0x655b59c3; 0x8f0ccc92; 0xffeff47d; 0x85845dd1;
   0x6fa87e4f; 0xfe2ce6e0; 0xa3014314; 0x4e0811a1;
   0xf7537e82; 0xbd3af235; 0x2ad7d2bb; 0xeb86d391].

(** The per-round left-rotation amounts. *)
Definition shifts : list Z :=
  [7; 12; 17; 22; 7; 12; 17; 22; 7; 12; 17; 22; 7; 12; 17; 22;
   5; 9; 14; 20; 5; 9; 14; 20; 5; 9; 14; 20; 5; 9; 14; 20;
   4; 11; 16; 23; 4; 11; 16; 23; 4; 11; 16; 23; 4; 11; 16; 23;
   6; 10; 15; 21; 6; 10; 15; 21; 6; 10; 15; 21; 6; 10; 15; 21].

Definition le_bytes (w : Z) : list Z :=
  [w mod 256; (w / 256) mod 256; (w / 65536) mod 256; (w / 16777216) mod 256].

Definition le_bytes64 (w : Z) : list Z :=
  le_bytes (w mod 4294967296) ++ le_bytes ((w / 4294967296) mod 4294967296).

(** The message, a [0x80] byte, zeros up to 56 modulo 64, and the bit
    length as a 64-bit little-endian number. *)
Definition pad (msg : list Z) : list Z :=
  let n := Z.of_nat (length msg) in
  msg ++ [0x80] ++ replicate (Z.to_nat ((55 - n) mod 64)) 0
      ++ le_bytes64 (8 * n).

(** Little-endian 32-bit words of a byte string. *)
Fixpoint words (bs : list Z) : list Z :=
  match bs with
  | b0 :: b1 :: b2 :: b3 :: rest =>
    (b0 + 256 * b1 + 65536 * b2 + 16777216 * b3) :: words rest
  | _ => []
  end.

Fixpoint blocks (fuel : nat) (ws : list Z) : list (list Z) :=
  match fuel, ws with
  | S fuel', _ :: _ => take 16 ws :: blocks fuel' (drop 16 ws)
  | _, _ => []
  end.

Definition state : Type := Z * Z * Z * Z.

Definition round (M : list Z) (st : state) (i : nat) : state :=
  let '(a, b, c, d) := st in
  let iz := Z.of_nat i in
  let '(f, g) :=
    if iz <? 16 then (Z.lor (Z.land b c) (Z.land (not32 b) d), iz)
    else if iz <? 32 then
      (Z.lor (Z.land d b) (Z.land (not32 d) c), (5 * iz + 1) mod 16)
    else if iz <? 48 then (Z.lxor (Z.lxor b c) d, (3 * iz + 5) mod 16)
    else (Z.lxor c (Z.lor b (not32 d)), (7 * iz) mod 16) in
  let f' := mask32 (f + a + nth i sines 0 + nth (Z.to_nat g) M 0) in
  (d, mask32 (b + rotl32 f' (nth i shifts 0)), b, c).

Definition process_block (st : state) (M : list Z) : state :=
  let '(a0, b0, c0, d0) := st in
  let '(a, b, c, d) := foldl (round M) st (seq 0 64) in
  (mask32 (a0 + a), mask32 (b0 + b), mask32 (c0 + c), mask32 (d0 + d)).

Definition init : state := (0x67452301, 0xefcdab89, 0x98badcfe, 0x10325476).

Definition md5_state (msg : list Z) : state :=
  let ws := words (pad msg) in
  foldl process_block init (blocks (length ws) ws).

(** [hashlib.md5(msg).digest()]. *)
Definition digest (msg : list Z) : list Z :=
  let '(a, b, c, d) := md5_state msg in
  le_bytes a ++ le_bytes b ++ le_bytes c ++ le_bytes d.

Definition hexchar (n : Z) : Z := if n <? 10 then 48 + n else 87 + n.

Definition hex_of_byte (b : Z) : pystr := [hexchar (b / 16); hexchar (b mod 16)].

(** [hashlib.md5(msg).hexdigest()]. *)
Definition hexdigest (msg : list Z) : pystr := flat_map hex_of_byte (digest msg).

End MD5.

(** ** Numbers: [int], true division, [round] *)

Module PyNum.

Definition digit_val (c : Z) : option Z :=
  if is_digit c then Some (c - 48)
  else if (97 <=? c) && (c <=? 122) then Some (c - 87)
  else if (65 <=? c) && (c <=? 90) then Some (c - 55)
  else None.

(** The digits of an integer literal: digits below [base], single
    underscores between them.  [need_digit] holds at the start and after
    an underscore. *)
Fixpoint parse_digits (base acc : Z) (need_digit : bool) (s : pystr)
  : option Z :=
  match s with
  | [] => if need_digit then None else Some acc
  | c :: s' =>
    if c =? 95 then
      if need_digit then None else parse_digits base acc true s'
    else
      match digit_val c with
      | Some v =>
        if v <? base then parse_digits base (acc * base + v) false s'
        else None
      | None => None
      end
  end.

Definition parse_signed (base : Z) (s : pystr) : option Z :=
  let body (t : pystr) : option Z :=
    match t with
    | 48 :: x :: t' =>
      if (base =? 16) && ((x =? 120) || (x =? 88)) then
        match t' with
        | 95 :: t'' => parse_digits base 0 true t''
        | _ => parse_digits base 0 true t'
        end
      else parse_digits base 0 true t
    | _ => parse_digits base 0 true t
    end in
  match s with
  | 43 :: t => body t
  | 45 :: t => Z.opp <$> body t
  | _ => body s
  end.

(** [int(s, base)] for a string, [base] 10 or 16. *)
Definition int_of_str (base : Z) (s : pystr) : result Z :=
  match parse_signed base (strip s) with
  | Some v => Ok v
  | None => Raise ValueError
  end.

(** [a / b] on integers. *)
Definition truediv (a b : Z) : result Q :=
  if b =? 0 then Raise ZeroDivisionError
  else Ok (inject_Z a / inject_Z b)%Q.

(** [round(x)]: the nearest integer, a tie going to the even one. *)
Definition round (x : Q) : Z :=
  let f := Qfloor x in
  match (x - inject_Z f ?= 1 # 2)%Q with
  | Lt => f
  | Gt => f + 1
  | Eq => if Z.even f then f else f + 1
  end.

(** [int(x)] for a float: truncation toward zero. *)
Definition trunc (x : Q) : Z := if Qle_bool 0 x then Qfloor x else Qceiling x.

(** The decimal digits of a non-negative integer, as [str] gives them. *)
Fixpoint digits_fuel (fuel : nat) (n : Z) (acc : pystr) : pystr :=
  match fuel with
  | O => acc
  | S fuel' =>
    let acc' := (48 + n mod 10) :: acc in
    if n <? 10 then acc' else digits_fuel fuel' (n / 10) acc'
  end.

Definition str_of_nonneg (n : Z) : pystr :=
  digits_fuel (S (Z.to_nat (Z.log2 n))) n [].

(** ["%0<w>d" % n] for a non-negative [n]. *)
Definition zero_pad (w : nat) (n : Z) : pystr :=
  let ds := str_of_nonneg n in
  replicate (w - length ds) 48 ++ ds.

End PyNum.

(** ** [datetime]: naive date-times of the proleptic Gregorian calendar *)

Module PyTime.

Record datetime := mkDatetime {
  year : Z; month : Z; day : Z;
  hour : Z; minute : Z; second : Z; microsecond : Z;
}.

#[global] Instance datetime_eq_dec : EqDecision datetime.
Proof. solve_decision. Defined.

Definition is_leap (y : Z) : bool :=
  ((y mod 4 =? 0) && negb (y mod 100 =? 0)) || (y mod 400 =? 0).

Definition days_in_month (y m : Z) : Z :=
  if (m =? 2) then (if is_leap y then 29 else 28)
  else if (m =? 4) || (m =? 6) || (m =? 9) || (m =? 11) then 30
  else 31.

(** Days in the year before the first day of month [m]. *)
Definition days_before_month (y m : Z) : Z :=
  nth (Z.to_nat (m - 1)) [0; 31; 59; 90; 120; 151; 181; 212; 243; 273; 304; 334] 0
  + (if (2 <? m) && is_leap y then 1 else 0).

Definition days_before_year (y : Z) : Z :=
  let y' := y - 1 in y' * 365 + y' / 4 - y' / 100 + y' / 400.

(** [date.toordinal()]: day 1 is 0001-01-01. *)
Definition ymd2ord (y m d : Z) : Z :=
  days_before_year y + days_before_month y m + d.

Definition toordinal (t : datetime) : Z := ymd2ord (year t) (month t) (day t).

(** [date.fromordinal(n)], as the [datetime] module computes it. *)
Definition ord2ymd (n : Z) : Z * Z * Z :=
  let n := n - 1 in
  let n400 := n / 146097 in let n := n mod 146097 in
  let n100 := n / 36524 in let n := n mod 36524 in
  let n4 := n / 1461 in let n := n mod 1461 in
  let n1 := n / 365 in let n := n mod 365 in
  let y := n400 * 400 + 1 + n100 * 100 + n4 * 4 + n1 in
  if (n1 =? 4) || (n100 =? 4) then (y - 1, 12, 31)
  else
    let leap := (n1 =? 3) && (negb (n4 =? 24) || (n100 =? 3)) in
    let m := Z.shiftr (n + 50) 5 in
    let preceding := days_before_month 1 m + (if (2 <? m) && leap then 1 else 0) in
    if n <? preceding then
      let m' := m - 1 in
      let preceding' :=
        preceding - (days_in_month 1 m' + (if (m' =? 2) && leap then 1 else 0)) in
      (y, m', n - preceding' + 1)
    else (y, m, n - preceding + 1).

Definition valid_date (y m d : Z) : bool :=
  (1 <=? y) && (y <=? 9999) && (1 <=? m) && (m <=? 12)
  && (1 <=? d) && (d <=? days_in_month y m).

(** Microseconds since the midnight that starts day 1. *)
Definition to_micros (t : datetime) : Z :=
  (((toordinal t * 24 + hour t) * 60 + minute t) * 60 + second t) * 1000000
  + microsecond t.

(** [a >= b], [a < b] on date-times. *)
Definition ge (a b : datetime) : bool := to_micros b <=? to_micros a.

(** [(a - b).days]: a [timedelta] keeps whole days, rounded down. *)
Definition diff_days (a b : datetime) : Z :=
  (to_micros a - to_micros b) / 86400000000.

(** [t - timedelta(days=n)]; the result must lie in years 1..9999. *)
Definition minus_days (t : datetime) (n : Z) : result datetime :=
  let o := toordinal t - n in
  if (1 <=? o) && (o <=? 3652059) then
    let '(y, m, d) := ord2ymd o in
    Ok (mkDatetime y m d (hour t) (minute t) (second t) (microsecond t))
  else Raise OverflowError.

Definition plus_days (t : datetime) (n : Z) : result datetime :=
  minus_days t (- n).

(** [t.replace(hour=0, minute=0, second=0, microsecond=0)]. *)
Definition at_midnight (t : datetime) : datetime :=
  mkDatetime (year t) (month t) (day t) 0 0 0 0.

(** [t.weekday()]: Monday is 0. *)
Definition weekday (t : datetime) : Z := (toordinal t + 6) mod 7.

(** [t.isoformat()]. *)
Definition isoformat (t : datetime) : pystr :=
  PyNum.zero_pad 4 (year t) ++ [45] ++ PyNum.zero_pad 2 (month t) ++ [45]
  ++ PyNum.zero_pad 2 (day t) ++ [84]
  ++ PyNum.zero_pad 2 (hour t) ++ [58] ++ PyNum.zero_pad 2 (minute t) ++ [58]
  ++ PyNum.zero_pad 2 (second t)
  ++ (if microsecond t =? 0 then []
      else [46] ++ PyNum.zero_pad 6 (microsecond t)).

Definition day_abbr (t : datetime) : pystr :=
  nth (Z.to_nat (weekday t))
    [py "Mon"; py "Tue"; py "Wed"; py "Thu"; py "Fri"; py "Sat"; py "Sun"] [].

Definition day_name (t : datetime) : pystr :=
  nth (Z.to_nat (weekday t))
    [py "Monday"; py "Tuesday"; py "Wednesday"; py "Thursday"; py "Friday";
     py "Saturday"; py "Sunday"] [].

Definition month_abbr (t : datetime) : pystr :=
  nth (Z.to_nat (month t - 1))
    [py "Jan"; py "Feb"; py "Mar"; py "Apr"; py "May"; py "Jun";
     py "Jul"; py "Aug"; py "Sep"; py "Oct"; py "Nov"; py "Dec"] [].

(** The [strftime] formats the script uses, in the C locale. *)
Definition strftime_a (t : datetime) : pystr := day_abbr t.          (* "%a" *)
Definition strftime_b_Y (t : datetime) : pystr :=                     (* "%b %Y" *)
  month_abbr t ++ [32] ++ PyNum.str_of_nonneg (year t).
Definition strftime_dmY (t : datetime) : pystr :=                     (* "%d.%m.%Y" *)
  PyNum.zero_pad 2 (day t) ++ [46] ++ PyNum.zero_pad 2 (month t) ++ [46]
  ++ PyNum.str_of_nonneg (year t).
Definition strftime_A_dm (t : datetime) : pystr :=                    (* "%A, %d.%m." *)
  day_name t ++ py ", " ++ PyNum.zero_pad 2 (day t) ++ [46]
  ++ PyNum.zero_pad 2 (month t) ++ [46].

(** One numeric field of a [strptime] format: the longest of the listed
    widths whose digits are admissible, as the directive's pattern
    orders its alternatives.  Returns the value and the rest. *)
Definition take_digits (n : nat) (s : pystr) : option (Z * pystr) :=
  let ds := take n s in
  if (length ds =? n)%nat && forallb is_digit ds then
    match PyNum.parse_digits 10 0 true ds with
    | Some v => Some (v, drop n s)
    | None => None
    end
  else None.

(** [%m]: [1[0-2]|0[1-9]|[1-9]]. *)
Definition strp_month (s : pystr) : option (Z * pystr) :=
  match take_digits 2 s with
  | Some (v, rest) =>
    if (1 <=? v) && (v <=? 12) then Some (v, rest)
    else match take_digits 1 s with
         | Some (v1, rest1) => if 1 <=? v1 then Some (v1, rest1) else None
         | None => None
         end
  | None =>
    match take_digits 1 s with
    | Some (v1, rest1) => if 1 <=? v1 then Some (v1, rest1) else None
    | None => None
    end
  end.

(** [%d]: [3[0-1]|[1-2]\d|0[1-9]|[1-9]| [1-9]]. *)
Definition strp_day (s : pystr) : option (Z * pystr) :=
  let one (t : pystr) :=
    match take_digits 1 t with
    | Some (v1, rest1) => if 1 <=? v1 then Some (v1, rest1) else None
    | None => None
    end in
  match take_digits 2 s with
  | Some (v, rest) =>
    if (1 <=? v) && (v <=? 31) then Some (v, rest) else one s
  | None =>
    match one s with
    | Some out => Some out
    | None => match s with 32 :: t => one t | _ => None end
    end
  end.

(** [datetime.strptime(s, "%Y-%m-%d")]. *)
Definition strptime_Ymd (s : pystr) : result datetime :=
  match take_digits 4 s with
  | Some (y, 45 :: s1) =>
    match strp_month s1 with
    | Some (m, 45 :: s2) =>
      match strp_day s2 with
      | Some (d, []) =>
        if valid_date y m d then Ok (mkDatetime y m d 0 0 0 0)
        else Raise ValueError
      | _ => Raise ValueError
      end
    | _ => Raise ValueError
    end
  | _ => Raise ValueError
  end.

End PyTime.

(** ** Monthly-to-daily synthesizer *)

Module EAddress.
Import PyTime.

(** A cell of a datastore row as [response.json()] delivers it. *)
Inductive pyval :=
| VNone
| VBool (b : bool)
| VInt (z : Z)
| VFloat (q : Q)
| VStr (s : pystr).

(** A row of the datastore: a dict from column names to cells. *)
Abbreviation row := (gmap (list Z) pyval).

Record MonthlyRecord := mkRecord {
  date : datetime;
  label : pystr;
  fiziska : Z;
  juridiska : Z;
}.

Record DailyRate := mkRate {
  rate_date : datetime;
  rate_fiziska : Z;
  rate_juridiska : Z;
}.

Record StreakDay := mkStreakDay {
  streak_date : pystr;
  activated : Z;
  deactivated : Z;
  net : Z;
}.

(** [r[key]]. *)
Definition getitem (r : row) (key : pystr) : result pyval :=
  match r !! key with
  | Some v => Ok v
  | None => Raise KeyError
  end.

(** [r.get(key, dflt)]. *)
Definition get (r : row) (key : pystr) (dflt : pyval) : pyval :=
  default dflt (r !! key).

(** [v[:10]]: only a string can be sliced. *)
Definition slice10 (v : pyval) : result pystr :=
  match v with
  | VStr s => Ok (take 10 s)
  | _ => Raise TypeError
  end.

(** [int(v)]. *)
Definition py_int (v : pyval) : result Z :=
  match v with
  | VNone => Raise TypeError
  | VBool b => Ok (if b then 1 else 0)
  | VInt z => Ok z
  | VFloat q => Ok (PyNum.trunc q)
  | VStr s => PyNum.int_of_str 10 s
  end.

Definition col_date : pystr := py "DATUMS".
Definition col_fiziska : pystr := py "FIZISKA PERSONA".
Definition col_juridiska : pystr := py "REĢISTROS REĢISTRĒTS TIESĪBU SUBJEKTS".

(** The body of the [try] in [_fetch_eaddress_resource]. *)
Definition parse_row (r : row) : result MonthlyRecord :=
  v <- getitem r col_date ;;
  s <- slice10 v ;;
  d <- strptime_Ymd s ;;
  fiz <- py_int (get r col_fiziska (VInt 0)) ;;
  jur <- py_int (get r col_juridiska (VInt 0)) ;;
  Ok (mkRecord d (strftime_b_Y d) fiz jur).

(** [for r in ...: try: records.append(...) except (ValueError, KeyError):
    continue]; any other exception leaves the loop. *)
Fixpoint records_loop (rows : list row) (records : list MonthlyRecord)
  : result (list MonthlyRecord) :=
  match rows with
  | [] => Ok records
  | r :: rest =>
    match parse_row r with
    | Ok rec => records_loop rest (records ++ [rec])
    | Raise ValueError => records_loop rest records
    | Raise KeyError => records_loop rest records
    | Raise e => Raise e
    end
  end.

Definition resource_url (resource_id : pystr) : pystr :=
  py "https://data.gov.lv/dati/lv/api/3/action/datastore_search"
  ++ py "?resource_id=" ++ resource_id ++ py "&limit=100" ++ py "&sort=_id asc".

(** [_fetch_eaddress_resource].  [api url] is
    [requests.get(url, timeout=15).json()["result"]["records"]]. *)
Definition _fetch_eaddress_resource (api : pystr -> result (list row))
    (resource_id : pystr) : result (list MonthlyRecord) :=
  rows <- api (resource_url resource_id) ;;
  records_loop rows [].

(** [x or dflt] on an integer. *)
Definition or_else (x dflt : Z) : Z := if x =? 0 then dflt else x.

Definition index {A} (l : list A) (i : nat) : result A :=
  match l !! i with
  | Some x => Ok x
  | None => Raise IndexError
  end.

(** The divisor [_build_daily_rates] uses at step [i]. *)
Definition days_diff (prev_r curr_r : MonthlyRecord) : Z :=
  or_else (diff_days (date curr_r) (date prev_r)) 1.

(** One round of the loop of [_build_daily_rates]. *)
Definition daily_rate_at (all_records : list MonthlyRecord) (i : nat)
  : result DailyRate :=
  prev_r <- index all_records (i - 1) ;;
  curr_r <- index all_records i ;;
  f <- PyNum.truediv (fiziska curr_r - fiziska prev_r) (days_diff prev_r curr_r) ;;
  j <- PyNum.truediv (juridiska curr_r - juridiska prev_r) (days_diff prev_r curr_r) ;;
  Ok (mkRate (date curr_r) (PyNum.round f) (PyNum.round j)).

(** [_build_daily_rates]: [for i in range(1, len(all_records))]. *)
Definition _build_daily_rates (all_records : list MonthlyRecord)
  : result (list DailyRate) :=
  for_each (daily_rate_at all_records) (seq 1 (length all_records - 1)).

(** The divisor of the deactivation loop at step [i]. *)
Definition days_in_month_at (deact_records : list MonthlyRecord) (i : nat)
    (r : MonthlyRecord) : result Z :=
  if (i + 1 <? length deact_records)%nat then
    next <- index deact_records (i + 1) ;;
    Ok (or_else (diff_days (date next) (date r)) 30)
  else Ok 30.

(** One round of the deactivation loop of [get_eaddress_data]. *)
Definition deact_rate_at (deact_records : list MonthlyRecord) (i : nat)
  : result DailyRate :=
  r <- index deact_records i ;;
  dim <- days_in_month_at deact_records i r ;;
  f <- PyNum.truediv (fiziska r) dim ;;
  j <- PyNum.truediv (juridiska r) dim ;;
  Ok (mkRate (date r) (PyNum.round f) (PyNum.round j)).

(** [for i in range(len(deact_records))]. *)
Definition build_deact_rates (deact_records : list MonthlyRecord)
  : result (list DailyRate) :=
  for_each (deact_rate_at deact_records) (seq 0 (length deact_records)).

(** *** The jitter: [vary] *)

(** [seed = hashlib.md5(f"{day.isoformat()}-{category}".encode()).hexdigest()]. *)
Definition vary_seed (day : datetime) (category : pystr) : pystr :=
  MD5.hexdigest (encode (isoformat day ++ py "-" ++ category)).

(** [frac = int(seed[:8], 16) / 0xFFFFFFFF]. *)
Definition vary_frac (day : datetime) (category : pystr) : result Q :=
  h <- PyNum.int_of_str 16 (take 8 (vary_seed day category)) ;;
  PyNum.truediv h 0xFFFFFFFF.

(** [offset = (frac - 0.5) * 0.4]. *)
Definition vary_offset (frac : Q) : Q := ((frac - (1 # 2)) * (4 # 10))%Q.

(** [vary(avg, day, category)]. *)
Definition vary (avg : Z) (day : datetime) (category : pystr) : result Z :=
  frac <- vary_frac day category ;;
  Ok (Z.max 0 (PyNum.round (inject_Z avg * (1 + vary_offset frac))%Q)).

(** *** The rate lookup: [_find_rate] *)

(** [for dr in reversed(rates): if day >= dr["date"]: ...; break], run on
    the reversed list, [base] holding [(base_fiz, base_jur)]. *)
Fixpoint find_rate_loop (day : datetime) (rrates : list DailyRate)
    (base : Z * Z) : Z * Z :=
  match rrates with
  | [] => base
  | dr :: rest =>
    if ge day (rate_date dr) then (rate_fiziska dr, rate_juridiska dr)
    else find_rate_loop day rest base
  end.

(** [_find_rate(rates, day)]. *)
Definition _find_rate (rates : list DailyRate) (day : datetime) : Z * Z :=
  let base_fiz := match last rates with Some r => rate_fiziska r | None => 0 end in
  let base_jur := match last rates with Some r => rate_juridiska r | None => 0 end in
  find_rate_loop day (reverse rates) (base_fiz, base_jur).

(** *** The streak and the result *)

(** One round of [for days_ago in range(7, 0, -1)]: the entry appended to
    [streak_fiziska] and the one appended to [streak_juridiska]. *)
Definition streak_day (act_rates deact_rates : list DailyRate)
    (today : datetime) (days_ago : Z) : result (StreakDay * StreakDay) :=
  day <- minus_days today days_ago ;;
  let '(act_fiz, act_jur) := _find_rate act_rates day in
  let '(deact_fiz, deact_jur) := _find_rate deact_rates day in
  a_fiz <- vary act_fiz day (py "fiz") ;;
  a_jur <- vary act_jur day (py "jur") ;;
  d_fiz <- vary deact_fiz day (py "deact_fiz") ;;
  d_jur <- vary deact_jur day (py "deact_jur") ;;
  Ok (mkStreakDay (strftime_a day) a_fiz d_fiz (a_fiz - d_fiz),
      mkStreakDay (strftime_a day) a_jur d_jur (a_jur - d_jur)).

(** The two streaks, oldest day first. *)
Definition streaks (act_rates deact_rates : list DailyRate) (today : datetime)
  : result (list StreakDay * list StreakDay) :=
  days <- for_each (streak_day act_rates deact_rates today) [7; 6; 5; 4; 3; 2; 1] ;;
  Ok (map fst days, map snd days).

Record EAddressData := mkData {
  records : list MonthlyRecord;
  yesterday_fiziska : StreakDay;
  yesterday_juridiska : StreakDay;
  streak_fiziska : list StreakDay;
  streak_juridiska : list StreakDay;
}.

(** [l[-1]]. *)
Definition last_item {A} (l : list A) : result A :=
  match last l with
  | Some x => Ok x
  | None => Raise IndexError
  end.

Definition act_resource : pystr := py "c0062919-0601-4ac0-a319-92db7dd14d79".
Definition deact_resource : pystr := py "938b4925-86da-4229-a86d-fbc4365f555b".

(** The body of the [try] in [get_eaddress_data]; [now] is what
    [datetime.now()] returns. *)
Definition eaddress_body (api : pystr -> result (list row)) (now : datetime)
  : result EAddressData :=
  act_records <- _fetch_eaddress_resource api act_resource ;;
  deact_records <- _fetch_eaddress_resource api deact_resource ;;
  cutoff <- minus_days now (3 * 365) ;;
  let chart_records := filter (fun r => ge (date r) cutoff = true) act_records in
  act_rates <- _build_daily_rates act_records ;;
  deact_rates <- build_deact_rates deact_records ;;
  let today := at_midnight now in
  st <- streaks act_rates deact_rates today ;;
  y_fiz <- last_item (fst st) ;;
  y_jur <- last_item (snd st) ;;
  Ok (mkData chart_records y_fiz y_jur (fst st) (snd st)).

(** [get_eaddress_data]: [None] on any exception. *)
Definition get_eaddress_data (api : pystr -> result (list row))
    (now : datetime) : option EAddressData :=
  match eaddress_body api now with
  | Ok d => Some d
  | Raise _ => None
  end.

End EAddress.

(** ** The outside world: HTTP, the generative backend, the clock

    A run reads the world and leaves a trace of the requests it made. *)

Module Eff.

Inductive event :=
| EvGet (url : pystr)            (* requests.get(url, timeout=15) *)
| EvBackend (prompt : pystr).    (* client.messages.create(...) *)

Record World := mkWorld {
  (** [requests.get(url, timeout=15).text], or the exception raised *)
  http_get : pystr -> result pystr;
  (** [client.messages.create(...).content[0].text] for a prompt, or the
      exception raised *)
  backend : pystr -> result pystr;
  (** the module constant [HAS_ANTHROPIC]: the SDK is installed and
      [ANTHROPIC_API_KEY] is set *)
  HAS_ANTHROPIC : bool;
  (** [datetime.now()] *)
  now : PyTime.datetime;
}.

(** A computation: its outcome and the requests it made, in order. *)
Definition eff (A : Type) : Type := result A * list event.

Definition ret {A} (a : A) : eff A := (Ok a, []).

Definition raise {A} (e : exn) : eff A := (Raise e, []).

Definition ebind {A B} (m : eff A) (f : A -> eff B) : eff B :=
  match m with
  | (Ok a, t) => let '(r, t') := f a in (r, t ++ t')
  | (Raise e, t) => (Raise e, t)
  end.

(** [try: m except Exception: h]. *)
Definition catch {A} (m : eff A) (h : exn -> eff A) : eff A :=
  match m with
  | (Ok a, t) => (Ok a, t)
  | (Raise e, t) => let '(r, t') := h e in (r, t ++ t')
  end.

Definition get (w : World) (url : pystr) : eff pystr :=
  (http_get w url, [EvGet url]).

Definition ask_backend (w : World) (prompt : pystr) : eff pystr :=
  (backend w prompt, [EvBackend prompt]).

End Eff.
Import Eff.

Notation "x <~ m ;; k" := (Eff.ebind m (fun x => k))
  (at level 100, m at next level, right associativity).

(** ** Hybrid document summarizer *)

Module Summarizer.
Import Re.

Definition quote : pystr := [34].

(** The prompt [_ai_extract_essence] sends. *)
Definition prompt (annotation_text legal_act_text : pystr) : pystr :=
  let legal_act_section :=
    match legal_act_text with
    | [] => []
    | _ => py "

Legal act draft (the actual regulatory changes):
" ++ take 1500 legal_act_text
    end in
  py "Analyze this Latvian legal document and extract exactly 3 sections:

1. Pamatojums: (justification - 1 concise sentence)
2. Mērķis: (purpose - 1 concise sentence)
3. Risinājums: (the specific regulatory measure - 3-5 sentences describing the SUBSTANCE of the change. What exactly is being amended, added or removed? What specific rule or requirement is introduced? Use the legal act draft text to identify the concrete change.)

Avoid long legal references. Instead of " ++ quote
  ++ py "Ministru kabineta 2014. gada 8. jūlija noteikumos Nr. 392 ..." ++ quote
  ++ py " write " ++ quote ++ py "MK noteikumi Nr. 392" ++ quote ++ py ".
Keep it concise and clear. Output in Latvian.

Annotation:
" ++ take 2000 annotation_text ++ legal_act_section.

(** [_ai_extract_essence]. *)
Definition _ai_extract_essence (w : World) (annotation_text legal_act_text : pystr)
  : eff pystr :=
  ask_backend w (prompt annotation_text legal_act_text).

(** [1\.\d] *)
Definition next_subsection : regex := Seq (lit (py "1.")) digit.

(** The three section patterns, each with the body as group 1. *)
Definition label_patterns : list regex :=
  [ (* 1\.1\.\s*Pamatojums.*?Apraksts\s*(.*?)(?=1\.\d|$) *)
    seqs [lit (py "1.1."); star space; lit (py "Pamatojums"); lazy_star any;
          lit (py "Apraksts"); star space; Group 1 (lazy_star any);
          Look (alts [next_subsection; Eol])];
    (* 1\.2\.\s*Mērķis.*?Mērķa apraksts\s*(.*?)(?=Spēkā|1\.\d|$) *)
    seqs [lit (py "1.2."); star space; lit (py "Mērķis"); lazy_star any;
          lit (py "Mērķa apraksts"); star space; Group 1 (lazy_star any);
          Look (alts [lit (py "Spēkā"); next_subsection; Eol])];
    (* Risinājuma apraksts\s*(.*?)(?=Vai ir|1\.\d|$) *)
    seqs [lit (py "Risinājuma apraksts"); star space; Group 1 (lazy_star any);
          Look (alts [lit (py "Vai ir"); next_subsection; Eol])] ].

(** [\s+] *)
Definition spaces : regex := plus space.

(** Optional quoted titles after a citation: a quoted run, further quoted
    runs each after optional white space, then optional white space
    (greedy throughout). *)
Definition quoted_titles : regex :=
  let quoted := seqs [chr 34; star (not_chr 34); chr 34] in
  opt (seqs [quoted; star (Seq (star space) quoted); star space]).

(** [\d{4}\. gada \d{1,2}\.\s*\w+\s+]: a date in words. *)
Definition date_words : regex :=
  seqs [rep 4 digit; lit (py ". gada "); digit; opt digit; chr 46;
        star space; plus word; plus space].

(** Citation of a cabinet regulation: groups 1 (kind) and 2 (number). *)
Definition cabinet_citation : regex :=
  seqs [lit (py "Ministru kabineta "); date_words;
        Group 1 (alts [Seq (lit (py "noteikum")) (star word);
                       Seq (lit (py "rīkojum")) (star word);
                       Seq (lit (py "instrukcij")) (star word)]);
        star space; lit (py "Nr."); star space; Group 2 (plus nonspace);
        star space; quoted_titles].

(** [\(turpmāk\s*–\s*([^)]+)\)] *)
Definition hereinafter : regex :=
  seqs [lit (py "(turpmāk"); star space; lit (py "–"); star space;
        Group 1 (plus (not_chr 41)); chr 41].

(** Citation of a dated law or regulation: group 1 (kind). *)
Definition dated_citation : regex :=
  seqs [date_words;
        Group 1 (alts [Seq (lit (py "likum")) (star word);
                       Seq (lit (py "noteikum")) (star word)]);
        star space; quoted_titles].

(** The loop over the three patterns: the chunks found. *)
Definition section_chunks (text : pystr) : list pystr :=
  flat_map (fun label =>
    match search label text with
    | Some sm =>
      let chunk := strip (sub spaces (fun _ => py " ") (group_str text sm 1)) in
      match chunk with
      | [] => []
      | _ => [take 500 chunk]
      end
    | None => []
    end) label_patterns.

(** [_regex_extract_essence]. *)
Definition _regex_extract_essence (text : pystr) : pystr :=
  let sections_text := section_chunks text in
  let essence := join (py " | ") sections_text in
  let essence :=
    sub cabinet_citation
      (fun m => py "MK " ++ group_str essence m 1 ++ py " Nr." ++ [0xA0]
                ++ group_str essence m 2 ++ py " ") essence in
  let essence :=
    sub hereinafter (fun m => py "(" ++ group_str essence m 1 ++ py ")") essence in
  let essence :=
    sub dated_citation (fun m => group_str essence m 1 ++ py " ") essence in
  strip essence.

(** [_extract_essence]. *)
Definition _extract_essence (w : World) (cleaned_text legal_act_text : pystr)
  : eff pystr :=
  if HAS_ANTHROPIC w && (200 <? length cleaned_text)%nat then
    catch (_ai_extract_essence w cleaned_text legal_act_text)
          (fun _ => ret (_regex_extract_essence cleaned_text))
  else ret (_regex_extract_essence cleaned_text).

End Summarizer.

(** ** Markup stripping shared by the two extractors *)

Module Markup.
Import Re.

(** [<script[^>]*>.*?</script>] and the same for [style], with
    [re.DOTALL | re.IGNORECASE]. *)
Definition block (tag : pystr) : regex :=
  seqs [chr 60; lit_i tag; star (not_chr 62); chr 62; lazy_star any;
        lit (py "</"); lit_i tag; chr 62].

(** [<[^>]+>] *)
Definition tag : regex := seqs [chr 60; plus (not_chr 62); chr 62].

(** [&\w+;] *)
Definition entity : regex := seqs [chr 38; plus word; chr 59].

(** [\s+] *)
Definition spaces : regex := plus space.

(** The four substitutions step 7 applies to a fetched document: script
    and style blocks dropped, tags to newlines, entities to spaces. *)
Definition strip_document (html : pystr) : pystr :=
  let t := sub (block (py "script")) (fun _ => []) html in
  let t := sub (block (py "style")) (fun _ => []) t in
  let t := sub tag (fun _ => [10]) t in
  sub entity (fun _ => py " ") t.

(** [re.sub(r'\s+', ' ', t).strip()]. *)
Definition collapse (t : pystr) : pystr :=
  strip (sub spaces (fun _ => py " ") t).

(** [s.split('\n')]. *)
Fixpoint split_lines_aux (s cur : pystr) : list pystr :=
  match s with
  | [] => [reverse cur]
  | c :: s' =>
    if c =? 10 then reverse cur :: split_lines_aux s' []
    else split_lines_aux s' (c :: cur)
  end.

Definition split_lines (s : pystr) : list pystr := split_lines_aux s [].

End Markup.

(** ** Cabinet agenda extractor *)

Module Cabinet.
Import Re.

Definition BASE_URL : pystr := py "https://tapportals.mk.gov.lv".

(** A section heading and its offset in the agenda page (step 3). *)
Record AgendaSection := mkSection { sec_name : pystr; sec_pos : Z }.

(** An agenda item: the dict built in step 4.  The keys ["section"],
    ["essence"] and ["decision"] are absent ([None]) until steps 5 and 7
    set them. *)
Record Item := mkItem {
  pos : Z;
  ta_link : pystr;
  ta_id : pystr;
  title : pystr;
  reporter : pystr;
  section : option pystr;
  essence : option pystr;
  decision : option pystr;
}.

Definition set_section (it : Item) (s : pystr) : Item :=
  mkItem (pos it) (ta_link it) (ta_id it) (title it) (reporter it)
         (Some s) (essence it) (decision it).
Definition set_essence (it : Item) (s : pystr) : Item :=
  mkItem (pos it) (ta_link it) (ta_id it) (title it) (reporter it)
         (section it) (Some s) (decision it).
Definition set_decision (it : Item) (s : pystr) : Item :=
  mkItem (pos it) (ta_link it) (ta_id it) (title it) (reporter it)
         (section it) (essence it) (Some s).

Record CabinetResult := mkResult {
  meeting_date : pystr;
  meeting_url : pystr;
  cudars_items : list Item;
  all_sections : list pystr;
}.

(** *** Step 1: the next sitting *)

(** [[0-9a-f]] *)
Definition hex : regex := Chr (fun c => is_digit c || ((97 <=? c) && (c <=? 102))).

(** The [data-url] attribute holding a UUID path; group 1 is the path. *)
Definition meeting_link : regex :=
  seqs [lit (py "data-url="); chr 34;
        Group 1 (seqs [lit (py "/meetings/cabinet_ministers/");
                       rep 8 hex; chr 45; rep 4 hex; chr 45; rep 4 hex; chr 45;
                       rep 4 hex; chr 45; rep 12 hex]);
        chr 34].

(** The date shown in the row of that path; group 1 is
    [\d{2}\.\d{2}\.\d{4}\.\s*\d{2}:\d{2}]. *)
Definition meeting_date_pattern (meeting_path : pystr) : regex :=
  seqs [lit (py "data-url="); chr 34; lit meeting_path; chr 34;
        star (not_chr 62); chr 62; lazy_star any;
        lit (py "<span class="); chr 34; lit (py "flextable__value"); chr 34;
        chr 62;
        Group 1 (seqs [rep 2 digit; chr 46; rep 2 digit; chr 46; rep 4 digit;
                       chr 46; star space; rep 2 digit; chr 58; rep 2 digit]);
        lit (py "</span>")].

(** *** Step 3: section headings *)

(** [meeting__section-row[^>]*>(.*?)</div>\s*</div>] *)
Definition section_row : regex :=
  seqs [lit (py "meeting__section-row"); star (not_chr 62); chr 62;
        Group 1 (lazy_star any); lit (py "</div>"); star space;
        lit (py "</div>")].

Definition extract_sections (agenda_html : pystr) : list AgendaSection :=
  map (fun m =>
         mkSection
           (strip (sub Markup.tag (fun _ => []) (group_str agenda_html m 1)))
           (Z.of_nat (m_start m)))
      (finditer section_row agenda_html).

(** *** Step 4: agenda items *)

(** The link of a legal act: groups 1 (path) and 2 (text). *)
Definition ta_link_pattern : regex :=
  seqs [lit (py "href="); chr 34;
        Group 1 (Seq (lit (py "/legal_acts/")) (plus (not_chr 34)));
        chr 34; star (not_chr 62); chr 62; Group 2 (plus (not_chr 60));
        lit (py "</a>")].

(** The question cell; group 1 is its text. *)
Definition question_cell : regex :=
  seqs [lit (py "data-column-header-name="); chr 34; lit (py "Jautājums");
        chr 34; chr 62; Group 1 (plus (not_chr 60))].

(** The reporter cell; group 1 is its text. *)
Definition reporter_cell : regex :=
  seqs [lit (py "data-column-header-name="); chr 34; lit (py "Ziņo"); chr 34;
        chr 62; lit (py "<span"); star (not_chr 62); chr 62;
        Group 1 (star (not_chr 60)); lit (py "</span>")].

Definition extract_items (agenda_html : pystr) : list Item :=
  flat_map (fun ta =>
    let chunk := slice agenda_html (m_end ta) (m_end ta + 1500) in
    match search question_cell chunk, search reporter_cell chunk with
    | Some jm, Some zm =>
      [mkItem (Z.of_nat (m_start ta))
              (BASE_URL ++ group_str agenda_html ta 1)
              (strip (group_str agenda_html ta 2))
              (strip (group_str chunk jm 1))
              (strip (group_str chunk zm 1))
              None None None]
    | _, _ => []
    end) (finditer ta_link_pattern agenda_html).

(** *** Step 5: section assignment *)

(** The inner loop [for sec in reversed(sections): if item["pos"] >
    sec["pos"]: item["section"] = sec["name"]; break] on the reversed
    list; [cur] is the value [item["section"]] holds so far. *)
Fixpoint scan_sections (item_pos : Z) (rsecs : list AgendaSection) (cur : pystr)
  : pystr :=
  match rsecs with
  | [] => cur
  | sec :: rest =>
    if item_pos >? sec_pos sec then sec_name sec
    else scan_sections item_pos rest cur
  end.

Definition assign_section (sections : list AgendaSection) (it : Item) : Item :=
  set_section it (scan_sections (pos it) (reverse sections) (py "Unknown")).

(** [for item in items: ...]. *)
Definition assign_sections (sections : list AgendaSection) (items : list Item)
  : list Item :=
  map (assign_section sections) items.

(** *** Step 6: the reporter filter *)

(** [(?i)[čc]udars] *)
Definition cudars : regex := Seq (class_i (py "čc")) (lit_i (py "udars")).

Definition is_cudars (it : Item) : bool :=
  bool_decide (is_Some (search cudars (reporter it))).

(** *** Step 7: the protocol decision *)

(** [^\d+-TA-\d+] *)
Definition ta_number_line : regex :=
  seqs [Bol; plus digit; lit (py "-TA-"); plus digit].

(** [^\d+\.$] *)
Definition ordinal_line : regex := seqs [Bol; plus digit; chr 46; Eol].

(** [^\d+\.\s*$] *)
Definition open_clause : regex := seqs [Bol; plus digit; chr 46; star space; Eol].

Definition matches (r : regex) (s : pystr) : bool :=
  bool_decide (is_Some (re_match r s)).

(** The loop variable [capture]: [False], ["next"] or [True]. *)
Inductive capture := CaptureOff | CaptureNext | CaptureOn.

Definition is_next (c : capture) : bool :=
  match c with CaptureNext => true | _ => false end.

Definition is_footer (line : pystr) : bool :=
  contains (py "© Valsts") line || contains (py "atbalsts@") line
  || contains (py "Versija") line.

(** [for line in lines: ...] collecting [decision_lines]. *)
Fixpoint capture_loop (lines : list pystr) (cap : capture)
    (decision_lines : list pystr) : list pystr :=
  match lines with
  | [] => decision_lines
  | line :: rest =>
    if matches ta_number_line line then
      capture_loop rest CaptureNext decision_lines
    else if is_next cap && negb (matches ordinal_line line) then
      capture_loop rest cap decision_lines
    else
      let cap' :=
        if is_next cap && matches ordinal_line line then CaptureOn else cap in
      match cap' with
      | CaptureOn =>
        if is_footer line then decision_lines
        else capture_loop rest cap' (decision_lines ++ [line])
      | _ => capture_loop rest cap' decision_lines
      end
  end.

(** One round of [for dl in decision_lines] building [merged]. *)
Definition merge_step (merged : list pystr) (dl : pystr) : list pystr :=
  match matches ordinal_line dl, last merged with
  | true, Some _ => merged ++ [dl ++ py " "]
  | _, Some prev =>
    if matches open_clause prev then removelast merged ++ [prev ++ dl]
    else merged ++ [dl]
  | _, None => merged ++ [dl]
  end.

Definition merge_lines (decision_lines : list pystr) : list pystr :=
  foldl merge_step [] decision_lines.

(** The value stored in [item["decision"]], from the lines of the
    protocol document. *)
Definition decision_of_lines (lines : list pystr) : pystr :=
  let merged := merge_lines (capture_loop lines CaptureOff []) in
  match merged with
  | [] => []
  | _ => take 600 (strip (join (py " ") merged))
  end.

(** [[l.strip() for l in p_text.split('\n') if l.strip()]]. *)
Definition nonempty_lines (p_text : pystr) : list pystr :=
  flat_map (fun l => match strip l with [] => [] | l' => [l'] end)
           (Markup.split_lines p_text).

(** *** Step 7: the documents of one item *)

(** The annotation link; group 1 is the path. *)
Definition annotation_link : regex :=
  seqs [lit (py "href="); chr 34;
        Group 1 (Seq (lit (py "/annotation/")) (plus (not_chr 34))); chr 34].

(** A structuralizer link whose text holds one of [words], with
    [re.IGNORECASE]; group 1 is the path. *)
Definition structuralizer_link (words : list pystr) : regex :=
  seqs [lit_i (py "href="); chr 34;
        Group 1 (Seq (lit_i (py "/structuralizer/")) (plus (not_chr 34)));
        chr 34; star (not_chr 62); chr 62; star (not_chr 60);
        alts (map lit_i words)].

Definition draft_link : regex :=
  structuralizer_link [py "projekts"; py "grozījum"].
Definition protocol_link : regex :=
  structuralizer_link [py "protokollēmum"].

(** The legal act draft, if linked: its inner [try] passes on any
    exception. *)
Definition fetch_legal_act (w : World) (la_html : pystr) : eff pystr :=
  match search draft_link la_html with
  | Some lm =>
    catch (page <~ get w (BASE_URL ++ group_str la_html lm 1) ;;
           ret (Markup.collapse (Markup.strip_document page)))
          (fun _ => ret [])
  | None => ret []
  end.

(** The annotation, if linked, sets ["essence"]. *)
Definition fetch_essence (w : World) (la_html legal_act_text : pystr)
    (it : Item) : eff Item :=
  match search annotation_link la_html with
  | Some am =>
    page <~ get w (BASE_URL ++ group_str la_html am 1) ;;
    e <~ Summarizer._extract_essence w
           (Markup.collapse (Markup.strip_document page)) legal_act_text ;;
    ret (set_essence it e)
  | None => ret it
  end.

(** The protocol decision, if linked, sets ["decision"]. *)
Definition fetch_decision (w : World) (la_html : pystr) (it : Item) : eff Item :=
  match search protocol_link la_html with
  | Some pm =>
    page <~ get w (BASE_URL ++ group_str la_html pm 1) ;;
    ret (set_decision it
           (decision_of_lines (nonempty_lines (Markup.strip_document page))))
  | None => ret it
  end.

(** The item as an exception inside the [try] of step 7 leaves it: what
    was stored before the exception stays. *)
Definition keep_on_error (it : Item) (m : eff Item) : Item * list event :=
  match m with
  | (Ok it', t) => (it', t)
  | (Raise _, t) => (it, t)
  end.

(** One round of [for item in cudars_items]. *)
Definition enrich (w : World) (it : Item) : Item * list event :=
  let it0 := set_decision (set_essence it []) [] in
  match get w (ta_link it0) with
  | (Raise _, t) => (it0, t)
  | (Ok la_html, t) =>
    match fetch_legal_act w la_html with
    | (Raise _, t1) => (it0, t ++ t1)
    | (Ok legal_act_text, t1) =>
      match fetch_essence w la_html legal_act_text it0 with
      | (Raise _, t2) => (it0, t ++ t1 ++ t2)
      | (Ok it1, t2) =>
        let '(it2, t3) := keep_on_error it1 (fetch_decision w la_html it1) in
        (it2, t ++ t1 ++ t2 ++ t3)
      end
    end
  end.

Fixpoint enrich_all (w : World) (items : list Item) : list Item * list event :=
  match items with
  | [] => ([], [])
  | it :: rest =>
    let '(it', t) := enrich w it in
    let '(rest', t') := enrich_all w rest in
    (it' :: rest', t ++ t')
  end.

(** *** The whole extractor *)

Definition index_url : pystr := BASE_URL ++ py "/meetings/cabinet_ministers".

(** The body of the outer [try]: [Ok None] is the explicit [return None]
    of step 1. *)
Definition cabinet_body (w : World) : eff (option CabinetResult) :=
  html <~ get w index_url ;;
  match search meeting_link html with
  | None => ret None
  | Some mt =>
    let meeting_path := group_str html mt 1 in
    let meeting_url := BASE_URL ++ meeting_path in
    let meeting_date :=
      match search (meeting_date_pattern meeting_path) html with
      | Some dm => group_str html dm 1
      | None => py "Unknown date"
      end in
    agenda_html <~ get w meeting_url ;;
    let sections := extract_sections agenda_html in
    let items := assign_sections sections (extract_items agenda_html) in
    let '(cudars_items, t) := enrich_all w (List.filter is_cudars items) in
    (Ok (Some (mkResult meeting_date meeting_url cudars_items
                        (map sec_name sections))), t)
  end.

(** [get_cabinet_cudars_items]: the result ([None] for Python's [None])
    and the requests made. *)
Definition get_cabinet_cudars_items (w : World)
  : option CabinetResult * list event :=
  match cabinet_body w with
  | (Ok r, t) => (r, t)
  | (Raise _, t) => (None, t)
  end.

End Cabinet.

(** ** Parliament agenda extractor *)

Module Parliament.
Import Re PyTime.

Definition SAEIMA_BASE : pystr := py "https://titania.saeima.lv".

(** Keywords for direct matching. *)
Definition VARAM_KEYWORDS : list pystr :=
  [py "viedās administrācijas un reģionālās attīstības ministrij";
   py "varam"].

(** Keywords and phrases for content analysis. *)
Definition DIGITAL_TOPICS : list pystr :=
  [py "digitāl"; py "e-pārvald"; py "e-pakalpojum"; py "datu pārvaldīb";
   py "informācijas sistēm"; py "informācijas tehnoloģij"; py "kiberdrošīb";
   py "elektronisk"; py "atvērt"; py "dati"; py "digitalizāc";
   py "mākslīg"; py "intelekt"; py "platforma"; py "portāl";
   py "IKT"; py "IT drošīb"; py "informācijas sabiedrīb";
   py "tehnoloģiju attīstīb"; py "inovāci"; py "e-identit";
   py "interoperabilit"; py "reģistr"; py "datu apstrād";
   py "datu aizsardzīb"; py "privātum"].

Inductive MatchType := keyword | content.

(** The value of ["match_type"] as the script stores it. *)
Definition match_type_str (m : MatchType) : pystr :=
  match m with keyword => py "keyword" | content => py "content" end.

Record AgendaItem := mkAgendaItem {
  item_date : pystr;
  item_time : pystr;
  commission : pystr;
  point : pystr;
  link : pystr;
  match_type : MatchType;
}.

Record ParliamentResult := mkParliament {
  week_start : pystr;
  week_end : pystr;
  items : list AgendaItem;
}.

(** [any(kw in point_lower for kw in VARAM_KEYWORDS)]. *)
Definition is_keyword (point_lower : pystr) : bool :=
  existsb (fun kw => contains kw point_lower) VARAM_KEYWORDS.

(** [sum(1 for dt in DIGITAL_TOPICS if dt.lower() in point_lower)]. *)
Definition topic_matches (point_lower : pystr) : Z :=
  Z.of_nat (length (List.filter (fun dt => contains (lower dt) point_lower)
                                DIGITAL_TOPICS)).

(** [matches >= 2]. *)
Definition is_digital (point_lower : pystr) : bool :=
  2 <=? topic_matches point_lower.

(** The class of a point: [None] when the point is passed over. *)
Definition classify (pt : pystr) : option MatchType :=
  let point_lower := lower pt in
  if is_keyword point_lower || is_digital point_lower then
    Some (if is_digital point_lower then content else keyword)
  else None.

(** [point[:300] + ("..." if len(point) > 300 else "")]. *)
Definition display (pt : pystr) : pystr :=
  take 300 pt ++ (if (300 <? length pt)%nat then py "..." else []).

(** One round of [for point in points]: the items appended to
    [results]. *)
Definition point_items (day : datetime) (time_str title sitting_url pt : pystr)
  : list AgendaItem :=
  match classify pt with
  | Some mt =>
    [mkAgendaItem (strftime_A_dm day) time_str title (display pt) sitting_url mt]
  | None => []
  end.

(** A sitting in the day's index; groups 1 (time), 2 (title), 3 (unid). *)
Definition draw_PE : regex :=
  let field (name : pystr) (i : nat) :=
    seqs [star (not_chr 125); lit name; chr 58; chr 34;
          Group i (plus (not_chr 34)); chr 34] in
  seqs [lit (py "draw_PE({"); field (py "time") 1%nat; field (py "title") 2%nat;
        field (py "unid") 3%nat].

(** The agenda body; group 1 is its markup.  It ends before a closing
    [div] that a comment follows, or at the end of the page. *)
Definition text_body : regex :=
  seqs [lit (py "id="); chr 34; lit (py "textBody"); chr 34; chr 62;
        Group 1 (lazy_star any);
        alts [seqs [lit (py "</div>"); star space; lit (py "<!--")]; EndZ]].

(** [(?=\b\d+\.\s)]: the place before a numbered point. *)
Definition point_start : regex :=
  Look (seqs [WordB; plus digit; chr 46; space]).

(** [s.replace(".", "")]. *)
Definition remove_dots (s : pystr) : pystr :=
  List.filter (fun c => negb (c =? 46)) s.

(** The cleaned agenda text of a sitting page, [None] when the body block
    is missing. *)
Definition agenda_text (agenda_html : pystr) : option pystr :=
  match search text_body agenda_html with
  | None => None
  | Some tb =>
    let raw := group_str agenda_html tb 1 in
    let raw := sub (Markup.block (py "script")) (fun _ => py " ") raw in
    let t := sub Markup.tag (fun _ => py " ") raw in
    let t := sub Markup.entity (fun _ => py " ") t in
    Some (Markup.collapse t)
  end.

(** [[p.strip() for p in re.split(...) if p.strip()]]. *)
Definition split_points (text : pystr) : list pystr :=
  flat_map (fun p => match strip p with [] => [] | p' => [p'] end)
           (split point_start text).

Definition sitting_url (unid : pystr) : pystr :=
  SAEIMA_BASE ++ py "/LIVS/SaeimasNotikumi.nsf/0/" ++ unid ++ py "?OpenDocument".

(** One round of [for time_raw, title, unid in sittings]: a failed fetch
    skips the sitting. *)
Definition sitting_items (w : World) (day : datetime)
    (time_raw title unid : pystr) : list AgendaItem * list event :=
  let time_str := strip (remove_dots time_raw) in
  match get w (sitting_url unid) with
  | (Raise _, t) => ([], t)
  | (Ok agenda_html, t) =>
    match agenda_text agenda_html with
    | None => ([], t)
    | Some [] => ([], t)
    | Some text =>
      (flat_map (point_items day time_str title (sitting_url unid))
                (split_points text), t)
    end
  end.

Definition day_url (day : datetime) : pystr :=
  SAEIMA_BASE
  ++ py "/LIVS/SaeimasNotikumi.nsf/webComisDK?OpenView&count=1000&restricttocategory="
  ++ strftime_dmY day.

(** One round of [for day in week_dates]; the fetch of the day's index is
    outside the inner [try]. *)
Definition day_items (w : World) (day : datetime) : eff (list AgendaItem) :=
  page <~ get w (day_url day) ;;
  let per_sitting (m : rmatch) :=
    sitting_items w day (group_str page m 1) (group_str page m 2)
                  (group_str page m 3) in
  let outs := map per_sitting (finditer draw_PE page) in
  (Ok (flat_map fst outs), flat_map snd outs).

(** [week_dates]: Monday to Friday of the next calendar week. *)
Definition week_dates (now : datetime) : result (list datetime) :=
  let today := at_midnight now in
  let days_until_monday := (7 - weekday today) mod 7 in
  let days_until_monday := if days_until_monday =? 0 then 7 else days_until_monday in
  next_monday <- plus_days today days_until_monday ;;
  for_each (fun i => plus_days next_monday i) [0; 1; 2; 3; 4].

Fixpoint days_loop (w : World) (days : list datetime) : eff (list AgendaItem) :=
  match days with
  | [] => ret []
  | day :: rest =>
    here <~ day_items w day ;;
    later <~ days_loop w rest ;;
    ret (here ++ later)
  end.

(** The body of the outer [try]. *)
Definition parliament_body (w : World) : eff ParliamentResult :=
  match week_dates (now w) with
  | Raise e => raise e
  | Ok dates =>
    results <~ days_loop w dates ;;
    match head dates, last dates with
    | Some d0, Some d4 =>
      ret (mkParliament (strftime_dmY d0) (strftime_dmY d4) results)
    | _, _ => raise IndexError
    end
  end.

(** [get_parliament_agenda]. *)
Definition get_parliament_agenda (w : World)
  : option ParliamentResult * list event :=
  match parliament_body w with
  | (Ok r, t) => (Some r, t)
  | (Raise _, t) => (None, t)
  end.

End Parliament.

(** ** Predicates used to state the properties *)

Module Spec.
Import PyTime.

(** No section of [l] lies strictly before offset [p]. *)
Definition none_before (p : Z) (l : list Cabinet.AgendaSection) : Prop :=
  Forall (fun s => p <= Cabinet.sec_pos s) l.

(** Daily rates in ascending order of their dates. *)
Definition ascending (rates : list EAddress.DailyRate) : Prop :=
  StronglySorted
    (fun a b => to_micros (EAddress.rate_date a) <= to_micros (EAddress.rate_date b))
    rates.

(** The lookup the synthesizer asks for: (0, 0) for no rates; the last
    rate when every rate is dated after [day]; otherwise a rate dated on
    or before [day] with the greatest date among those. *)
Definition most_recent_rate (rates : list EAddress.DailyRate) (day : datetime)
    (out : Z * Z) : Prop :=
  (rates = [] /\ out = (0, 0))
  \/ (exists lst,
        last rates = Some lst
        /\ Forall (fun r => ge day (EAddress.rate_date r) = false) rates
        /\ out = (EAddress.rate_fiziska lst, EAddress.rate_juridiska lst))
  \/ (exists r0,
        r0 ∈ rates
        /\ ge day (EAddress.rate_date r0) = true
        /\ (forall r, r ∈ rates -> ge day (EAddress.rate_date r) = true ->
              ge (EAddress.rate_date r0) (EAddress.rate_date r) = true)
        /\ out = (EAddress.rate_fiziska r0, EAddress.rate_juridiska r0)).






End Spec.
Import Spec.

(** ** Data of the worked examples *)

Module Examples.
Import PyTime.

(** Sections A, B, C at offsets 0, 100, 250. *)
Definition example_sections : list Cabinet.AgendaSection :=
  [Cabinet.mkSection (py "A") 0; Cabinet.mkSection (py "B") 100;
   Cabinet.mkSection (py "C") 250].

(** An item at offset [p]; the other keys play no part in step 5. *)
Definition item_at (p : Z) : Cabinet.Item :=
  Cabinet.mkItem p [] [] [] [] None None None.

(** The non-empty lines of a protocol document. *)
Definition example_protocol_lines : list pystr :=
  [py "12-TA-345 Some Title"; py "irrelevant"; py "1."; py "First clause.";
   py "2."; py "Second clause."; py "© Valsts ..."].

(** An agenda point that names the ministry and two digital topics. *)
Definition varam_digital_point : pystr :=
  py "1. VARAM ziņojums par digitālās platformas attīstību".

Definition example_day : datetime := mkDatetime 2026 11 9 0 0 0 0.

(** A world with the generative backend configured and answering. *)
Definition backend_world : World :=
  mkWorld (fun _ => Raise RequestException)
          (fun _ => Ok (py "1. Pamatojums: ...")) true
          (mkDatetime 2026 11 4 9 30 0 0).

(** A world whose every request times out. *)
Definition offline_world : World :=
  mkWorld (fun _ => Raise RequestException) (fun _ => Raise BackendError) false
          (mkDatetime 2026 11 4 9 30 0 0).

(** A world whose meetings index lists no sitting. *)
Definition empty_index_world : World :=
  mkWorld (fun _ => Ok (py "<form data-url='/meetings/cabinet_ministers/search_form'></form>"))
          (fun _ => Raise BackendError) false
          (mkDatetime 2026 11 4 9 30 0 0).

Definition example_rates : list EAddress.DailyRate :=
  [EAddress.mkRate (mkDatetime 2026 8 1 0 0 0 0) 40 7;
   EAddress.mkRate (mkDatetime 2026 9 1 0 0 0 0) 52 9;
   EAddress.mkRate (mkDatetime 2026 10 1 0 0 0 0) 61 4].

Definition row_of (cells : list (pystr * EAddress.pyval)) : EAddress.row :=
  list_to_map cells.

(** A complete row, a row without counts, a row whose date does not
    parse, a row without a date, a row with a count that is no number,
    and a row whose date cell is null. *)
Definition good_row : EAddress.row :=
  row_of [(EAddress.col_date, EAddress.VStr (py "2024-03-01T00:00:00"));
          (EAddress.col_fiziska, EAddress.VInt 1200);
          (EAddress.col_juridiska, EAddress.VStr (py "340"))].
Definition no_counts_row : EAddress.row :=
  row_of [(EAddress.col_date, EAddress.VStr (py "2024-04-01"))].
Definition bad_date_row : EAddress.row :=
  row_of [(EAddress.col_date, EAddress.VStr (py "01.05.2024"));
          (EAddress.col_fiziska, EAddress.VInt 1300)].
Definition no_date_row : EAddress.row :=
  row_of [(EAddress.col_fiziska, EAddress.VInt 1400)].
Definition bad_count_row : EAddress.row :=
  row_of [(EAddress.col_date, EAddress.VStr (py "2024-06-01"));
          (EAddress.col_fiziska, EAddress.VStr (py "n/a"))].
Definition null_date_row : EAddress.row :=
  row_of [(EAddress.col_date, EAddress.VNone);
          (EAddress.col_fiziska, EAddress.VInt 1500)].

(** A datastore that answers every query with the given rows. *)
Definition api_of (rows : list EAddress.row) : pystr -> result (list EAddress.row) :=
  fun _ => Ok rows.

(** A date-time whose seed for the tag "fiz" starts with ffffffff. *)
Definition all_f_day : datetime := mkDatetime 2052 12 19 4 35 39 0.

(** Monthly rows of the two resources. *)
Definition month_row (d : string) (fiz jur : Z) : EAddress.row :=
  row_of [(EAddress.col_date, EAddress.VStr (py d));
          (EAddress.col_fiziska, EAddress.VInt fiz);
          (EAddress.col_juridiska, EAddress.VInt jur)].

Definition activation_rows : list EAddress.row :=
  [month_row "2026-08-01T00:00:00" 1480000 131000;
   month_row "2026-09-01T00:00:00" 1483100 131310;
   month_row "2026-10-01T00:00:00" 1486400 131700;
   month_row "2026-11-01T00:00:00" 1489810 132041].

Definition deactivation_rows : list EAddress.row :=
  [month_row "2026-09-01T00:00:00" 620 45;
   month_row "2026-10-01T00:00:00" 713 31;
   month_row "2026-11-01T00:00:00" 540 60].

(** A datastore holding the two resources. *)
Definition example_api (url : pystr) : result (list EAddress.row) :=
  if contains EAddress.act_resource url then Ok activation_rows
  else if contains EAddress.deact_resource url then Ok deactivation_rows
  else Raise RequestException.

(** Two readings of the clock on the same day. *)
Definition morning : datetime := mkDatetime 2026 11 4 9 30 0 0.
Definition night : datetime := mkDatetime 2026 11 4 23 59 59 999999.

(** A short annotation: 41 characters. *)
Definition short_annotation : pystr :=
  py "Risinājuma apraksts Precizēt kārtību. ".

End Examples.
Import Examples.

(** ** Predicates for the further properties *)

Module Shapes.
Import PyTime.

(** An entry of a streak as the loop builds it. *)
Definition entry_ok (s : EAddress.StreakDay) : Prop :=
  EAddress.net s = EAddress.activated s - EAddress.deactivated s
  /\ 0 <= EAddress.activated s /\ 0 <= EAddress.deactivated s.

(** The month and the day [fromordinal] gives for the day with index
    [n] (from 0) of a year, leap or not: the last step of [ord2ymd]. *)
Definition month_day (leap : bool) (n : Z) : Z * Z :=
  let m := Z.shiftr (n + 50) 5 in
  let preceding := days_before_month 1 m + (if (2 <? m) && leap then 1 else 0) in
  if n <? preceding then
    let m' := m - 1 in
    let preceding' :=
      preceding - (days_in_month 1 m' + (if (m' =? 2) && leap then 1 else 0)) in
    (m', n - preceding' + 1)
  else (m, n - preceding + 1).

(** What that month and day must be, in a year [yr] of that kind. *)
Definition month_day_ok (leap : bool) (yr : Z) (n : Z) : bool :=
  let '(m, d) := month_day leap n in
  (1 <=? m) && (m <=? 12) && (1 <=? d) && (d <=? days_in_month yr m)
  && (days_before_month yr m + d =? n + 1).

(** [P] holds of the [fuel] integers from [n] on. *)
Fixpoint all_from (P : Z -> bool) (fuel : nat) (n : Z) : bool :=
  match fuel with
  | O => true
  | S fuel' => P n && all_from P fuel' (n + 1)
  end.

(** A number whose zero-padded text of width [w] has exactly [w] digits
    and reads back as the number. *)
Definition pad_ok (w : nat) (n : Z) : bool :=
  (length (PyNum.zero_pad w n) =? w)%nat
  && forallb is_digit (PyNum.zero_pad w n)
  && bool_decide (PyNum.parse_digits 10 0 true (PyNum.zero_pad w n) = Some n).

End Shapes.
Import Shapes.

Module Listing.

(** The fields of an agenda item that steps 4 and 5 of the cabinet
    extractor set. *)
Definition listing (it : Cabinet.Item)
  : Z * pystr * pystr * pystr * pystr * option pystr :=
  (Cabinet.pos it, Cabinet.ta_link it, Cabinet.ta_id it, Cabinet.title it,
   Cabinet.reporter it, Cabinet.section it).

(** An item as step 7 leaves it: the three keys added after step 4 are
    present. *)
Definition complete (it : Cabinet.Item) : Prop :=
  is_Some (Cabinet.section it) /\ is_Some (Cabinet.essence it)
  /\ is_Some (Cabinet.decision it).

End Listing.
Import Listing.

Module Matching.
Import Re.

(** The least number of characters a match of a pattern spans. *)
Fixpoint min_len (r : regex) : nat :=
  match r with
  | Chr _ => 1
  | Seq a b => min_len a + min_len b
  | Alt a b => Nat.min (min_len a) (min_len b)
  | Group _ a => min_len a
  | _ => 0
  end.

(** A state of the matcher at a position of the subject [s]. *)
Definition inside (s : pystr) (st : mstate) : Prop :=
  st_rest st = drop (st_pos st) s /\ (st_pos st <= length s)%nat.

(** Matches of a scan of [s] that starts at [start]: each begins at or
    after the end of the one before, spans at least [width] characters
    and ends inside [s]; a match that follows an empty match ends after
    it ([adv]). *)
Fixpoint in_order (s : pystr) (width start : nat) (adv : bool)
    (ms : list rmatch) : Prop :=
  match ms with
  | [] => True
  | m :: ms' =>
    (start <= m_start m)%nat /\ (m_start m + width <= m_end m)%nat
    /\ (m_end m <= length s)%nat
    /\ (adv = true -> (start < m_end m)%nat)
    /\ in_order s width (m_end m) (m_end m =? m_start m)%nat ms'
  end.

(** [negb (c.isspace())]. *)
Definition is_ink (c : Z) : bool := negb (is_space c).

End Matching.
Import Matching.

Module Requests.

(** A request the cabinet extractor may make: a page of the portal, or
    the backend when it is configured. *)
Definition portal_request (w : World) (ev : event) : Prop :=
  match ev with
  | EvGet url => startswith Cabinet.BASE_URL url = true
  | EvBackend _ => HAS_ANTHROPIC w = true
  end.

End Requests.
Import Requests.

(** ** Worlds of the further examples *)

Module Worlds.
Import PyTime.

(** The double quote of the markup. *)
Definition dq : pystr := [34].

(** The records of the two example resources as they are fetched. *)
Definition example_acts : list EAddress.MonthlyRecord :=
  Eval vm_compute in
    match EAddress._fetch_eaddress_resource example_api EAddress.act_resource with
    | Ok l => l
    | Raise _ => []
    end.


(** A datastore one of whose rows has a null date cell. *)
Definition null_cell_api : pystr -> result (list EAddress.row) :=
  api_of [good_row; null_date_row].

(** *** A cabinet sitting *)

Definition sitting_path : pystr :=
  py "/meetings/cabinet_ministers/0a1b2c3d-4e5f-6789-abcd-ef0123456789".

Definition index_page : pystr :=
  py "<div class='row' data-url=" ++ dq ++ sitting_path ++ dq
  ++ py "><span class=" ++ dq ++ py "flextable__value" ++ dq
  ++ py ">10.11.2026. 10:00</span></div>".

(** One row of the agenda table. *)
Definition agenda_row (path number question reporter : string) : pystr :=
  py "<a href=" ++ dq ++ py path ++ dq ++ py ">" ++ py number ++ py "</a>"
  ++ py "<td data-column-header-name=" ++ dq ++ py "Jautājums" ++ dq ++ py ">"
  ++ py question ++ py "</td>"
  ++ py "<td data-column-header-name=" ++ dq ++ py "Ziņo" ++ dq
  ++ py "><span class='name'>" ++ py reporter ++ py "</span></td>".

Definition agenda_page : pystr :=
  py "<div class=" ++ dq ++ py "meeting__section-row" ++ dq
  ++ py "><div>I. Tiesību aktu projekti</div> </div>"
  ++ agenda_row "/legal_acts/1111" "25-TA-100" "Noteikumu projekts" "R. Čudars"
  ++ agenda_row "/legal_acts/1112" "25-TA-101" "Rīkojuma projekts" "B. Braže"
  ++ py "<div class=" ++ dq ++ py "meeting__section-row" ++ dq
  ++ py "><div>II. Informatīvie ziņojumi</div> </div>"
  ++ agenda_row "/legal_acts/1113" "25-TA-102" "Informatīvais ziņojums" "r. cudars".

Definition legal_act_page : pystr :=
  py "<a href=" ++ dq ++ py "/annotation/2222" ++ dq ++ py ">Anotācija</a>"
  ++ py "<a href=" ++ dq ++ py "/structuralizer/3333" ++ dq
  ++ py ">Protokollēmuma teksts</a>".

Definition annotation_page : pystr :=
  py "<p>Risinājuma apraksts</p><p>Precizēt kārtību.</p><p>Vai ir citi?</p>".

Definition protocol_page : pystr :=
  py "<p>25-TA-100 Noteikumu projekts</p><p>1.</p><p>Pieņemt projektu.</p>"
  ++ py "<p>© Valsts kanceleja</p>".

(** The portal; [protocol] is what the request for a protocol gives. *)
Definition cabinet_http (protocol : result pystr) (url : pystr) : result pystr :=
  if contains (py "/legal_acts/") url then Ok legal_act_page
  else if contains (py "/annotation/") url then Ok annotation_page
  else if contains (py "/structuralizer/") url then protocol
  else if contains sitting_path url then Ok agenda_page
  else if contains (py "/meetings/cabinet_ministers") url then Ok index_page
  else Raise RequestException.

Definition cabinet_world : World :=
  mkWorld (cabinet_http (Ok protocol_page)) (fun _ => Raise BackendError) false
          morning.

(** The same portal with the protocols out of reach. *)
Definition no_protocol_world : World :=
  mkWorld (cabinet_http (Raise RequestException)) (fun _ => Raise BackendError)
          false morning.

(** A portal that serves the index only. *)
Definition index_only_world : World :=
  mkWorld (fun url => if bool_decide (url = Cabinet.index_url)
                      then Ok index_page else Raise RequestException)
          (fun _ => Raise BackendError) false morning.

(** The item of the first row of the agenda, as step 5 leaves it. *)
Definition first_item : Cabinet.Item :=
  Cabinet.mkItem 79 (Cabinet.BASE_URL ++ py "/legal_acts/1111") (py "25-TA-100")
    (py "Noteikumu projekts") (py "R. Čudars")
    (Some (py "I. Tiesību aktu projekti")) None None.

(** *** A week of the parliament *)

Definition day_page : pystr :=
  py "draw_PE({time:" ++ dq ++ py "10.00" ++ dq ++ py ",title:" ++ dq
  ++ py "Valsts pārvaldes un pašvaldības komisija" ++ dq ++ py ",unid:" ++ dq
  ++ py "ABC123" ++ dq ++ py "});".

Definition sitting_page : pystr :=
  py "<div id=" ++ dq ++ py "textBody" ++ dq
  ++ py "><p>1. VARAM ziņojums par digitālās platformas attīstību.</p>"
  ++ py "<p>2. Dažādi.</p></div> <!-- end -->".

Definition parliament_world : World :=
  mkWorld (fun url =>
             if contains (py "webComisDK") url then Ok day_page
             else if contains (py "OpenDocument") url then Ok sitting_page
             else Raise RequestException)
          (fun _ => Raise BackendError) false morning.

(** The week after 4 November 2026. *)
Definition next_week : list datetime :=
  [mkDatetime 2026 11 9 0 0 0 0; mkDatetime 2026 11 10 0 0 0 0;
   mkDatetime 2026 11 11 0 0 0 0; mkDatetime 2026 11 12 0 0 0 0;
   mkDatetime 2026 11 13 0 0 0 0].

(** A text without a heading. *)
Definition plain_text : pystr := py "Projekts precizē kārtību.".

End Worlds.
Import Worlds.

(** * Properties *)

(** ** Cabinet agenda extractor: section assignment *)

Section SectionAssignment.
Import Cabinet.

(** The scan returns the first entry strictly before [p], or keeps [cur]. *)
Lemma scan_sections_cases (p : Z) (rsecs : list AgendaSection) (cur : pystr) :
  (none_before p rsecs /\ scan_sections p rsecs cur = cur)
  \/ (exists l1 s l2,
        rsecs = l1 ++ s :: l2 /\ none_before p l1 /\ sec_pos s < p
        /\ scan_sections p rsecs cur = sec_name s).
Proof.
  induction rsecs as [|sec rest IH]; simpl.
  - left. split; [constructor | reflexivity].
  - destruct (Z.gtb_spec p (sec_pos sec)) as [Hlt | Hge].
    + right. exists [], sec, rest. repeat split; [constructor | lia].
    + destruct IH as [[Hnone Hcur] | (l1 & s & l2 & -> & Hnone & Hs & Hres)].
      * left. split; [constructor; [lia | exact Hnone] | exact Hcur].
      * right. exists (sec :: l1), s, l2.
        repeat split; [constructor; [lia | exact Hnone] | exact Hs | exact Hres].
Qed.

Lemma none_before_reverse (p : Z) (l : list AgendaSection) :
  none_before p (reverse l) <-> none_before p l.
Proof. unfold none_before. rewrite !Forall_forall. setoid_rewrite elem_of_reverse. reflexivity. Qed.

(** C3, as amended.  Step 5 gives every item the name of the last section
    of the page whose offset is strictly less than the item's offset (the
    first such section of the reversed list), and "Unknown" when no
    section has a smaller offset.  With sections A, B, C at offsets 0,
    100, 250, the items at offsets 50, 150, 300 get A, B, C; an item at
    offset 10 gets A, since A's offset 0 is smaller; an item at offset 0
    or below gets "Unknown". *)
Theorem assign_section_nearest_preceding :
  (forall (sections : list AgendaSection) (it : Item),
      (none_before (pos it) sections
       /\ section (assign_section sections it) = Some (py "Unknown"))
      \/ (exists before s after,
            sections = before ++ s :: after
            /\ sec_pos s < pos it
            /\ none_before (pos it) after
            /\ section (assign_section sections it) = Some (sec_name s)))
  /\ map section (assign_sections example_sections
                    [item_at 50; item_at 150; item_at 300])
     = [Some (py "A"); Some (py "B"); Some (py "C")]
  /\ section (assign_section example_sections (item_at 10)) = Some (py "A")
  /\ section (assign_section example_sections (item_at 0)) = Some (py "Unknown")
  /\ section (assign_section [] (item_at 10)) = Some (py "Unknown").
Proof.
  split; [| repeat split; reflexivity].
  intros sections it. unfold assign_section. simpl.
  destruct (scan_sections_cases (pos it) (reverse sections) (py "Unknown"))
    as [[Hnone ->] | (l1 & s & l2 & Hrev & Hnone & Hs & ->)].
  - left. split; [by apply none_before_reverse | reflexivity].
  - right. exists (reverse l2), s, (reverse l1).
    split; [| split; [exact Hs | split; [by apply none_before_reverse | reflexivity]]].
    apply (f_equal reverse) in Hrev. rewrite reverse_involutive in Hrev.
    rewrite Hrev, reverse_app, reverse_cons, <- app_assoc. reflexivity.
Qed.

(** C3 as stated fails: with sections at offsets 0, 100, 250 the item at
    offset 10 is not before every section, and it is assigned A. *)
Lemma item_at_10_is_not_unknown :
  section (assign_section example_sections (item_at 10)) <> Some (py "Unknown").
Proof. vm_compute. discriminate. Qed.

End SectionAssignment.

(** ** Parliament agenda extractor: classification of a point *)

Section Classification.
Import Parliament.

(** What [classify] returns, by the two tests of the loop body. *)
Lemma classify_cases (pt : pystr) :
  classify pt =
    if is_digital (lower pt) then Some content
    else if is_keyword (lower pt) then Some keyword
    else None.
Proof.
  unfold classify.
  destruct (is_keyword (lower pt)), (is_digital (lower pt)); reflexivity.
Qed.

(** At least two topic stems and no ministry keyword: a content match. *)
Lemma two_topics_content (pt : pystr) :
  2 <= topic_matches (lower pt) -> classify pt = Some content.
Proof.
  intros H. rewrite classify_cases. unfold is_digital.
  destruct (Z.leb_spec 2 (topic_matches (lower pt))); [reflexivity | lia].
Qed.

(** Fewer than two topic stems and no ministry keyword: passed over. *)
Lemma one_topic_discarded (pt : pystr) :
  topic_matches (lower pt) < 2 -> is_keyword (lower pt) = false ->
  classify pt = None.
Proof.
  intros H Hk. rewrite classify_cases, Hk. unfold is_digital.
  destruct (Z.leb_spec 2 (topic_matches (lower pt))); [lia | reflexivity].
Qed.

(** A ministry keyword with fewer than two topic stems: a keyword match. *)
Lemma keyword_below_two_topics (pt : pystr) :
  is_keyword (lower pt) = true -> topic_matches (lower pt) < 2 ->
  classify pt = Some keyword.
Proof.
  intros Hk H. rewrite classify_cases, Hk. unfold is_digital.
  destruct (Z.leb_spec 2 (topic_matches (lower pt))); [lia | reflexivity].
Qed.

(** C1, the failing input.  The point names the ministry by its acronym
    and holds two topic stems ("digitāl", "platforma"); the loop body
    stores it with match type "content", not "keyword". *)
Theorem varam_point_with_two_topics_is_content :
  is_keyword (lower varam_digital_point) = true
  /\ topic_matches (lower varam_digital_point) = 2
  /\ classify varam_digital_point = Some content
  /\ map match_type
       (point_items example_day (py "1000") (py "Komisija") (py "url")
                    varam_digital_point)
     = [content].
Proof. repeat split; vm_compute; reflexivity. Qed.

End Classification.

(** ** Cabinet agenda extractor: the protocol decision *)

Section Decision.
Import Cabinet.

(** The first ordinal marker is stored bare, so the line after it is
    appended without a space; every later marker is stored with one. *)
Lemma merge_first_marker (text : pystr) :
  matches ordinal_line text = false ->
  merge_lines [py "1."; text] = [py "1." ++ text].
Proof.
  intros H. unfold merge_lines. simpl.
  change (merge_step [] (py "1.")) with [py "1."].
  unfold merge_step. rewrite H. reflexivity.
Qed.

Lemma merge_step_nil (dl : pystr) : merge_step [] dl = [dl].
Proof. unfold merge_step. simpl. destruct (matches ordinal_line dl); reflexivity. Qed.

Lemma merge_later_marker (first text : pystr) :
  matches ordinal_line text = false ->
  merge_lines [first; py "2."; text] = [first; py "2. " ++ text].
Proof.
  intros H. unfold merge_lines. simpl. rewrite merge_step_nil.
  change (merge_step [first] (py "2.")) with [first; py "2. "].
  unfold merge_step. rewrite H. reflexivity.
Qed.

(** C2, the failing input.  For the document of the claim the lines kept
    are the four between the title and the copyright line, and the
    decision stored is "1.First clause. 2. Second clause.": the first
    clause has no space after its marker. *)
Theorem decision_of_example_document :
  nonempty_lines (join [10] example_protocol_lines) = example_protocol_lines
  /\ capture_loop example_protocol_lines CaptureOff []
     = [py "1."; py "First clause."; py "2."; py "Second clause."]
  /\ decision_of_lines example_protocol_lines
     = py "1.First clause. 2. Second clause."
  /\ decision_of_lines example_protocol_lines
     <> py "1. First clause. 2. Second clause.".
Proof. repeat split; vm_compute; [reflexivity .. | discriminate]. Qed.

End Decision.

(** ** Hybrid summarizer: the length threshold *)

Section SummarizerDispatch.
Import Summarizer.

(** The generative path is taken exactly when the backend is configured
    and the text is longer than 200 characters. *)
Lemma extract_essence_long (w : World) (cleaned legal : pystr) :
  HAS_ANTHROPIC w = true -> (200 < length cleaned)%nat ->
  snd (_extract_essence w cleaned legal) = [EvBackend (prompt cleaned legal)]
  /\ (forall text, backend w (prompt cleaned legal) = Ok text ->
        fst (_extract_essence w cleaned legal) = Ok text)
  /\ (forall e, backend w (prompt cleaned legal) = Raise e ->
        fst (_extract_essence w cleaned legal)
        = Ok (_regex_extract_essence cleaned)).
Proof.
  intros Hk Hlen. unfold _extract_essence. rewrite Hk.
  destruct (Nat.ltb_spec 200 (length cleaned)) as [_ | ?]; [| lia]. simpl.
  unfold _ai_extract_essence, ask_backend, catch.
  destruct (backend w (prompt cleaned legal)) as [text | e] eqn:Hb; simpl.
  - split; [reflexivity | split; [congruence | discriminate]].
  - split; [reflexivity | split; [discriminate | reflexivity]].
Qed.

(** Without a configured backend the fallback runs, whatever the length. *)
Lemma extract_essence_no_backend (w : World) (cleaned legal : pystr) :
  HAS_ANTHROPIC w = false ->
  _extract_essence w cleaned legal = (Ok (_regex_extract_essence cleaned), []).
Proof. intros Hk. unfold _extract_essence. rewrite Hk. reflexivity. Qed.

(** C7.  For an annotation text shorter than 200 characters
    [_extract_essence] returns the result of [_regex_extract_essence] and
    makes no request at all, so the generative backend is not called,
    whether or not it is configured and whatever it would answer. *)
Theorem short_text_never_calls_backend (w : World) (cleaned legal : pystr) :
  (length cleaned < 200)%nat ->
  _extract_essence w cleaned legal = (Ok (_regex_extract_essence cleaned), []).
Proof.
  intros Hlen. unfold _extract_essence.
  destruct (Nat.ltb_spec 200 (length cleaned)) as [? | _]; [lia |].
  rewrite andb_false_r. reflexivity.
Qed.

Lemma short_text_never_calls_backend_witness :
  (length short_annotation < 200)%nat
  /\ _extract_essence backend_world short_annotation []
     = (Ok (_regex_extract_essence short_annotation), []).
Proof.
  split; [vm_compute; lia |].
  apply (short_text_never_calls_backend backend_world short_annotation []).
  vm_compute; lia.
Defined.

End SummarizerDispatch.

(** ** Cabinet agenda extractor: failure at step 1 *)

Section CabinetNull.
Import Cabinet.

(** C8.  When the request for the meetings index raises, or the index
    holds no [data-url] attribute with a UUID path, the extractor returns
    [None], and the index request is the only one it made. *)
Theorem cabinet_none_without_meeting (w : World) :
  (exists e, http_get w index_url = Raise e)
  \/ (exists html, http_get w index_url = Ok html
                   /\ Re.search meeting_link html = None) ->
  get_cabinet_cudars_items w = (None, [EvGet index_url]).
Proof.
  intros [[e He] | (html & Hget & Hnone)];
    unfold get_cabinet_cudars_items, cabinet_body, get, ebind; rewrite ?He, ?Hget.
  - reflexivity.
  - rewrite Hnone. reflexivity.
Qed.

Lemma cabinet_none_without_meeting_witness :
  get_cabinet_cudars_items offline_world = (None, [EvGet index_url])
  /\ get_cabinet_cudars_items empty_index_world = (None, [EvGet index_url]).
Proof.
  split.
  - apply (cabinet_none_without_meeting offline_world).
    left. exists RequestException. reflexivity.
  - apply (cabinet_none_without_meeting empty_index_world).
    right. eexists. split; [reflexivity | vm_compute; reflexivity].
Defined.

End CabinetNull.

(** ** Numbers *)

Section Numbers.



Lemma for_each_defined {A B} (f : A -> result B) (xs : list A) :
  (forall x, x ∈ xs -> exists y, f x = Ok y) ->
  exists ys, for_each f xs = Ok ys /\ length ys = length xs
             /\ (forall i x, xs !! i = Some x ->
                   exists y, ys !! i = Some y /\ f x = Ok y).
Proof.
  induction xs as [|x xs IH]; intros Hf; simpl.
  - exists []. split; [reflexivity |]. split; [reflexivity |].
    intros i x Hx. rewrite lookup_nil in Hx. discriminate.
  - destruct (Hf x) as [y Hy]; [left |]. rewrite Hy. cbn [bind].
    destruct IH as (ys & Hys & Hlen & Hel);
      [intros x' Hx'; apply Hf; right; exact Hx' |].
    rewrite Hys. cbn [bind]. exists (y :: ys).
    split; [reflexivity |]. split; [simpl; lia |].
    intros [|i] x' Hx'; simpl in Hx'.
    + inversion Hx'; subst. exists y. split; [reflexivity | exact Hy].
    + apply (Hel i x' Hx').
Qed.

End Numbers.

(** ** Synthesizer: the daily rates *)

Section DailyRates.
Import PyTime EAddress.


Lemma or_else_zero (dflt : Z) : or_else 0 dflt = dflt.
Proof. reflexivity. Qed.






End DailyRates.

(** ** Synthesizer: the rate lookup *)

Section FindRate.
Import PyTime EAddress.

(** The reversed scan stops at the first rate dated on or before [day],
    or keeps [base]. *)
Lemma find_rate_loop_cases (day : datetime) (rrates : list DailyRate)
    (base : Z * Z) :
  (Forall (fun r => ge day (rate_date r) = false) rrates
   /\ find_rate_loop day rrates base = base)
  \/ (exists l1 r0 l2,
        rrates = l1 ++ r0 :: l2
        /\ Forall (fun r => ge day (rate_date r) = false) l1
        /\ ge day (rate_date r0) = true
        /\ find_rate_loop day rrates base = (rate_fiziska r0, rate_juridiska r0)).
Proof.
  induction rrates as [|dr rest IH]; simpl.
  - left. split; [constructor | reflexivity].
  - destruct (ge day (rate_date dr)) eqn:Hge.
    + right. exists [], dr, rest. repeat split; [constructor | exact Hge].
    + destruct IH as [[Hnone Hb] | (l1 & r0 & l2 & -> & Hnone & Hr0 & Hres)].
      * left. split; [constructor; assumption | exact Hb].
      * right. exists (dr :: l1), r0, l2.
        repeat split; [constructor; assumption | exact Hr0 | exact Hres].
Qed.

(** C6.  For rates in ascending date order, [_find_rate] returns (0, 0)
    for the empty sequence; the values of the last rate when every rate
    is dated after the day; and otherwise the values of a rate dated on
    or before the day whose date is the greatest among those. *)
Theorem find_rate_most_recent (rates : list DailyRate) (day : datetime) :
  ascending rates -> most_recent_rate rates day (_find_rate rates day).
Proof.
  intros Hsorted. unfold most_recent_rate, _find_rate.
  destruct (find_rate_loop_cases day (reverse rates)
              (match last rates with Some r => rate_fiziska r | None => 0 end,
               match last rates with Some r => rate_juridiska r | None => 0 end))
    as [[Hnone ->] | (l1 & r0 & l2 & Hrev & Hnone & Hr0 & ->)].
  - destruct (last rates) as [lst|] eqn:Hlast.
    + right. left. exists lst. split; [reflexivity |]. split; [| reflexivity].
      rewrite Forall_forall in *. intros r Hr. apply Hnone.
      apply elem_of_reverse. exact Hr.
    + left. apply last_None in Hlast. split; [exact Hlast | reflexivity].
  - right. right. exists r0.
    assert (Hsplit : rates = reverse l2 ++ r0 :: reverse l1).
    { apply (f_equal reverse) in Hrev. rewrite reverse_involutive in Hrev.
      rewrite Hrev, reverse_app, reverse_cons, <- app_assoc. reflexivity. }
    split; [rewrite Hsplit; apply elem_of_app; right; left |].
    split; [exact Hr0 |]. split; [| reflexivity].
    intros r Hr Hle. rewrite Hsplit in Hr, Hsorted.
    apply elem_of_app in Hr as [Hr | Hr].
    + unfold ge. apply Z.leb_le.
      apply (StronglySorted_app_1_elem_of _ _ _ r r0 Hsorted Hr). left.
    + apply elem_of_cons in Hr as [-> | Hr].
      * unfold ge. apply Z.leb_le. lia.
      * rewrite Forall_forall in Hnone.
        rewrite (Hnone r) in Hle; [discriminate |].
        apply elem_of_reverse. exact Hr.
Qed.

Lemma example_rates_ascending : ascending example_rates.
Proof.
  unfold ascending, example_rates.
  repeat (constructor; [| repeat constructor; vm_compute; discriminate]).
  constructor.
Qed.

Lemma find_rate_most_recent_witness :
  ascending example_rates
  /\ most_recent_rate example_rates (mkDatetime 2026 9 17 0 0 0 0)
       (_find_rate example_rates (mkDatetime 2026 9 17 0 0 0 0)).
Proof.
  split; [exact example_rates_ascending |].
  apply (find_rate_most_recent example_rates (mkDatetime 2026 9 17 0 0 0 0)).
  exact example_rates_ascending.
Defined.

(** The lookup on the example: a day inside a period, a day before the
    first period (the last rate is the fallback), and no rates at all. *)
Example find_rate_examples :
  _find_rate example_rates (mkDatetime 2026 9 17 0 0 0 0) = (52, 9)
  /\ _find_rate example_rates (mkDatetime 2026 7 1 0 0 0 0) = (61, 4)
  /\ _find_rate [] (mkDatetime 2026 7 1 0 0 0 0) = (0, 0).
Proof. repeat split; vm_compute; reflexivity. Qed.

End FindRate.

(** ** Synthesizer: parsing the rows of a resource *)

Section FetchRows.
Import PyTime EAddress.



Lemma parse_row_ok (r : row) (s : pystr) (d : datetime) (f j : Z) :
  r !! col_date = Some (VStr s) -> strptime_Ymd (take 10 s) = Ok d ->
  py_int (get r col_fiziska (VInt 0)) = Ok f ->
  py_int (get r col_juridiska (VInt 0)) = Ok j ->
  parse_row r = Ok (mkRecord d (strftime_b_Y d) f j).
Proof.
  intros H Hs Hf Hj. unfold parse_row, getitem. rewrite H. simpl.
  rewrite Hs. simpl. rewrite Hf. simpl. rewrite Hj. reflexivity.
Qed.










(** The five rows give two records: the complete row and the row
    without counts, in that order. *)
Example fetch_example :
  _fetch_eaddress_resource
    (api_of [good_row; bad_date_row; no_counts_row; no_date_row; bad_count_row])
    act_resource
  = Ok [mkRecord (mkDatetime 2024 3 1 0 0 0 0) (py "Mar 2024") 1200 340;
        mkRecord (mkDatetime 2024 4 1 0 0 0 0) (py "Apr 2024") 0 0].
Proof. vm_compute. reflexivity. Qed.


End FetchRows.

(** ** Synthesizer: the jitter *)

Section Jitter.
Import PyTime EAddress.














(** The jitter on that day raises a rate of 100 by the full 20 percent. *)
Example vary_on_all_f_day : vary 100 all_f_day (py "fiz") = Ok 120.
Proof. vm_compute. reflexivity. Qed.

End Jitter.

(** ** Synthesizer: the streak is a function of the records and the day *)

Section Determinism.
Import PyTime EAddress.

Lemma at_midnight_ordinal (now1 now2 : datetime) :
  at_midnight now1 = at_midnight now2 -> toordinal now1 = toordinal now2.
Proof.
  unfold at_midnight, toordinal. intros H. inversion H as [[Hy Hm Hd]].
  rewrite Hy, Hm, Hd. reflexivity.
Qed.

(** Whether the cutoff of the chart can be computed depends on the day
    only. *)
Lemma minus_days_same_day (now1 now2 : datetime) (n : Z) :
  at_midnight now1 = at_midnight now2 ->
  (exists c1 c2, minus_days now1 n = Ok c1 /\ minus_days now2 n = Ok c2)
  \/ (minus_days now1 n = Raise OverflowError
      /\ minus_days now2 n = Raise OverflowError).
Proof.
  intros H. unfold minus_days. rewrite (at_midnight_ordinal _ _ H).
  destruct ((1 <=? toordinal now2 - n) && (toordinal now2 - n <=? 3652059)).
  - left. destruct (ord2ymd (toordinal now2 - n)) as [[y m] d].
    eexists. eexists. split; reflexivity.
  - right. split; reflexivity.
Qed.

(** [vary] reads the day through its ISO text only. *)
Lemma vary_same_isoformat (avg : Z) (day1 day2 : datetime) (category : pystr) :
  isoformat day1 = isoformat day2 ->
  vary avg day1 category = vary avg day2 category.
Proof.
  intros H. unfold vary, vary_frac, vary_seed. rewrite H. reflexivity.
Qed.

(** C4.  Two runs that fetch the same records of the two resources on
    the same calendar day, at whatever time of day, produce the same
    streaks and the same entries for yesterday; and [vary] gives one
    value for one ISO date text, category and base rate. *)
Theorem streak_is_deterministic
    (api1 api2 : pystr -> result (list row)) (now1 now2 : datetime) :
  _fetch_eaddress_resource api1 act_resource
  = _fetch_eaddress_resource api2 act_resource ->
  _fetch_eaddress_resource api1 deact_resource
  = _fetch_eaddress_resource api2 deact_resource ->
  at_midnight now1 = at_midnight now2 ->
  streak_fiziska <$> get_eaddress_data api1 now1
  = streak_fiziska <$> get_eaddress_data api2 now2
  /\ streak_juridiska <$> get_eaddress_data api1 now1
     = streak_juridiska <$> get_eaddress_data api2 now2
  /\ yesterday_fiziska <$> get_eaddress_data api1 now1
     = yesterday_fiziska <$> get_eaddress_data api2 now2
  /\ yesterday_juridiska <$> get_eaddress_data api1 now1
     = yesterday_juridiska <$> get_eaddress_data api2 now2
  /\ (forall avg day1 day2 category,
        isoformat day1 = isoformat day2 ->
        vary avg day1 category = vary avg day2 category).
Proof.
  intros Hact Hdeact Hday.
  assert (Hruns : forall {A} (f : EAddressData -> A),
             (forall c1 c2 y1 y2 s1 s2,
                 f (mkData c1 y1 y2 s1 s2) = f (mkData c2 y1 y2 s1 s2)) ->
             f <$> get_eaddress_data api1 now1
             = f <$> get_eaddress_data api2 now2).
  { intros A f Hf. unfold get_eaddress_data, eaddress_body.
    rewrite Hact, Hdeact, Hday.
    destruct (_fetch_eaddress_resource api2 act_resource) as [act|]; [| reflexivity].
    cbn [bind].
    destruct (_fetch_eaddress_resource api2 deact_resource) as [deact|];
      [| reflexivity].
    cbn [bind].
    destruct (minus_days_same_day now1 now2 (3 * 365) Hday)
      as [(c1 & c2 & -> & ->) | [-> ->]]; [| reflexivity].
    cbn [bind].
    destruct (_build_daily_rates act) as [act_rates|]; [| reflexivity].
    cbn [bind].
    destruct (build_deact_rates deact) as [deact_rates|]; [| reflexivity].
    cbn [bind].
    destruct (streaks act_rates deact_rates (at_midnight now2)) as [st|];
      [| reflexivity].
    cbn [bind].
    destruct (last_item (fst st)) as [y_fiz|]; [| reflexivity]. cbn [bind].
    destruct (last_item (snd st)) as [y_jur|]; [| reflexivity]. cbn [bind].
    simpl. f_equal. apply Hf. }
  split; [apply Hruns; reflexivity |].
  split; [apply Hruns; reflexivity |].
  split; [apply Hruns; reflexivity |].
  split; [apply Hruns; reflexivity |].
  intros avg day1 day2 category. apply vary_same_isoformat.
Qed.

Lemma streak_is_deterministic_witness :
  _fetch_eaddress_resource example_api act_resource
  = _fetch_eaddress_resource example_api act_resource
  /\ _fetch_eaddress_resource example_api deact_resource
     = _fetch_eaddress_resource example_api deact_resource
  /\ at_midnight morning = at_midnight night
  /\ streak_fiziska <$> get_eaddress_data example_api morning
     = streak_fiziska <$> get_eaddress_data example_api night.
Proof.
  split; [reflexivity |]. split; [reflexivity |]. split; [reflexivity |].
  exact (proj1 (streak_is_deterministic example_api example_api morning night
                  eq_refl eq_refl eq_refl)).
Defined.

(** The streak of natural persons for the example records, read on the
    morning of 4 November 2026: Wednesday to Tuesday. *)
Example example_streak :
  streak_fiziska <$> get_eaddress_data example_api morning
  = Some [mkStreakDay (py "Wed") 93 24 69; mkStreakDay (py "Thu") 106 25 81;
          mkStreakDay (py "Fri") 130 26 104; mkStreakDay (py "Sat") 100 27 73;
          mkStreakDay (py "Sun") 119 16 103; mkStreakDay (py "Mon") 121 17 104;
          mkStreakDay (py "Tue") 111 20 91].
Proof. vm_compute. reflexivity. Qed.

End Determinism.

(** * Further properties *)

(** ** Synthesizer: the shape of the result *)

Section StreakShape.
Import PyTime EAddress.

Lemma for_each_inv {A B} (f : A -> result B) (xs : list A) (ys : list B) :
  for_each f xs = Ok ys -> Forall2 (fun x y => f x = Ok y) xs ys.
Proof.
  revert ys. induction xs as [|x xs IH]; intros ys; simpl.
  - intros H. inversion H. constructor.
  - destruct (f x) as [y|] eqn:Hy; cbn [bind]; [| discriminate].
    destruct (for_each f xs) as [ys'|]; cbn [bind]; [| discriminate].
    intros H. inversion H. constructor; [exact Hy | apply IH; reflexivity].
Qed.

Lemma vary_nonneg (avg : Z) (day : datetime) (category : pystr) (v : Z) :
  vary avg day category = Ok v -> 0 <= v.
Proof.
  unfold vary. destruct (vary_frac day category); cbn [bind]; [| discriminate].
  intros H. inversion H. lia.
Qed.

Lemma streak_day_inv (act_rates deact_rates : list DailyRate)
    (today : datetime) (days_ago : Z) (sf sj : StreakDay) :
  streak_day act_rates deact_rates today days_ago = Ok (sf, sj) ->
  entry_ok sf /\ entry_ok sj /\ streak_date sf = streak_date sj.
Proof.
  unfold streak_day.
  destruct (minus_days today days_ago) as [day|]; cbn [bind]; [| discriminate].
  destruct (_find_rate act_rates day) as [act_fiz act_jur].
  destruct (_find_rate deact_rates day) as [deact_fiz deact_jur].
  destruct (vary act_fiz day (py "fiz")) as [a_fiz|] eqn:H1; cbn [bind];
    [| discriminate].
  destruct (vary act_jur day (py "jur")) as [a_jur|] eqn:H2; cbn [bind];
    [| discriminate].
  destruct (vary deact_fiz day (py "deact_fiz")) as [d_fiz|] eqn:H3; cbn [bind];
    [| discriminate].
  destruct (vary deact_jur day (py "deact_jur")) as [d_jur|] eqn:H4; cbn [bind];
    [| discriminate].
  intros H. inversion H. subst. unfold entry_ok. simpl.
  apply vary_nonneg in H1, H2, H3, H4. repeat split; assumption.
Qed.

Lemma last_item_inv {A} (l : list A) (x : A) :
  last_item l = Ok x -> last l = Some x.
Proof. unfold last_item. destruct (last l); intros H; inversion H; reflexivity. Qed.

(** X1.  Whenever [get_eaddress_data] returns a result, each of its two
    streaks has exactly seven entries, the entry for yesterday is the
    last one of its streak, every entry has
    [net = activated - deactivated] with both counts non-negative, and
    the two streaks carry the same weekday labels. *)
Theorem streak_shape (api : pystr -> result (list row)) (now : datetime)
    (d : EAddressData) :
  get_eaddress_data api now = Some d ->
  length (streak_fiziska d) = 7%nat
  /\ length (streak_juridiska d) = 7%nat
  /\ last (streak_fiziska d) = Some (yesterday_fiziska d)
  /\ last (streak_juridiska d) = Some (yesterday_juridiska d)
  /\ Forall entry_ok (streak_fiziska d)
  /\ Forall entry_ok (streak_juridiska d)
  /\ map streak_date (streak_fiziska d) = map streak_date (streak_juridiska d).
Proof.
  unfold get_eaddress_data, eaddress_body.
  destruct (_fetch_eaddress_resource api act_resource) as [act|]; cbn [bind];
    [| discriminate].
  destruct (_fetch_eaddress_resource api deact_resource) as [deact|]; cbn [bind];
    [| discriminate].
  destruct (minus_days now (3 * 365)) as [cutoff|]; cbn [bind]; [| discriminate].
  destruct (_build_daily_rates act) as [act_rates|]; cbn [bind]; [| discriminate].
  destruct (build_deact_rates deact) as [deact_rates|]; cbn [bind];
    [| discriminate].
  unfold streaks.
  destruct (for_each (streak_day act_rates deact_rates (at_midnight now))
              [7; 6; 5; 4; 3; 2; 1]) as [days|] eqn:Hdays; cbn [bind];
    [| discriminate].
  cbn [fst snd].
  destruct (last_item (map fst days)) as [y_fiz|] eqn:Hyf; cbn [bind];
    [| discriminate].
  destruct (last_item (map snd days)) as [y_jur|] eqn:Hyj; cbn [bind];
    [| discriminate].
  intros H. inversion H. subst d. cbn [streak_fiziska streak_juridiska
    yesterday_fiziska yesterday_juridiska].
  apply for_each_inv in Hdays.
  assert (Hlen : length days = 7%nat)
    by (rewrite <- (Forall2_length _ _ _ Hdays); reflexivity).
  assert (Hall : Forall (fun p => entry_ok (fst p) /\ entry_ok (snd p)
                                  /\ streak_date (fst p) = streak_date (snd p))
                        days).
  { clear -Hdays. induction Hdays as [|k [sf sj] ks days' Hk _ IH];
      constructor; [| exact IH].
    apply (streak_day_inv _ _ _ _ _ _ Hk). }
  rewrite !length_map.
  split; [exact Hlen |]. split; [exact Hlen |].
  split; [apply last_item_inv; exact Hyf |].
  split; [apply last_item_inv; exact Hyj |].
  split; [| split].
  - rewrite Forall_fmap. eapply Forall_impl; [exact Hall |].
    intros p Hp. apply Hp.
  - rewrite Forall_fmap. eapply Forall_impl; [exact Hall |].
    intros p Hp. apply Hp.
  - rewrite <- !list_fmap_compose. apply Forall_fmap_ext_1.
    eapply Forall_impl; [exact Hall |]. intros p Hp. apply Hp.
Qed.

Lemma streak_shape_witness :
  exists d,
    get_eaddress_data example_api morning = Some d
    /\ length (streak_fiziska d) = 7%nat
    /\ length (streak_juridiska d) = 7%nat
    /\ last (streak_fiziska d) = Some (yesterday_fiziska d)
    /\ last (streak_juridiska d) = Some (yesterday_juridiska d)
    /\ Forall entry_ok (streak_fiziska d)
    /\ Forall entry_ok (streak_juridiska d)
    /\ map streak_date (streak_fiziska d) = map streak_date (streak_juridiska d).
Proof.
  eexists. split; [vm_compute; reflexivity |].
  apply (streak_shape example_api morning). vm_compute. reflexivity.
Defined.

End StreakShape.

(** ** Dates: ordinals *)

Section Ordinals.
Import PyTime.

Lemma is_leap_true (y : Z) :
  is_leap y = true <-> (y mod 4 = 0 /\ y mod 100 <> 0) \/ y mod 400 = 0.
Proof.
  unfold is_leap.
  rewrite orb_true_iff, andb_true_iff, negb_true_iff, !Z.eqb_eq, Z.eqb_neq.
  reflexivity.
Qed.

Lemma div_pred (y c : Z) :
  0 < c -> y / c = (y - 1) / c + (if y mod c =? 0 then 1 else 0).
Proof.
  intros Hc. pose proof (Z.div_mod y c ltac:(lia)) as Hdm.
  pose proof (Z.mod_pos_bound y c Hc) as Hb.
  destruct (Z.eqb_spec (y mod c) 0) as [H0 | Hn].
  - rewrite <- (Z.div_unique_pos (y - 1) c (y / c - 1) (c - 1)); lia.
  - rewrite <- (Z.div_unique_pos (y - 1) c (y / c) (y mod c - 1)); lia.
Qed.

Lemma days_before_year_succ (y : Z) :
  days_before_year (y + 1)
  = days_before_year y + 365 + (if is_leap y then 1 else 0).
Proof.
  unfold days_before_year, is_leap. replace (y + 1 - 1) with y by lia.
  rewrite (div_pred y 4), (div_pred y 100), (div_pred y 400) by lia.
  assert (H4 : y mod 400 = 0 -> y mod 100 = 0).
  { intros H. rewrite <- (Z.mod_mod_divide y 400 100);
      [rewrite H; reflexivity | exists 4; reflexivity]. }
  assert (H1 : y mod 100 = 0 -> y mod 4 = 0).
  { intros H. rewrite <- (Z.mod_mod_divide y 100 4);
      [rewrite H; reflexivity | exists 25; reflexivity]. }
  destruct (Z.eqb_spec (y mod 4) 0) as [E4 | E4],
    (Z.eqb_spec (y mod 100) 0) as [E100 | E100],
    (Z.eqb_spec (y mod 400) 0) as [E400 | E400];
    cbn [andb orb negb]; try (specialize (H4 E400)); try (specialize (H1 E100));
    try contradiction; lia.
Qed.

Lemma days_before_year_mono (y1 y2 : Z) :
  y1 <= y2 -> days_before_year y1 <= days_before_year y2.
Proof.
  intros H. replace y2 with (y1 + (y2 - y1)) by lia.
  assert (Hn : 0 <= y2 - y1) by lia. revert Hn.
  generalize (y2 - y1) as n. intros n Hn. revert n Hn.
  apply natlike_ind; [rewrite Z.add_0_r; lia |].
  intros n Hn IH. replace (y1 + Z.succ n) with (y1 + n + 1) by lia.
  rewrite days_before_year_succ. destruct (is_leap (y1 + n)); lia.
Qed.

(** The months as a list, for case analysis. *)
Lemma month_cases (P : Z -> Prop) :
  Forall P [1; 2; 3; 4; 5; 6; 7; 8; 9; 10; 11; 12] ->
  forall m, 1 <= m <= 12 -> P m.
Proof.
  intros H m Hm. rewrite Forall_forall in H. apply H.
  replace m with (Z.of_nat (Z.to_nat m)) by lia.
  assert (Hk : (1 <= Z.to_nat m <= 12)%nat) by lia.
  revert Hk. generalize (Z.to_nat m) as k. intros k Hk.
  destruct k as [|k]; [lia |].
  do 12 (destruct k as [|k]; [cbv; repeat constructor |]).
  lia.
Qed.

Lemma valid_date_inv (y m d : Z) :
  valid_date y m d = true ->
  1 <= y <= 9999 /\ 1 <= m <= 12 /\ 1 <= d <= days_in_month y m.
Proof.
  unfold valid_date. rewrite !andb_true_iff, !Z.leb_le. lia.
Qed.

(** A day of a month lies inside its year. *)
Lemma ymd2ord_in_year (y m d : Z) :
  1 <= m <= 12 -> 1 <= d <= days_in_month y m ->
  days_before_year y < ymd2ord y m d <= days_before_year (y + 1).
Proof.
  intros Hm Hd.
  rewrite days_before_year_succ. unfold ymd2ord.
  revert m Hm Hd. apply (month_cases (fun m => _ -> _)).
  unfold days_before_month, days_in_month.
  repeat (constructor; [destruct (is_leap y); simpl; lia |]).
  constructor.
Qed.


(** *** From ordinals back to dates *)

Lemma all_from_spec (P : Z -> bool) (fuel : nat) (lo : Z) :
  all_from P fuel lo = true ->
  forall n, lo <= n < lo + Z.of_nat fuel -> P n = true.
Proof.
  revert lo. induction fuel as [|fuel IH]; intros lo H n Hn; [lia |].
  simpl in H. apply andb_true_iff in H as [Hlo Hrest].
  destruct (Z.eq_dec n lo) as [-> | Hne]; [exact Hlo |].
  apply (IH (lo + 1) Hrest). lia.
Qed.

(** The days before a year, by the place of the year in its cycles of
    400, 100 and 4 years. *)
Lemma days_before_year_cycles (a b c e : Z) :
  0 <= b <= 3 -> 0 <= c <= 24 -> 0 <= e <= 3 ->
  days_before_year (400 * a + 100 * b + 4 * c + e + 1)
  = 146097 * a + 36524 * b + 1461 * c + 365 * e.
Proof.
  intros Hb Hc He. unfold days_before_year.
  replace (400 * a + 100 * b + 4 * c + e + 1 - 1)
    with (400 * a + 100 * b + 4 * c + e) by lia.
  rewrite <- (Z.div_unique_pos (400 * a + 100 * b + 4 * c + e) 4
                (100 * a + 25 * b + c) e) by lia.
  rewrite <- (Z.div_unique_pos (400 * a + 100 * b + 4 * c + e) 100
                (4 * a + b) (4 * c + e)) by lia.
  rewrite <- (Z.div_unique_pos (400 * a + 100 * b + 4 * c + e) 400
                a (100 * b + 4 * c + e)) by lia.
  lia.
Qed.

(** The leap years, by the same place. *)
Lemma is_leap_cycles (a b c e : Z) :
  0 <= b <= 3 -> 0 <= c <= 24 -> 0 <= e <= 3 ->
  is_leap (400 * a + 100 * b + 4 * c + e + 1)
  = (e =? 3) && (negb (c =? 24) || (b =? 3)).
Proof.
  intros Hb Hc He. unfold is_leap.
  set (y := 400 * a + 100 * b + 4 * c + e + 1).
  destruct (Z.eqb_spec e 3) as [E3 | E3].
  - assert (H4 : y mod 4 = 0).
    { symmetry. apply (Z.mod_unique_pos y 4 (100 * a + 25 * b + c + 1)); lia. }
    rewrite H4. cbn [Z.eqb andb].
    destruct (Z.eqb_spec c 24) as [C24 | C24].
    + assert (H100 : y mod 100 = 0).
      { symmetry. apply (Z.mod_unique_pos y 100 (4 * a + b + 1)); lia. }
      rewrite H100. cbn [Z.eqb negb orb].
      destruct (Z.eqb_spec b 3) as [B3 | B3].
      * assert (H400 : y mod 400 = 0).
        { symmetry. apply (Z.mod_unique_pos y 400 (a + 1)); lia. }
        rewrite H400. reflexivity.
      * assert (H400 : y mod 400 = 100 * b + 100).
        { symmetry. apply (Z.mod_unique_pos y 400 a); lia. }
        rewrite H400. destruct (Z.eqb_spec (100 * b + 100) 0); [lia | reflexivity].
    + assert (H100 : y mod 100 = 4 * c + 4).
      { symmetry. apply (Z.mod_unique_pos y 100 (4 * a + b)); lia. }
      rewrite H100.
      destruct (Z.eqb_spec (4 * c + 4) 0); [lia | reflexivity].
  - assert (H4 : y mod 4 = e + 1).
    { symmetry. apply (Z.mod_unique_pos y 4 (100 * a + 25 * b + c)); lia. }
    assert (H400 : y mod 400 = 100 * b + 4 * c + e + 1).
    { symmetry. apply (Z.mod_unique_pos y 400 a); lia. }
    rewrite H4, H400.
    destruct (Z.eqb_spec (e + 1) 0); [lia |].
    destruct (Z.eqb_spec (100 * b + 4 * c + e + 1) 0); [lia | reflexivity].
Qed.

(** Month and day are right for every day of a year of either kind. *)
Lemma month_day_checked (leap : bool) (n : Z) :
  0 <= n <= 364 ->
  month_day_ok leap (if leap then 4 else 1) n = true.
Proof.
  intros Hn.
  destruct leap;
    [apply (all_from_spec (month_day_ok true 4) 365 0)
    | apply (all_from_spec (month_day_ok false 1) 365 0)];
    try lia; vm_compute; reflexivity.
Qed.

Lemma month_day_spec (y n m d : Z) :
  0 <= n <= 364 -> month_day (is_leap y) n = (m, d) ->
  1 <= m <= 12 /\ 1 <= d <= days_in_month y m
  /\ days_before_month y m + d = n + 1.
Proof.
  intros Hn Hmd. pose proof (month_day_checked (is_leap y) n Hn) as Hok.
  unfold month_day_ok in Hok. rewrite Hmd in Hok.
  assert (Hdim : days_in_month (if is_leap y then 4 else 1) m = days_in_month y m).
  { unfold days_in_month. destruct (is_leap y); reflexivity. }
  assert (Hdbm : days_before_month (if is_leap y then 4 else 1) m
                 = days_before_month y m).
  { unfold days_before_month. destruct (is_leap y); reflexivity. }
  rewrite Hdim, Hdbm in Hok.
  rewrite !andb_true_iff, !Z.leb_le, Z.eqb_eq in Hok. lia.
Qed.

(** [ord2ymd] by cases: the last day of a cycle of 4 or of 400 years, and
    the other days. *)
Lemma ord2ymd_cases (n : Z) :
  let n400 := (n - 1) / 146097 in
  let r400 := (n - 1) mod 146097 in
  let n100 := r400 / 36524 in
  let r100 := r400 mod 36524 in
  let n4 := r100 / 1461 in
  let r4 := r100 mod 1461 in
  let n1 := r4 / 365 in
  let r1 := r4 mod 365 in
  let y := n400 * 400 + 1 + n100 * 100 + n4 * 4 + n1 in
  ord2ymd n
  = if (n1 =? 4) || (n100 =? 4) then (y - 1, 12, 31)
    else (y, fst (month_day ((n1 =? 3) && (negb (n4 =? 24) || (n100 =? 3))) r1),
          snd (month_day ((n1 =? 3) && (negb (n4 =? 24) || (n100 =? 3))) r1)).
Proof.
  cbv zeta. unfold ord2ymd, month_day. cbv zeta.
  destruct (_ || _); [reflexivity |].
  destruct (_ <? _); reflexivity.
Qed.

(** [fromordinal] gives a valid date whose ordinal is the one asked
    for. *)
Lemma ord2ymd_spec (n y m d : Z) :
  1 <= n <= 3652059 -> ord2ymd n = (y, m, d) ->
  ymd2ord y m d = n /\ valid_date y m d = true.
Proof.
  intros Hn. rewrite ord2ymd_cases. cbv zeta.
  pose proof (Z.div_mod (n - 1) 146097 ltac:(lia)) as E400.
  pose proof (Z.mod_pos_bound (n - 1) 146097 ltac:(lia)) as B400.
  set (a := (n - 1) / 146097) in *. set (r400 := (n - 1) mod 146097) in *.
  pose proof (Z.div_mod r400 36524 ltac:(lia)) as E100.
  pose proof (Z.mod_pos_bound r400 36524 ltac:(lia)) as B100.
  set (b := r400 / 36524) in *. set (r100 := r400 mod 36524) in *.
  pose proof (Z.div_mod r100 1461 ltac:(lia)) as E4.
  pose proof (Z.mod_pos_bound r100 1461 ltac:(lia)) as B4.
  set (c := r100 / 1461) in *. set (r4 := r100 mod 1461) in *.
  pose proof (Z.div_mod r4 365 ltac:(lia)) as E1.
  pose proof (Z.mod_pos_bound r4 365 ltac:(lia)) as B1.
  set (e := r4 / 365) in *. set (r1 := r4 mod 365) in *.
  assert (Ha : 0 <= a) by lia.
  assert (Hb : 0 <= b <= 4) by lia.
  assert (Hc : 0 <= c <= 24) by lia.
  assert (He : 0 <= e <= 4) by lia.
  assert (Hvalid : forall y m d,
             ymd2ord y m d = n -> 1 <= y -> 1 <= m <= 12 ->
             1 <= d <= days_in_month y m -> valid_date y m d = true).
  { intros y0 m0 d0 Ho Hy0 Hm0 Hd0.
    assert (Hy9 : y0 <= 9999).
    { destruct (Z_le_gt_dec y0 9999) as [? | Hbig]; [assumption | exfalso].
      pose proof (ymd2ord_in_year y0 m0 d0 Hm0 Hd0).
      pose proof (days_before_year_mono 10000 y0 ltac:(lia)) as Hmono.
      change (days_before_year 10000) with 3652059 in Hmono. lia. }
    unfold valid_date. rewrite !andb_true_iff, !Z.leb_le. lia. }
  destruct (Z.eqb_spec e 4) as [E | E]; cbn [orb].
  - (* the last day of a cycle of four years *)
    intros H. inversion H. subst y m d. clear H.
    assert (Hc23 : c <= 23) by lia. assert (Hb3 : b <= 3) by lia.
    assert (Hleap : is_leap (a * 400 + 1 + b * 100 + c * 4 + e - 1) = true).
    { replace (a * 400 + 1 + b * 100 + c * 4 + e - 1)
        with (400 * a + 100 * b + 4 * c + 3 + 1) by lia.
      rewrite is_leap_cycles by lia.
      destruct (Z.eqb_spec c 24); [lia | reflexivity]. }
    pose proof (days_before_year_succ (a * 400 + 1 + b * 100 + c * 4 + e - 1))
      as Hsucc.
    rewrite Hleap in Hsucc.
    replace (a * 400 + 1 + b * 100 + c * 4 + e - 1 + 1)
      with (400 * a + 100 * b + 4 * (c + 1) + 0 + 1) in Hsucc by lia.
    rewrite days_before_year_cycles in Hsucc by lia.
    assert (Ho : ymd2ord (a * 400 + 1 + b * 100 + c * 4 + e - 1) 12 31 = n).
    { unfold ymd2ord, days_before_month. rewrite Hleap. simpl. lia. }
    split; [exact Ho |].
    apply Hvalid; [exact Ho | lia | lia |].
    unfold days_in_month. simpl. lia.
  - destruct (Z.eqb_spec b 4) as [B | B].
    + (* the last day of a cycle of 400 years *)
      intros H. inversion H. subst y m d. clear H.
      assert (Hleap : is_leap (a * 400 + 1 + b * 100 + c * 4 + e - 1) = true).
      { replace (a * 400 + 1 + b * 100 + c * 4 + e - 1)
          with (400 * a + 100 * 3 + 4 * 24 + 3 + 1) by lia.
        rewrite is_leap_cycles by lia. reflexivity. }
      pose proof (days_before_year_succ (a * 400 + 1 + b * 100 + c * 4 + e - 1))
        as Hsucc.
      rewrite Hleap in Hsucc.
      replace (a * 400 + 1 + b * 100 + c * 4 + e - 1 + 1)
        with (400 * (a + 1) + 100 * 0 + 4 * 0 + 0 + 1) in Hsucc by lia.
      rewrite days_before_year_cycles in Hsucc by lia.
      assert (Ho : ymd2ord (a * 400 + 1 + b * 100 + c * 4 + e - 1) 12 31 = n).
      { unfold ymd2ord, days_before_month. rewrite Hleap. simpl. lia. }
      split; [exact Ho |].
      apply Hvalid; [exact Ho | lia | lia |].
      unfold days_in_month. simpl. lia.
    + (* any other day *)
      assert (Hy : a * 400 + 1 + b * 100 + c * 4 + e
                   = 400 * a + 100 * b + 4 * c + e + 1) by lia.
      rewrite <- (is_leap_cycles a b c e) by lia. rewrite <- Hy.
      set (y0 := a * 400 + 1 + b * 100 + c * 4 + e) in *.
      destruct (month_day (is_leap y0) r1) as [m0 d0] eqn:Hmd. cbn [fst snd].
      intros H. inversion H. subst y m d. clear H.
      destruct (month_day_spec y0 r1 m0 d0 ltac:(lia) Hmd) as (Hm0 & Hd0 & Hsum).
      assert (Ho : ymd2ord y0 m0 d0 = n).
      { unfold ymd2ord. rewrite Hy, days_before_year_cycles by lia.
        rewrite <- Hy. fold y0. lia. }
      split; [exact Ho |].
      apply Hvalid; [exact Ho | lia | exact Hm0 | exact Hd0].
Qed.

(** [t - timedelta(days=n)], when it is defined, is the valid date [n]
    days before [t], at the same time of day. *)
Lemma minus_days_spec (t t' : datetime) (n : Z) :
  minus_days t n = Ok t' ->
  toordinal t' = toordinal t - n
  /\ valid_date (year t') (month t') (day t') = true
  /\ hour t' = hour t /\ minute t' = minute t /\ second t' = second t
  /\ microsecond t' = microsecond t.
Proof.
  unfold minus_days.
  destruct ((1 <=? toordinal t - n) && (toordinal t - n <=? 3652059)) eqn:Hr;
    [| discriminate].
  apply andb_true_iff in Hr. rewrite !Z.leb_le in Hr.
  destruct (ord2ymd (toordinal t - n)) as [[y m] d] eqn:Hymd.
  destruct (ord2ymd_spec (toordinal t - n) y m d ltac:(lia) Hymd) as [Ho Hv].
  intros H. inversion H. subst t'.
  unfold toordinal at 1. cbn [year month day hour minute second microsecond].
  repeat split; assumption.
Qed.

Lemma minus_days_defined (t : datetime) (n : Z) :
  1 <= toordinal t - n <= 3652059 -> exists t', minus_days t n = Ok t'.
Proof.
  intros H. unfold minus_days.
  destruct (Z.leb_spec 1 (toordinal t - n)); [| lia].
  destruct (Z.leb_spec (toordinal t - n) 3652059); [| lia]. simpl.
  destruct (ord2ymd (toordinal t - n)) as [[y m] d]. eexists. reflexivity.
Qed.

End Ordinals.

(** ** Synthesizer: when a run succeeds and when it does not *)

Section SynthesizerRuns.
Import PyTime EAddress.







(** X3.  If fetching either resource raises (a failed request, or a row
    that raises past the loop), the synthesizer returns [None]. *)
Theorem eaddress_none_on_fetch_error (api : pystr -> result (list row))
    (now : datetime) :
  (exists e, _fetch_eaddress_resource api act_resource = Raise e)
  \/ (exists e, _fetch_eaddress_resource api deact_resource = Raise e) ->
  get_eaddress_data api now = None.
Proof.
  intros [[e He] | [e He]]; unfold get_eaddress_data, eaddress_body.
  - rewrite He. reflexivity.
  - rewrite He.
    destruct (_fetch_eaddress_resource api act_resource); reflexivity.
Qed.

Lemma eaddress_none_on_fetch_error_witness :
  _fetch_eaddress_resource null_cell_api act_resource = Raise TypeError
  /\ get_eaddress_data null_cell_api morning = None.
Proof.
  split; [vm_compute; reflexivity |].
  apply (eaddress_none_on_fetch_error null_cell_api morning).
  left. exists TypeError. vm_compute. reflexivity.
Defined.

(** X4.  The entries of a streak are, in order, the seven calendar days
    before the day of the run: entry [i] carries the weekday of the day
    [7 - i] days before today. *)
Theorem streak_days_are_last_seven (api : pystr -> result (list row))
    (now : datetime) (d : EAddressData) (i : nat) (entry : StreakDay) :
  get_eaddress_data api now = Some d ->
  streak_fiziska d !! i = Some entry ->
  exists day,
    minus_days (at_midnight now) (7 - Z.of_nat i) = Ok day
    /\ toordinal day = toordinal now - (7 - Z.of_nat i)
    /\ at_midnight day = day
    /\ streak_date entry = strftime_a day.
Proof.
  unfold get_eaddress_data, eaddress_body.
  destruct (_fetch_eaddress_resource api act_resource) as [act|]; cbn [bind];
    [| discriminate].
  destruct (_fetch_eaddress_resource api deact_resource) as [deact|]; cbn [bind];
    [| discriminate].
  destruct (minus_days now (3 * 365)) as [cutoff|]; cbn [bind]; [| discriminate].
  destruct (_build_daily_rates act) as [act_rates|]; cbn [bind]; [| discriminate].
  destruct (build_deact_rates deact) as [deact_rates|]; cbn [bind];
    [| discriminate].
  unfold streaks.
  destruct (for_each (streak_day act_rates deact_rates (at_midnight now))
              [7; 6; 5; 4; 3; 2; 1]) as [days|] eqn:Hdays; cbn [bind];
    [| discriminate].
  cbn [fst snd].
  destruct (last_item (map fst days)); cbn [bind]; [| discriminate].
  destruct (last_item (map snd days)); cbn [bind]; [| discriminate].
  intros H Hi. inversion H. subst d. cbn [streak_fiziska] in Hi.
  apply for_each_inv in Hdays.
  change (map fst days) with (fst <$> days) in Hi.
  apply list_lookup_fmap_Some in Hi as ([sf sj] & -> & Hday).
  destruct (Forall2_lookup_r _ _ _ _ _ Hdays Hday) as (k & Hk & Hrun).
  assert (Hki : k = 7 - Z.of_nat i).
  { do 7 (destruct i as [|i]; [inversion Hk; reflexivity |]).
    simpl in Hk. discriminate Hk. }
  subst k. unfold streak_day in Hrun.
  destruct (minus_days (at_midnight now) (7 - Z.of_nat i)) as [day|] eqn:Hm;
    cbn [bind] in Hrun; [| discriminate].
  destruct (_find_rate act_rates day) as [act_fiz act_jur].
  destruct (_find_rate deact_rates day) as [deact_fiz deact_jur].
  destruct (vary act_fiz day (py "fiz")); cbn [bind] in Hrun; [| discriminate].
  destruct (vary act_jur day (py "jur")); cbn [bind] in Hrun; [| discriminate].
  destruct (vary deact_fiz day (py "deact_fiz")); cbn [bind] in Hrun;
    [| discriminate].
  destruct (vary deact_jur day (py "deact_jur")); cbn [bind] in Hrun;
    [| discriminate].
  inversion Hrun. exists day.
  destruct (minus_days_spec _ _ _ Hm) as (Ho & _ & Hh & Hmi & Hs & Hus).
  split; [reflexivity |]. split; [exact Ho |]. split; [| reflexivity].
  destruct day. unfold at_midnight. simpl in *. congruence.
Qed.

Lemma streak_days_are_last_seven_witness :
  exists d entry,
    get_eaddress_data example_api morning = Some d
    /\ streak_fiziska d !! 0%nat = Some entry
    /\ exists day,
         minus_days (at_midnight morning) (7 - Z.of_nat 0) = Ok day
         /\ toordinal day = toordinal morning - (7 - Z.of_nat 0)
         /\ at_midnight day = day
         /\ streak_date entry = strftime_a day.
Proof.
  eexists. eexists. split; [vm_compute; reflexivity |].
  split; [reflexivity |].
  eapply (streak_days_are_last_seven example_api morning _ 0%nat);
    [vm_compute; reflexivity | reflexivity].
Defined.

End SynthesizerRuns.

(** ** Synthesizer: rounding, rates and jitter *)

Section RatesAndJitter.
Import PyTime EAddress.




(** The first activation rate of the example: 3100 and 310 more addresses
    in the 31 days of August. *)
Example example_daily_rate :
  daily_rate_at example_acts 1 = Ok (mkRate (mkDatetime 2026 9 1 0 0 0 0) 100 10).
Proof. vm_compute. reflexivity. Qed.







End RatesAndJitter.

(** ** Synthesizer: the deactivation rates *)

Section DeactRates.
Import PyTime EAddress.



End DeactRates.

(** ** Synthesizer: lookup and records, without assumptions on order *)

Section LookupAndRecords.
Import PyTime EAddress.

(** X9.  Whatever the order of the rates, [_find_rate] returns the
    values of the rate that comes last in the list among those dated on
    or before the day; when there is none it returns the values of the
    last rate of the list, or (0, 0) for an empty list. *)
Theorem find_rate_last_in_list (rates : list DailyRate) (day : datetime) :
  (exists before r0 after,
      rates = before ++ r0 :: after
      /\ ge day (rate_date r0) = true
      /\ Forall (fun r => ge day (rate_date r) = false) after
      /\ _find_rate rates day = (rate_fiziska r0, rate_juridiska r0))
  \/ (Forall (fun r => ge day (rate_date r) = false) rates
      /\ ((exists lst, last rates = Some lst
                       /\ _find_rate rates day
                          = (rate_fiziska lst, rate_juridiska lst))
          \/ (rates = [] /\ _find_rate rates day = (0, 0)))).
Proof.
  unfold _find_rate.
  destruct (find_rate_loop_cases day (reverse rates)
              (match last rates with Some r => rate_fiziska r | None => 0 end,
               match last rates with Some r => rate_juridiska r | None => 0 end))
    as [[Hnone ->] | (l1 & r0 & l2 & Hrev & Hnone & Hr0 & ->)].
  - right. split.
    + rewrite Forall_forall in *. intros r Hr. apply Hnone.
      rewrite elem_of_reverse. exact Hr.
    + destruct (last rates) as [lst|] eqn:Hlast.
      * left. exists lst. split; reflexivity.
      * right. apply last_None in Hlast. split; [exact Hlast | reflexivity].
  - left. exists (reverse l2), r0, (reverse l1).
    split; [| split; [exact Hr0 | split; [| reflexivity]]].
    + apply (f_equal reverse) in Hrev. rewrite reverse_involutive in Hrev.
      rewrite Hrev, reverse_app, reverse_cons, <- app_assoc. reflexivity.
    + rewrite Forall_forall in *. intros r Hr. apply Hnone.
      rewrite elem_of_reverse in Hr. exact Hr.
Qed.

(** On rates in descending order the lookup for 15 September 2026 gives
    the rate of August, the last of the list dated on or before the day,
    not the rate of September. *)
Example example_find_rate_unsorted :
  _find_rate (reverse example_rates) (mkDatetime 2026 9 15 0 0 0 0) = (40, 7).
Proof. vm_compute. reflexivity. Qed.

Lemma strptime_ok_inv (s : pystr) (t : datetime) :
  strptime_Ymd s = Ok t ->
  valid_date (year t) (month t) (day t) = true /\ at_midnight t = t.
Proof.
  unfold strptime_Ymd. intros H.
  repeat match type of H with
         | match ?x with _ => _ end = _ => destruct x eqn:?
         | (if ?x then _ else _) = _ => destruct x eqn:?
         | Raise _ = Ok _ => discriminate H
         end.
  inversion H. subst t. simpl. split; [assumption | reflexivity].
Qed.

Lemma parse_row_ok_inv (r : row) (rec : MonthlyRecord) :
  parse_row r = Ok rec ->
  valid_date (year (date rec)) (month (date rec)) (day (date rec)) = true
  /\ at_midnight (date rec) = date rec
  /\ label rec = strftime_b_Y (date rec)
  /\ exists s, r !! col_date = Some (VStr s)
               /\ strptime_Ymd (take 10 s) = Ok (date rec).
Proof.
  unfold parse_row, getitem.
  destruct (r !! col_date) as [v|]; cbn [bind]; [| discriminate].
  destruct v as [| | | |s]; cbn [bind slice10]; try discriminate.
  destruct (strptime_Ymd (take 10 s)) as [t|] eqn:Hs; cbn [bind];
    [| discriminate].
  destruct (py_int (get r col_fiziska (VInt 0))); cbn [bind]; [| discriminate].
  destruct (py_int (get r col_juridiska (VInt 0))); cbn [bind];
    [| discriminate].
  intros H. inversion H. subst rec. cbn [date label].
  destruct (strptime_ok_inv _ _ Hs) as [Hv Hm].
  split; [exact Hv |]. split; [exact Hm |]. split; [reflexivity |].
  exists s. split; [reflexivity | exact Hs].
Qed.

Lemma records_loop_inv (rows : list row) (acc out : list MonthlyRecord)
    (P : MonthlyRecord -> Prop) :
  (forall r rec, r ∈ rows -> parse_row r = Ok rec -> P rec) ->
  Forall P acc -> records_loop rows acc = Ok out -> Forall P out.
Proof.
  revert acc. induction rows as [|r rows IH]; intros acc Hrows Hacc; simpl.
  - intros H. inversion H. subst. exact Hacc.
  - destruct (parse_row r) as [rec|e] eqn:Hp.
    + apply IH.
      * intros r' rec' Hr'. apply Hrows. right. exact Hr'.
      * apply Forall_app. split; [exact Hacc |].
        constructor; [| constructor]. apply (Hrows r rec); [left | exact Hp].
    + destruct e; try discriminate; apply IH; try exact Hacc;
        intros r' rec' Hr'; apply Hrows; right; exact Hr'.
Qed.

Lemma diff_days_midnight (t u : datetime) :
  at_midnight t = t -> at_midnight u = u ->
  diff_days t u = toordinal t - toordinal u.
Proof.
  destruct t as [y m d hh mi ss us], u as [y' m' d' hh' mi' ss' us'].
  unfold at_midnight. cbn [year month day]. intros Ht Hu.
  inversion Ht. inversion Hu. subst.
  unfold diff_days, to_micros. cbn [hour minute second microsecond].
  set (a := toordinal _). set (b := toordinal _).
  replace ((((a * 24 + 0) * 60 + 0) * 60 + 0) * 1000000 + 0
           - ((((b * 24 + 0) * 60 + 0) * 60 + 0) * 1000000 + 0))
    with ((a - b) * 86400000000) by lia.
  apply Z.div_mul. lia.
Qed.

(** X10.  Every record a fetch returns has a valid calendar date at
    midnight and the label of that date; so the day difference of two
    fetched records is the difference of their day numbers. *)
Theorem fetched_records_are_dated (api : pystr -> result (list row))
    (resource_id : pystr) (records : list MonthlyRecord) :
  _fetch_eaddress_resource api resource_id = Ok records ->
  Forall (fun rec =>
            valid_date (year (date rec)) (month (date rec)) (day (date rec)) = true
            /\ at_midnight (date rec) = date rec
            /\ label rec = strftime_b_Y (date rec)) records
  /\ (forall a b, a ∈ records -> b ∈ records ->
        diff_days (date a) (date b) = toordinal (date a) - toordinal (date b)).
Proof.
  unfold _fetch_eaddress_resource.
  destruct (api (resource_url resource_id)) as [rows|]; cbn [bind];
    [| discriminate].
  intros Hloop.
  assert (Hall : Forall (fun rec =>
            valid_date (year (date rec)) (month (date rec)) (day (date rec)) = true
            /\ at_midnight (date rec) = date rec
            /\ label rec = strftime_b_Y (date rec)) records).
  { apply (records_loop_inv rows [] records _); [| constructor | exact Hloop].
    intros r rec _ Hp. destruct (parse_row_ok_inv r rec Hp) as (? & ? & ? & _).
    repeat split; assumption. }
  split; [exact Hall |].
  rewrite Forall_forall in Hall. intros a b Ha Hb.
  destruct (Hall a Ha) as (_ & Hma & _). destruct (Hall b Hb) as (_ & Hmb & _).
  apply diff_days_midnight; assumption.
Qed.

Lemma fetched_records_are_dated_witness :
  _fetch_eaddress_resource example_api act_resource = Ok example_acts
  /\ Forall (fun rec =>
            valid_date (year (date rec)) (month (date rec)) (day (date rec)) = true
            /\ at_midnight (date rec) = date rec
            /\ label rec = strftime_b_Y (date rec)) example_acts
  /\ (forall a b, a ∈ example_acts -> b ∈ example_acts ->
        diff_days (date a) (date b) = toordinal (date a) - toordinal (date b)).
Proof.
  split; [vm_compute; reflexivity |].
  apply (fetched_records_are_dated example_api act_resource example_acts).
  vm_compute. reflexivity.
Defined.

End LookupAndRecords.

(** ** Synthesizer: rows with an ISO date *)

Section IsoRows.
Import PyTime EAddress.

Lemma pad4_ok (n : Z) : 0 <= n <= 9999 -> pad_ok 4 n = true.
Proof.
  intros H.
  apply (all_from_spec (pad_ok 4) (Z.to_nat 10000) 0); [| lia].
  vm_compute. reflexivity.
Qed.

Lemma pad2_ok (n : Z) : 0 <= n <= 99 -> pad_ok 2 n = true.
Proof.
  intros H.
  apply (all_from_spec (pad_ok 2) (Z.to_nat 100) 0); [| lia].
  vm_compute. reflexivity.
Qed.

Lemma take_digits_pad (w : nat) (n : Z) (rest : pystr) :
  pad_ok w n = true ->
  take_digits w (PyNum.zero_pad w n ++ rest) = Some (n, rest)
  /\ length (PyNum.zero_pad w n) = w.
Proof.
  unfold pad_ok. rewrite !andb_true_iff, Nat.eqb_eq, bool_decide_eq_true.
  intros [[Hlen Hdig] Hparse]. split; [| exact Hlen].
  remember (PyNum.zero_pad w n) as ds eqn:Hds. clear Hds. subst w.
  unfold take_digits.
  rewrite take_app_length, drop_app_length, Nat.eqb_refl, Hdig, Hparse.
  reflexivity.
Qed.

(** [strptime] reads the date of an ISO text back. *)
Lemma strptime_isoformat (t : datetime) :
  valid_date (year t) (month t) (day t) = true ->
  strptime_Ymd (take 10 (isoformat t)) = Ok (at_midnight t).
Proof.
  intros Hv. pose proof (valid_date_inv _ _ _ Hv) as (Hy & Hm & Hd).
  assert (Hd31 : day t <= 31).
  { clear -Hd. unfold days_in_month in Hd. revert Hd.
    destruct (month t =? 2); [destruct (is_leap (year t)); lia |].
    destruct (_ || _); lia. }
  destruct (take_digits_pad 4 (year t)
              ([45] ++ PyNum.zero_pad 2 (month t) ++ [45]
               ++ PyNum.zero_pad 2 (day t)) (pad4_ok (year t) ltac:(lia)))
    as [Hty Hly].
  destruct (take_digits_pad 2 (month t) ([45] ++ PyNum.zero_pad 2 (day t))
              (pad2_ok (month t) ltac:(lia))) as [Htm Hlm].
  destruct (take_digits_pad 2 (day t) [] (pad2_ok (day t) ltac:(lia))) as [Htd Hld].
  assert (Hten : take 10 (isoformat t)
                 = PyNum.zero_pad 4 (year t) ++ [45]
                   ++ PyNum.zero_pad 2 (month t) ++ [45]
                   ++ PyNum.zero_pad 2 (day t)).
  { unfold isoformat.
    set (tail := [84] ++ _).
    replace (PyNum.zero_pad 4 (year t) ++ [45] ++ PyNum.zero_pad 2 (month t)
             ++ [45] ++ PyNum.zero_pad 2 (day t) ++ tail)
      with ((PyNum.zero_pad 4 (year t) ++ [45] ++ PyNum.zero_pad 2 (month t)
             ++ [45] ++ PyNum.zero_pad 2 (day t)) ++ tail)
      by (rewrite <- !app_assoc; reflexivity).
    apply take_app_length'. rewrite !length_app, Hly, Hlm, Hld. reflexivity. }
  rewrite Hten. unfold strptime_Ymd. rewrite Hty. cbn [app].
  unfold strp_month. cbn [app] in Htm. rewrite Htm.
  destruct (Z.leb_spec 1 (month t)); [| lia].
  destruct (Z.leb_spec (month t) 12); [| lia]. cbn [andb].
  unfold strp_day. rewrite app_nil_r in Htd. rewrite Htd.
  destruct (Z.leb_spec 1 (day t)); [| lia].
  destruct (Z.leb_spec (day t) 31); [| lia]. cbn [andb].
  rewrite Hv. reflexivity.
Qed.

(** X11.  A row whose date cell is the ISO text of a valid date-time and
    whose counts convert to integers is kept, with the midnight of that
    day as its date and the month and year of that day as its label. *)
Theorem iso_dated_row_is_kept (r : row) (t : datetime) (f j : Z) :
  valid_date (year t) (month t) (day t) = true ->
  r !! col_date = Some (VStr (isoformat t)) ->
  py_int (get r col_fiziska (VInt 0)) = Ok f ->
  py_int (get r col_juridiska (VInt 0)) = Ok j ->
  parse_row r = Ok (mkRecord (at_midnight t) (strftime_b_Y (at_midnight t)) f j)
  /\ forall rows acc,
       records_loop (r :: rows) acc
       = records_loop rows
           (acc ++ [mkRecord (at_midnight t) (strftime_b_Y (at_midnight t)) f j]).
Proof.
  intros Hv Hcell Hf Hj.
  assert (Hrow : parse_row r
                 = Ok (mkRecord (at_midnight t) (strftime_b_Y (at_midnight t)) f j)).
  { apply (parse_row_ok r (isoformat t));
      [exact Hcell | apply strptime_isoformat, Hv | exact Hf | exact Hj]. }
  split; [exact Hrow |].
  intros rows acc. cbn [records_loop]. rewrite Hrow. reflexivity.
Qed.

Lemma iso_dated_row_is_kept_witness :
  let t := mkDatetime 2026 8 1 0 0 0 0 in
  let r := month_row "2026-08-01T00:00:00" 1480000 131000 in
  valid_date (year t) (month t) (day t) = true
  /\ r !! col_date = Some (VStr (isoformat t))
  /\ py_int (get r col_fiziska (VInt 0)) = Ok 1480000
  /\ py_int (get r col_juridiska (VInt 0)) = Ok 131000
  /\ parse_row r
     = Ok (mkRecord (at_midnight t) (strftime_b_Y (at_midnight t)) 1480000 131000)
  /\ forall rows acc,
       records_loop (r :: rows) acc
       = records_loop rows
           (acc ++ [mkRecord (at_midnight t) (strftime_b_Y (at_midnight t))
                             1480000 131000]).
Proof.
  intros t r.
  split; [reflexivity |]. split; [vm_compute; reflexivity |].
  split; [vm_compute; reflexivity |]. split; [vm_compute; reflexivity |].
  apply (iso_dated_row_is_kept r t 1480000 131000);
    [reflexivity | vm_compute; reflexivity | vm_compute; reflexivity
    | vm_compute; reflexivity].
Defined.

End IsoRows.

(** ** Summarizer: it always returns *)

Section SummarizerTotal.
Import Summarizer.

Lemma extract_essence_returns (w : World) (cleaned legal : pystr) :
  exists text t, _extract_essence w cleaned legal = (Ok text, t).
Proof.
  unfold _extract_essence.
  destruct (HAS_ANTHROPIC w && (200 <? length cleaned)%nat).
  - unfold _ai_extract_essence, ask_backend, catch.
    destruct (backend w (prompt cleaned legal)); simpl;
      eexists; eexists; reflexivity.
  - eexists. eexists. reflexivity.
Qed.

(** X12.  [_extract_essence] never raises: whatever the backend does it
    returns a text, having made no request or the single backend request;
    the text is the backend's answer or the regex summary. *)
Theorem extract_essence_never_raises (w : World) (cleaned legal : pystr) :
  exists text,
    fst (_extract_essence w cleaned legal) = Ok text
    /\ (snd (_extract_essence w cleaned legal) = []
        \/ snd (_extract_essence w cleaned legal)
           = [EvBackend (prompt cleaned legal)])
    /\ (text = _regex_extract_essence cleaned
        \/ backend w (prompt cleaned legal) = Ok text).
Proof.
  unfold _extract_essence.
  destruct (HAS_ANTHROPIC w && (200 <? length cleaned)%nat).
  - unfold _ai_extract_essence, ask_backend, catch.
    destruct (backend w (prompt cleaned legal)) as [text | e]; simpl.
    + exists text. split; [reflexivity | split; [right; reflexivity | right; reflexivity]].
    + eexists. split; [reflexivity | split; [right; reflexivity | left; reflexivity]].
  - eexists. split; [reflexivity | split; left; reflexivity].
Qed.

End SummarizerTotal.

(** ** Cabinet extractor: items and failures *)

Section CabinetItems.
Import Cabinet.

Lemma fetch_essence_listing (w : World) (la_html legal : pystr) (it it' : Item)
    (t : list event) :
  fetch_essence w la_html legal it = (Ok it', t) ->
  listing it' = listing it /\ decision it' = decision it
  /\ (is_Some (essence it) -> is_Some (essence it')).
Proof.
  unfold fetch_essence.
  destruct (Re.search annotation_link la_html) as [am|].
  - unfold get, ebind.
    destruct (http_get w _) as [page|]; [| discriminate].
    destruct (Summarizer._extract_essence w _ legal) as [[e|] te];
      simpl; [| discriminate].
    intros H. inversion H. subst. simpl.
    split; [reflexivity | split; [reflexivity | eauto]].
  - intros H. inversion H. subst. auto.
Qed.

Lemma fetch_decision_listing (w : World) (la_html : pystr) (it it' : Item)
    (t : list event) :
  fetch_decision w la_html it = (Ok it', t) ->
  listing it' = listing it /\ essence it' = essence it
  /\ (is_Some (decision it) -> is_Some (decision it')).
Proof.
  unfold fetch_decision.
  destruct (Re.search protocol_link la_html) as [pm|].
  - unfold get, ebind.
    destruct (http_get w _) as [page|]; simpl; [| discriminate].
    intros H. inversion H. subst. simpl.
    split; [reflexivity | split; [reflexivity | eauto]].
  - intros H. inversion H. subst. auto.
Qed.

(** One round of step 7 changes nothing but the essence and the decision,
    and always leaves both present. *)
Lemma enrich_listing (w : World) (it : Item) :
  listing (fst (enrich w it)) = listing it
  /\ is_Some (essence (fst (enrich w it)))
  /\ is_Some (decision (fst (enrich w it))).
Proof.
  unfold enrich.
  set (it0 := set_decision (set_essence it []) []).
  assert (H0 : listing it0 = listing it /\ is_Some (essence it0)
               /\ is_Some (decision it0)).
  { subst it0. simpl. split; [reflexivity | split; eauto]. }
  destruct (get w (ta_link it0)) as [[la_html|] t]; [| exact H0].
  destruct (fetch_legal_act w la_html) as [[legal|] t1]; [| exact H0].
  destruct (fetch_essence w la_html legal it0) as [[it1|] t2] eqn:He;
    [| exact H0].
  apply fetch_essence_listing in He as (Hl1 & Hd1 & He1).
  destruct H0 as (Hl0 & He0 & Hd0).
  assert (H1 : listing it1 = listing it /\ is_Some (essence it1)
               /\ is_Some (decision it1)).
  { split; [congruence | split; [auto | rewrite Hd1; exact Hd0]]. }
  unfold keep_on_error.
  destruct (fetch_decision w la_html it1) as [[it2|] t3] eqn:Hd; simpl;
    [| exact H1].
  apply fetch_decision_listing in Hd as (Hl2 & He2 & Hd2).
  destruct H1 as (Hl1' & He1' & Hd1').
  split; [congruence | split; [rewrite He2; exact He1' | auto]].
Qed.

Lemma enrich_all_listing (w : World) (items : list Item) :
  map listing (fst (enrich_all w items)) = map listing items
  /\ Forall (fun it => is_Some (essence it) /\ is_Some (decision it))
            (fst (enrich_all w items)).
Proof.
  induction items as [|it rest [IHl IHf]]; simpl.
  - split; [reflexivity | constructor].
  - pose proof (enrich_listing w it) as (Hl & He & Hd).
    destruct (enrich w it) as [it' t]. destruct (enrich_all w rest) as [rest' t'].
    simpl in *. split; [congruence |]. constructor; [split; assumption | exact IHf].
Qed.

Lemma listing_cudars (a b : Item) :
  listing a = listing b -> is_cudars a = is_cudars b.
Proof. unfold listing, is_cudars. intros H. inversion H. congruence. Qed.

Lemma map_listing_Forall (P : Item -> Prop) (l l' : list Item) :
  (forall a b, listing a = listing b -> P b -> P a) ->
  map listing l = map listing l' -> Forall P l' -> Forall P l.
Proof.
  intros HP. revert l'. induction l as [|a l IH]; intros [|b l'] Hm Hf;
    try discriminate; [constructor |].
  simpl in Hm.
  assert (Hab : listing a = listing b) by congruence.
  assert (Hrest : map listing l = map listing l') by congruence.
  inversion Hf. subst.
  constructor; [eapply HP; eassumption | eapply IH; eassumption].
Qed.

(** X13.  Once the index names a sitting and the agenda page loads, the
    extractor returns a result, whatever happens to the requests for the
    documents of the items: every item reported by Cudars is in the
    result, in page order, with its position, link, number, title,
    reporter and section as steps 4 and 5 set them, and with the keys
    essence and decision present. *)
Theorem cabinet_keeps_every_item (w : World) (html agenda_html : pystr)
    (mt : Re.rmatch) :
  http_get w index_url = Ok html ->
  Re.search meeting_link html = Some mt ->
  http_get w (BASE_URL ++ Re.group_str html mt 1) = Ok agenda_html ->
  exists r t,
    get_cabinet_cudars_items w
    = (Some r, EvGet index_url :: EvGet (BASE_URL ++ Re.group_str html mt 1) :: t)
    /\ meeting_url r = BASE_URL ++ Re.group_str html mt 1
    /\ all_sections r = map sec_name (extract_sections agenda_html)
    /\ map listing (cudars_items r)
       = map listing
           (List.filter is_cudars
              (assign_sections (extract_sections agenda_html)
                               (extract_items agenda_html)))
    /\ Forall (fun it => is_cudars it = true /\ complete it) (cudars_items r).
Proof.
  intros Hi Hm Ha.
  unfold get_cabinet_cudars_items, cabinet_body, get, ebind.
  rewrite Hi, Hm, Ha.
  set (chosen := List.filter is_cudars _).
  pose proof (enrich_all_listing w chosen) as [Hl Hf].
  destruct (enrich_all w chosen) as [done t] eqn:Hen. simpl in Hl, Hf.
  eexists. exists t. split; [reflexivity |]. simpl.
  split; [reflexivity | split; [reflexivity | split; [exact Hl |]]].
  assert (Hc : Forall (fun it => is_cudars it = true /\ is_Some (section it))
                      done).
  { apply (map_listing_Forall _ done chosen); [| exact Hl |].
    - intros a b Hab [Hb Hs]. split.
      + rewrite (listing_cudars a b Hab). exact Hb.
      + unfold listing in Hab. inversion Hab. congruence.
    - subst chosen. apply Forall_forall. intros it Hit.
      apply list_elem_of_In, filter_In in Hit as [Hin Hcu].
      split; [exact Hcu |].
      unfold assign_sections in Hin. apply in_map_iff in Hin as (it0 & <- & _).
      simpl. eauto. }
  rewrite Forall_forall in *. intros it Hit.
  destruct (Hc it Hit) as [Hcu Hs]. destruct (Hf it Hit) as [He Hd].
  split; [exact Hcu | repeat split; assumption].
Qed.

Lemma cabinet_keeps_every_item_witness :
  exists mt,
    http_get cabinet_world index_url = Ok index_page
    /\ Re.search meeting_link index_page = Some mt
    /\ http_get cabinet_world (BASE_URL ++ Re.group_str index_page mt 1)
       = Ok agenda_page
    /\ exists r t,
         get_cabinet_cudars_items cabinet_world
         = (Some r, EvGet index_url
                    :: EvGet (BASE_URL ++ Re.group_str index_page mt 1) :: t)
         /\ meeting_url r = BASE_URL ++ Re.group_str index_page mt 1
         /\ all_sections r = map sec_name (extract_sections agenda_page)
         /\ map listing (cudars_items r)
            = map listing
                (List.filter is_cudars
                   (assign_sections (extract_sections agenda_page)
                                    (extract_items agenda_page)))
         /\ Forall (fun it => is_cudars it = true /\ complete it)
                   (cudars_items r).
Proof.
  eexists. split; [reflexivity |]. split; [vm_compute; reflexivity |].
  split; [vm_compute; reflexivity |].
  eapply (cabinet_keeps_every_item cabinet_world index_page agenda_page);
    [reflexivity | vm_compute; reflexivity | vm_compute; reflexivity].
Defined.

(** The two items reported by Cudars on the example agenda, one under
    each heading; the item of the other reporter is left out. *)
Example example_cabinet_items :
  (fun r => map (fun it => (pos it, reporter it, section it)) (cudars_items r))
    <$> fst (get_cabinet_cudars_items cabinet_world)
  = Some [(79, py "R. Čudars", Some (py "I. Tiesību aktu projekti"));
          (510, py "r. cudars", Some (py "II. Informatīvie ziņojumi"))].
Proof. vm_compute. reflexivity. Qed.

(** X14.  When the request for the agenda page of the sitting raises, the
    extractor returns [None] after exactly two requests: the index and
    that page. *)
Theorem cabinet_none_on_agenda_failure (w : World) (html : pystr)
    (mt : Re.rmatch) (e : exn) :
  http_get w index_url = Ok html ->
  Re.search meeting_link html = Some mt ->
  http_get w (BASE_URL ++ Re.group_str html mt 1) = Raise e ->
  get_cabinet_cudars_items w
  = (None, [EvGet index_url; EvGet (BASE_URL ++ Re.group_str html mt 1)]).
Proof.
  intros Hi Hm Ha.
  unfold get_cabinet_cudars_items, cabinet_body, get, ebind.
  rewrite Hi, Hm, Ha. reflexivity.
Qed.

Lemma cabinet_none_on_agenda_failure_witness :
  exists mt,
    http_get index_only_world index_url = Ok index_page
    /\ Re.search meeting_link index_page = Some mt
    /\ http_get index_only_world (BASE_URL ++ Re.group_str index_page mt 1)
       = Raise RequestException
    /\ get_cabinet_cudars_items index_only_world
       = (None, [EvGet index_url;
                 EvGet (BASE_URL ++ Re.group_str index_page mt 1)]).
Proof.
  eexists. split; [reflexivity |]. split; [vm_compute; reflexivity |].
  split; [vm_compute; reflexivity |].
  eapply (cabinet_none_on_agenda_failure index_only_world index_page _
           RequestException);
    [reflexivity | vm_compute; reflexivity | vm_compute; reflexivity].
Defined.

(** X15.  A failed request for the protocol does not lose the summary:
    when the page of the legal act and the annotation load and the
    request for the protocol raises, the item keeps the essence the
    summarizer returned and its decision is the empty string. *)
Theorem essence_survives_protocol_failure (w : World) (it : Item)
    (la_html page : pystr) (am pm : Re.rmatch) (e : exn) :
  http_get w (ta_link it) = Ok la_html ->
  Re.search annotation_link la_html = Some am ->
  http_get w (BASE_URL ++ Re.group_str la_html am 1) = Ok page ->
  Re.search protocol_link la_html = Some pm ->
  http_get w (BASE_URL ++ Re.group_str la_html pm 1) = Raise e ->
  exists legal text,
    fst (fetch_legal_act w la_html) = Ok legal
    /\ fst (Summarizer._extract_essence w
              (Markup.collapse (Markup.strip_document page)) legal) = Ok text
    /\ essence (fst (enrich w it)) = Some text
    /\ decision (fst (enrich w it)) = Some [].
Proof.
  intros Hla Ham Hpage Hpm Hfail.
  assert (Hlegal : exists legal t1, fetch_legal_act w la_html = (Ok legal, t1)).
  { unfold fetch_legal_act. destruct (Re.search draft_link la_html) as [lm|].
    - unfold catch, get, ebind, ret.
      destruct (http_get w (BASE_URL ++ Re.group_str la_html lm 1));
        eexists; eexists; reflexivity.
    - eexists. eexists. reflexivity. }
  destruct Hlegal as (legal & t1 & Hlegal).
  destruct (extract_essence_returns w
              (Markup.collapse (Markup.strip_document page)) legal)
    as (text & te & Htext).
  exists legal, text. rewrite Hlegal, Htext.
  split; [reflexivity | split; [reflexivity |]].
  unfold enrich, get. cbn [ta_link set_decision set_essence].
  rewrite Hla, Hlegal.
  unfold fetch_essence, get, ebind. rewrite Ham, Hpage, Htext.
  unfold ret, keep_on_error, fetch_decision, get, ebind.
  rewrite Hpm, Hfail. split; reflexivity.
Qed.

Lemma essence_survives_protocol_failure_witness :
  exists am pm,
    http_get no_protocol_world (ta_link first_item) = Ok legal_act_page
    /\ Re.search annotation_link legal_act_page = Some am
    /\ http_get no_protocol_world (BASE_URL ++ Re.group_str legal_act_page am 1)
       = Ok annotation_page
    /\ Re.search protocol_link legal_act_page = Some pm
    /\ http_get no_protocol_world (BASE_URL ++ Re.group_str legal_act_page pm 1)
       = Raise RequestException
    /\ exists legal text,
         fst (fetch_legal_act no_protocol_world legal_act_page) = Ok legal
         /\ fst (Summarizer._extract_essence no_protocol_world
                   (Markup.collapse (Markup.strip_document annotation_page))
                   legal) = Ok text
         /\ essence (fst (enrich no_protocol_world first_item)) = Some text
         /\ decision (fst (enrich no_protocol_world first_item)) = Some [].
Proof.
  eexists. eexists.
  split; [vm_compute; reflexivity |]. split; [vm_compute; reflexivity |].
  split; [vm_compute; reflexivity |]. split; [vm_compute; reflexivity |].
  split; [vm_compute; reflexivity |].
  eapply (essence_survives_protocol_failure no_protocol_world first_item
           legal_act_page annotation_page _ _ RequestException);
    vm_compute; reflexivity.
Defined.

End CabinetItems.

(** ** Summarizer: texts without the headings *)

Section NoHeadings.
Import Re Summarizer.

(** A literal matches only where the subject continues with it. *)
Lemma lit_prefix (w : pystr) :
  forall st k out, run (lit w) st k = Some out -> startswith w (st_rest st) = true.
Proof.
  induction w as [|c w IH]; intros st k out H; [reflexivity |].
  change (lit (c :: w)) with (Seq (chr c) (lit w)) in H. cbn [run chr] in H.
  destruct (st_rest st) as [|c' rest'] eqn:Hr; [discriminate |].
  destruct (c =? c') eqn:Hc; [| discriminate].
  apply IH in H. simpl in H. simpl. rewrite Hc, H. reflexivity.
Qed.

(** A pattern that begins with a literal is found only in a subject that
    holds the literal. *)
Lemma search_at_contains (w : pystr) (b : regex) :
  forall rest adv p prev m,
    search_at (Seq (lit w) b) adv p prev rest = Some m ->
    contains w rest = true.
Proof.
  assert (Hat : forall adv st m,
             match_at (Seq (lit w) b) adv st = Some m ->
             startswith w (st_rest st) = true).
  { intros adv st m. unfold match_at. cbn [run].
    destruct (run (lit w) st _) as [out|] eqn:H; [| discriminate].
    intros _. apply lit_prefix in H. exact H. }
  induction rest as [|c rest' IH]; intros adv p prev m; simpl.
  - destruct (match_at _ adv _) as [m'|] eqn:Hm; [| discriminate].
    intros _. apply Hat in Hm. simpl in Hm. rewrite Hm. reflexivity.
  - destruct (match_at _ adv _) as [m'|] eqn:Hm.
    + intros _. apply Hat in Hm. simpl in Hm. rewrite Hm. reflexivity.
    + intros H. apply IH in H. rewrite H. apply orb_true_r.
Qed.

Lemma search_needs_literal (w : pystr) (b : regex) (text : pystr) :
  contains w text = false -> search (Seq (lit w) b) text = None.
Proof.
  intros Hno. unfold search.
  destruct (search_at _ false 0 None text) as [m|] eqn:H; [| reflexivity].
  apply search_at_contains in H. congruence.
Qed.

(** X16.  A text that holds none of the three headings the fallback
    looks for gives the empty summary. *)
Theorem no_headings_no_summary (text : pystr) :
  contains (py "1.1.") text = false ->
  contains (py "1.2.") text = false ->
  contains (py "Risinājuma apraksts") text = false ->
  _regex_extract_essence text = [].
Proof.
  intros H1 H2 H3.
  assert (Hchunks : section_chunks text = []).
  { unfold section_chunks, label_patterns. cbn [flat_map seqs foldr].
    rewrite (search_needs_literal _ _ _ H1), (search_needs_literal _ _ _ H2),
      (search_needs_literal _ _ _ H3). reflexivity. }
  unfold _regex_extract_essence. rewrite Hchunks. vm_compute. reflexivity.
Qed.

Lemma no_headings_no_summary_witness :
  contains (py "1.1.") plain_text = false
  /\ contains (py "1.2.") plain_text = false
  /\ contains (py "Risinājuma apraksts") plain_text = false
  /\ _regex_extract_essence plain_text = [].
Proof.
  split; [vm_compute; reflexivity |]. split; [vm_compute; reflexivity |].
  split; [vm_compute; reflexivity |].
  apply (no_headings_no_summary plain_text); vm_compute; reflexivity.
Defined.

End NoHeadings.

(** ** Cabinet extractor: the lines of the decision *)

Section DecisionLines.
Import Cabinet.

Lemma capture_loop_acc (lines : list pystr) (cap : capture) (acc : list pystr) :
  exists rest,
    capture_loop lines cap acc = acc ++ rest
    /\ rest `sublist_of` lines
    /\ Forall (fun l => is_footer l = false
                        /\ matches ta_number_line l = false) rest
    /\ (cap <> CaptureOn ->
        forall l0, head rest = Some l0 -> matches ordinal_line l0 = true)
    /\ (cap = CaptureOff ->
        Forall (fun l => matches ta_number_line l = false) lines -> rest = []).
Proof.
  revert cap acc. induction lines as [|line lines IH]; intros cap acc.
  - exists []. simpl. rewrite app_nil_r.
    split; [reflexivity | split; [constructor | split; [constructor |]]].
    split; [intros _ l0 H; discriminate H | reflexivity].
  - simpl. destruct (matches ta_number_line line) eqn:Hta.
    + destruct (IH CaptureNext acc) as (rest & -> & Hsub & Hclean & Hhead & _).
      exists rest. split; [reflexivity |].
      split; [apply sublist_cons, Hsub | split; [exact Hclean |]].
      split; [intros _; apply Hhead; discriminate |].
      intros _ Hno. inversion Hno. congruence.
    + destruct cap; simpl.
      * (* capture is False *)
        destruct (IH CaptureOff acc) as (rest & -> & Hsub & Hclean & Hhead & Hoff).
        exists rest. split; [reflexivity |].
        split; [apply sublist_cons, Hsub | split; [exact Hclean |]].
        split; [intros _; apply Hhead; discriminate |].
        intros _ Hno. inversion Hno. auto.
      * (* capture is next *)
        destruct (matches ordinal_line line) eqn:Hord; simpl.
        -- destruct (is_footer line) eqn:Hfoot.
           ++ exists []. rewrite app_nil_r.
              split; [reflexivity |].
              split; [apply sublist_nil_l | split; [constructor |]].
              split; [intros _ l0 H; discriminate H | discriminate].
           ++ destruct (IH CaptureOn (acc ++ [line]))
                as (rest & -> & Hsub & Hclean & _ & _).
              exists (line :: rest). rewrite <- app_assoc.
              split; [reflexivity |].
              split; [apply sublist_skip, Hsub |].
              split; [constructor; [split; assumption | exact Hclean] |].
              split; [| discriminate].
              intros _ l0 H. simpl in H. inversion H. subst. exact Hord.
        -- destruct (IH CaptureNext acc) as (rest & -> & Hsub & Hclean & Hhead & _).
           exists rest. split; [reflexivity |].
           split; [apply sublist_cons, Hsub | split; [exact Hclean |]].
           split; [intros _; apply Hhead; discriminate | discriminate].
      * (* capture is True *)
        destruct (is_footer line) eqn:Hfoot.
        -- exists []. rewrite app_nil_r.
           split; [reflexivity |].
           split; [apply sublist_nil_l | split; [constructor |]].
           split; [intros H; contradiction | discriminate].
        -- destruct (IH CaptureOn (acc ++ [line]))
             as (rest & -> & Hsub & Hclean & _ & _).
           exists (line :: rest). rewrite <- app_assoc.
           split; [reflexivity |].
           split; [apply sublist_skip, Hsub |].
           split; [constructor; [split; assumption | exact Hclean] |].
           split; [intros H; contradiction | discriminate].
Qed.

(** X17.  The lines the protocol loop captures are lines of the document
    in their order; none of them is a footer line or a line that starts
    with a TA number; the first of them is a bare ordinal; and a document
    without a TA-number line gives no line, hence the empty decision. *)
Theorem captured_lines_are_clean (lines : list pystr) :
  capture_loop lines CaptureOff [] `sublist_of` lines
  /\ Forall (fun l => is_footer l = false /\ matches ta_number_line l = false)
            (capture_loop lines CaptureOff [])
  /\ (forall l0, head (capture_loop lines CaptureOff []) = Some l0 ->
        matches ordinal_line l0 = true)
  /\ (Forall (fun l => matches ta_number_line l = false) lines ->
        capture_loop lines CaptureOff [] = [] /\ decision_of_lines lines = []).
Proof.
  destruct (capture_loop_acc lines CaptureOff [])
    as (rest & Heq & Hsub & Hclean & Hhead & Hoff).
  simpl in Heq. rewrite Heq.
  split; [exact Hsub | split; [exact Hclean |]].
  split; [apply Hhead; discriminate |].
  intros Hno. pose proof (Hoff eq_refl Hno) as ->.
  split; [reflexivity |]. unfold decision_of_lines. rewrite Heq. reflexivity.
Qed.

(** The lines captured from the example protocol. *)
Example example_captured_lines :
  capture_loop example_protocol_lines CaptureOff []
  = [py "1."; py "First clause."; py "2."; py "Second clause."].
Proof. vm_compute. reflexivity. Qed.

End DecisionLines.

(** ** Parliament extractor: the week and the requests *)

Section ParliamentWeek.
Import PyTime Parliament.

Lemma plus_days_spec (t t' : datetime) (n : Z) :
  plus_days t n = Ok t' ->
  toordinal t' = toordinal t + n
  /\ valid_date (year t') (month t') (day t') = true
  /\ hour t' = hour t /\ minute t' = minute t /\ second t' = second t
  /\ microsecond t' = microsecond t.
Proof.
  unfold plus_days. intros H. apply minus_days_spec in H.
  replace (toordinal t + n) with (toordinal t - - n) by lia. exact H.
Qed.

Lemma plus_days_defined (t : datetime) (n : Z) :
  1 <= toordinal t + n <= 3652059 -> exists t', plus_days t n = Ok t'.
Proof.
  intros H. unfold plus_days. apply minus_days_defined. lia.
Qed.

Lemma midnight_of_fields (t : datetime) :
  hour t = 0 -> minute t = 0 -> second t = 0 -> microsecond t = 0 ->
  at_midnight t = t.
Proof.
  destruct t. unfold at_midnight. simpl. intros. subst. reflexivity.
Qed.

(** X18.  For a valid date up to year 9998 [week_dates] is Monday to
    Friday of the next calendar week: five midnights on consecutive
    days, the first a Monday one to seven days after today. *)
Theorem week_dates_next_week (now : datetime) :
  valid_date (year now) (month now) (day now) = true ->
  year now <= 9998 ->
  exists days,
    week_dates now = Ok days
    /\ length days = 5%nat
    /\ forall i d, days !! i = Some d ->
         weekday d = Z.of_nat i
         /\ toordinal d = toordinal now + (7 - weekday now) + Z.of_nat i
         /\ valid_date (year d) (month d) (day d) = true
         /\ at_midnight d = d.
Proof.
  intros Hv Hy.
  pose proof (valid_date_inv _ _ _ Hv) as (Hy1 & Hm & Hd).
  pose proof (ymd2ord_in_year _ _ _ Hm Hd) as Hin.
  pose proof (days_before_year_mono (year now + 1) 9999 ltac:(lia)) as Hmono.
  change (days_before_year 9999) with 3651694 in Hmono.
  pose proof (days_before_year_mono 1 (year now) ltac:(lia)) as Hlow.
  change (days_before_year 1) with 0 in Hlow.
  fold (toordinal now) in Hin.
  unfold week_dates.
  assert (Hto : toordinal (at_midnight now) = toordinal now) by reflexivity.
  assert (Hwd : weekday (at_midnight now) = weekday now) by reflexivity.
  rewrite Hwd.
  assert (Hw : 0 <= weekday now < 7) by (unfold weekday; apply Z.mod_pos_bound; lia).
  set (off := if (7 - weekday now) mod 7 =? 0 then 7 else (7 - weekday now) mod 7).
  assert (Hoff : off = 7 - weekday now).
  { subst off. destruct (Z.eq_dec (weekday now) 0) as [H0 | H0].
    - rewrite H0. reflexivity.
    - rewrite (Z.mod_small (7 - weekday now) 7) by lia.
      destruct (Z.eqb_spec (7 - weekday now) 0); lia. }
  destruct (plus_days_defined (at_midnight now) off) as [monday Hmon];
    [rewrite Hto; lia |].
  rewrite Hmon. cbn [bind].
  pose proof (plus_days_spec _ _ _ Hmon) as (Hom & Hvm & Hh & Hmi & Hs & Hus).
  rewrite Hto in Hom. cbn [at_midnight hour minute second microsecond] in Hh, Hmi, Hs, Hus.
  assert (Hmw : (toordinal monday + 6) mod 7 = 0).
  { rewrite Hom, Hoff. unfold weekday.
    replace (toordinal now + (7 - (toordinal now + 6) mod 7) + 6)
      with ((toordinal now + 6 - (toordinal now + 6) mod 7) + 1 * 7) by lia.
    rewrite Z.mod_add by lia.
    rewrite (Z.div_mod (toordinal now + 6) 7) at 1 by lia.
    replace (7 * ((toordinal now + 6) / 7) + (toordinal now + 6) mod 7
             - (toordinal now + 6) mod 7)
      with (((toordinal now + 6) / 7) * 7) by lia.
    apply Z.mod_mul. lia. }
  destruct (for_each_defined (fun i => plus_days monday i) [0; 1; 2; 3; 4])
    as (days & Hdays & Hlen & Hnth).
  { intros i Hi. apply plus_days_defined.
    assert (0 <= i <= 4).
    { repeat (apply elem_of_cons in Hi as [-> | Hi]; [lia |]).
      apply elem_of_nil in Hi. contradiction. }
    lia. }
  exists days. rewrite Hdays. split; [reflexivity | split; [exact Hlen |]].
  intros i d Hd'.
  assert (Hi : (i < 5)%nat).
  { apply lookup_lt_Some in Hd'. rewrite Hlen in Hd'. exact Hd'. }
  assert (Hx : [0; 1; 2; 3; 4] !! i = Some (Z.of_nat i)).
  { do 5 (destruct i as [|i]; [reflexivity |]). lia. }
  destruct (Hnth i _ Hx) as (d' & Hd'' & Hplus).
  rewrite Hd' in Hd''. inversion Hd''. subst d'.
  pose proof (plus_days_spec _ _ _ Hplus) as (Ho & Hvd & Hh' & Hmi' & Hs' & Hus').
  split.
  { unfold weekday. rewrite Ho.
    replace (toordinal monday + Z.of_nat i + 6)
      with (Z.of_nat i + (toordinal monday + 6)) by lia.
    rewrite <- Z.add_mod_idemp_r, Hmw, Z.add_0_r by lia.
    apply Z.mod_small. lia. }
  split; [rewrite Ho, Hom, Hoff; reflexivity |].
  split; [exact Hvd |].
  apply midnight_of_fields; congruence.
Qed.

Lemma week_dates_next_week_witness :
  valid_date (year morning) (month morning) (day morning) = true
  /\ year morning <= 9998
  /\ exists days,
       week_dates morning = Ok days
       /\ length days = 5%nat
       /\ forall i d, days !! i = Some d ->
            weekday d = Z.of_nat i
            /\ toordinal d = toordinal morning + (7 - weekday morning) + Z.of_nat i
            /\ valid_date (year d) (month d) (day d) = true
            /\ at_midnight d = d.
Proof.
  split; [reflexivity |]. split; [vm_compute; discriminate |].
  apply (week_dates_next_week morning); [reflexivity | vm_compute; discriminate].
Defined.

(** Read on Wednesday 4 November 2026, the week is 9 to 13 November. *)
Example example_week : week_dates morning = Ok next_week.
Proof. vm_compute. reflexivity. Qed.

End ParliamentWeek.

(** ** Regular expressions: where matches lie *)

Section MatchPositions.
Import Re.

Lemma inside_next (s : pystr) (st : mstate) (c : Z) (rest' : pystr) :
  inside s st -> st_rest st = c :: rest' ->
  inside s (mkState (S (st_pos st)) (Some c) rest' (st_caps st))
  /\ s !! st_pos st = Some c.
Proof.
  intros [Hrest Hpos] Hc. rewrite Hrest in Hc.
  assert (Hlen : (st_pos st < length s)%nat).
  { apply (f_equal length) in Hc. rewrite length_drop in Hc. simpl in Hc. lia. }
  assert (Hat : s !! st_pos st = Some c).
  { rewrite <- (Nat.add_0_r (st_pos st)), <- lookup_drop, Hc. reflexivity. }
  split; [| exact Hat]. split; simpl; [| lia].
  rewrite (drop_S _ _ _ Hat) in Hc. congruence.
Qed.

(** A successful run hands its continuation a state inside the subject,
    at least [min_len r] characters further on. *)
Lemma run_inv (s : pystr) (r : regex) :
  forall st k out,
    inside s st -> run r st k = Some out ->
    exists st', inside s st' /\ (st_pos st + min_len r <= st_pos st')%nat
                /\ k st' = Some out.
Proof.
  induction r as [| f | a IHa b IHb | a IHa b IHb | greedy a IHa | i a IHa
                 | a IHa | | | |]; intros st k out Hin Hrun;
    [simpl in Hrun .. | | simpl in Hrun | simpl in Hrun | simpl in Hrun
     | simpl in Hrun | simpl in Hrun | simpl in Hrun].
  - exists st. simpl. split; [exact Hin | split; [lia | exact Hrun]].
  - destruct (st_rest st) as [|c rest'] eqn:Hr; [discriminate |].
    destruct (f c); [| discriminate].
    destruct (inside_next s st c rest' Hin Hr) as [Hin' _].
    eexists. split; [exact Hin' | split; [simpl; lia | exact Hrun]].
  - apply IHa in Hrun as (st1 & Hin1 & Hp1 & Hk1); [| exact Hin].
    apply IHb in Hk1 as (st2 & Hin2 & Hp2 & Hk2); [| exact Hin1].
    exists st2. simpl. split; [exact Hin2 | split; [lia | exact Hk2]].
  - destruct (run a st k) as [o|] eqn:Ha.
    + inversion Hrun. subst o.
      apply IHa in Ha as (st1 & Hin1 & Hp1 & Hk1); [| exact Hin].
      exists st1. simpl. split; [exact Hin1 | split; [lia | exact Hk1]].
    + apply IHb in Hrun as (st1 & Hin1 & Hp1 & Hk1); [| exact Hin].
      exists st1. simpl. split; [exact Hin1 | split; [lia | exact Hk1]].
  - pose (rounds :=
            fix rounds (fuel : nat) (st : mstate) {struct fuel}
              : option mstate :=
              match fuel with
              | O => k st
              | S fuel' =>
                if greedy then
                  match run a st (fun st' =>
                          if (st_pos st <? st_pos st')%nat
                          then rounds fuel' st' else None) with
                  | Some out => Some out
                  | None => k st
                  end
                else
                  match k st with
                  | Some out => Some out
                  | None =>
                    run a st (fun st' =>
                      if (st_pos st <? st_pos st')%nat
                      then rounds fuel' st' else None)
                  end
              end).
    assert (Hfix : forall fuel st0 o,
               inside s st0 -> rounds fuel st0 = Some o ->
               exists st', inside s st' /\ (st_pos st0 + 0 <= st_pos st')%nat
                           /\ k st' = Some o).
    { induction fuel as [|fuel IHf]; intros st0 o Hin0 H0.
      - exists st0. split; [exact Hin0 | split; [lia | exact H0]].
      - assert (Hround :
                  run a st0 (fun st' =>
                    if (st_pos st0 <? st_pos st')%nat
                    then rounds fuel st' else None) = Some o ->
                  exists st', inside s st' /\ (st_pos st0 + 0 <= st_pos st')%nat
                              /\ k st' = Some o).
        { intros Ho.
          apply IHa in Ho as (st1 & Hin1 & Hp1 & Hk1); [| exact Hin0].
          destruct (st_pos st0 <? st_pos st1)%nat; [| discriminate].
          apply IHf in Hk1 as (st2 & Hin2 & Hp2 & Hk2); [| exact Hin1].
          exists st2. split; [exact Hin2 | split; [lia | exact Hk2]]. }
        change (rounds (S fuel) st0) with
          (if greedy then
             match run a st0 (fun st' =>
                     if (st_pos st0 <? st_pos st')%nat
                     then rounds fuel st' else None) with
             | Some out => Some out
             | None => k st0
             end
           else
             match k st0 with
             | Some out => Some out
             | None =>
               run a st0 (fun st' =>
                 if (st_pos st0 <? st_pos st')%nat
                 then rounds fuel st' else None)
             end) in H0.
        destruct greedy.
        + destruct (run a st0 _) as [o'|] eqn:Ha.
          * inversion H0. subst o'. apply Hround. reflexivity.
          * exists st0. split; [exact Hin0 | split; [lia | exact H0]].
        + destruct (k st0) as [o'|] eqn:Hk.
          * inversion H0. subst o'.
            exists st0. split; [exact Hin0 | split; [lia | exact Hk]].
          * apply Hround. exact H0. }
    change (rounds (S (length (st_rest st))) st = Some out) in Hrun.
    exact (Hfix _ _ _ Hin Hrun).
  - apply IHa in Hrun as (st1 & Hin1 & Hp1 & Hk1); [| exact Hin].
    eexists. split; [| split; [| exact Hk1]]; [exact Hin1 | simpl; lia].
  - destruct (run a st Some) as [st1|] eqn:Ha; [| discriminate].
    eexists. split; [| split; [| exact Hrun]]; [exact Hin | simpl; lia].
  - destruct (st_pos st =? 0)%nat; [| discriminate].
    exists st. simpl. split; [exact Hin | split; [lia | exact Hrun]].
  - exists st. simpl. split; [exact Hin | split; [lia |]].
    destruct (st_rest st) as [|c [|c' rest']]; try discriminate;
      [exact Hrun |].
    destruct (c =? 10); [exact Hrun | discriminate].
  - destruct (st_rest st); [| discriminate].
    exists st. simpl. split; [exact Hin | split; [lia | exact Hrun]].
  - destruct (xorb _ _); [| discriminate].
    exists st. simpl. split; [exact Hin | split; [lia | exact Hrun]].
Qed.

Lemma match_at_inv (s : pystr) (r : regex) (adv : bool) (st : mstate)
    (m : rmatch) :
  inside s st -> match_at r adv st = Some m ->
  m_start m = st_pos st /\ (m_start m + min_len r <= m_end m)%nat
  /\ (m_end m <= length s)%nat /\ (adv = true -> (st_pos st < m_end m)%nat).
Proof.
  intros Hin. unfold match_at.
  destruct (run r st _) as [out|] eqn:Hrun; [| discriminate].
  intros H. inversion H. subst m. simpl.
  apply (run_inv s) in Hrun as (st' & [_ Hlen] & Hp & Hk); [| exact Hin].
  destruct (adv && (st_pos st' =? st_pos st)%nat) eqn:Hadv; [discriminate |].
  inversion Hk. subst out.
  split; [reflexivity | split; [exact Hp | split; [exact Hlen |]]].
  intros ->. simpl in Hadv. apply Nat.eqb_neq in Hadv. lia.
Qed.

(** What a search finds was matched at some position at or after its
    start; [P] is anything that holds of every match of the pattern. *)
Lemma search_at_inv (s : pystr) (r : regex) (P : rmatch -> Prop) :
  (forall adv st m, inside s st -> match_at r adv st = Some m -> P m) ->
  forall rest adv p prev m,
    rest = drop p s -> (p <= length s)%nat ->
    search_at r adv p prev rest = Some m ->
    (p <= m_start m)%nat /\ (m_start m + min_len r <= m_end m)%nat
    /\ (m_end m <= length s)%nat /\ (adv = true -> (p < m_end m)%nat)
    /\ P m.
Proof.
  intros HP rest. induction rest as [|c rest' IH]; intros adv p prev m Hr Hp;
    simpl.
  - destruct (match_at r adv _) as [m'|] eqn:Hm; [| discriminate].
    intros H. inversion H. subst m'.
    assert (Hin : inside s (mkState p prev [] [])) by (split; assumption).
    pose proof (HP _ _ _ Hin Hm) as HPm.
    apply (match_at_inv s) in Hm as (Hs & Hw & He & Ha); [| exact Hin].
    simpl in *. repeat split; try assumption; lia.
  - destruct (match_at r adv _) as [m'|] eqn:Hm.
    + intros H. inversion H. subst m'.
      assert (Hin : inside s (mkState p prev (c :: rest') []))
        by (split; assumption).
      pose proof (HP _ _ _ Hin Hm) as HPm.
      apply (match_at_inv s) in Hm as (Hs & Hw & He & Ha); [| exact Hin].
      simpl in *. repeat split; try assumption; lia.
    + intros H.
      assert (Hat : s !! p = Some c).
      { rewrite <- (Nat.add_0_r p), <- lookup_drop, <- Hr. reflexivity. }
      assert (Hlt : (p < length s)%nat) by (eapply lookup_lt_Some; exact Hat).
      apply IH in H as (H1 & H2 & H3 & _ & H5).
      * repeat split; try assumption; lia.
      * rewrite (drop_S _ _ _ Hat) in Hr. congruence.
      * lia.
Qed.

Lemma scan_loop_inv (s : pystr) (r : regex) (P : rmatch -> Prop) :
  (forall adv st m, inside s st -> match_at r adv st = Some m -> P m) ->
  forall fuel start adv,
    (start <= length s)%nat ->
    in_order s (min_len r) start adv (scan_loop r s fuel start adv)
    /\ Forall P (scan_loop r s fuel start adv).
Proof.
  intros HP fuel. induction fuel as [|fuel IH]; intros start adv Hs; simpl.
  - split; constructor.
  - destruct (search_at r adv start _ _) as [m|] eqn:Hm; [| split; constructor].
    apply (search_at_inv s r P HP) in Hm as (H1 & H2 & H3 & H4 & H5);
      [| reflexivity | exact Hs].
    destruct (IH (m_end m) (m_end m =? m_start m)%nat H3) as [Ho Hf].
    split; [simpl; auto | constructor; assumption].
Qed.

(** The matches [finditer] yields lie in the subject in order. *)
Lemma finditer_inv (s : pystr) (r : regex) (P : rmatch -> Prop) :
  (forall adv st m, inside s st -> match_at r adv st = Some m -> P m) ->
  in_order s (min_len r) 0 false (finditer r s) /\ Forall P (finditer r s).
Proof. intros HP. apply scan_loop_inv; [exact HP | lia]. Qed.

Lemma in_order_starts (s : pystr) (width start : nat) (adv : bool)
    (ms : list rmatch) :
  (0 < width)%nat -> in_order s width start adv ms ->
  StronglySorted Z.lt (map (fun m => Z.of_nat (m_start m)) ms)
  /\ Forall (fun m => (start <= m_start m < length s)%nat) ms.
Proof.
  intros Hw. revert start adv.
  induction ms as [|m ms IH]; intros start adv; simpl.
  - intros _. split; constructor.
  - intros (H1 & H2 & H3 & _ & Hrest).
    destruct (IH _ _ Hrest) as [Hsorted Hall].
    split.
    + constructor; [exact Hsorted |].
      apply Forall_map. eapply Forall_impl; [exact Hall |].
      simpl. intros m' Hm'. lia.
    + constructor; [lia |].
      eapply Forall_impl; [exact Hall |]. simpl. intros m' Hm'. lia.
Qed.

End MatchPositions.

(** ** Cabinet extractor: page order *)

Section PageOrder.
Import Re Cabinet.

Lemma every_match (s : pystr) (r : regex) :
  forall (adv : bool) (st : mstate) (m : rmatch),
    inside s st -> match_at r adv st = Some m -> True.
Proof. intros. exact I. Qed.

(** A loop that appends at most one entry for each element keeps the
    order of a strictly increasing key. *)
Lemma flat_map_sorted {A B} (f : A -> list B) (h : B -> Z) (g : A -> Z)
    (l : list A) :
  (forall a, f a = [] \/ exists b, f a = [b] /\ h b = g a) ->
  StronglySorted Z.lt (map g l) ->
  StronglySorted Z.lt (map h (flat_map f l))
  /\ forall z, In z (map h (flat_map f l)) -> In z (map g l).
Proof.
  intros Hf. induction l as [|a l IH]; simpl.
  - intros _. split; [constructor | tauto].
  - intros Hs. apply StronglySorted_inv in Hs as [Hs Hall].
    destruct (IH Hs) as [IHs IHin].
    destruct (Hf a) as [-> | (b & -> & Hb)]; simpl.
    + split; [exact IHs | auto].
    + split.
      * constructor; [exact IHs |].
        apply Forall_forall. intros z Hz. rewrite Hb.
        rewrite Forall_forall in Hall. apply Hall.
        apply list_elem_of_In, IHin, list_elem_of_In, Hz.
      * intros z [<- | Hz]; [left; symmetry; exact Hb | right; auto].
Qed.

Lemma sections_sorted (agenda_html : pystr) :
  StronglySorted Z.lt (map sec_pos (extract_sections agenda_html))
  /\ Forall (fun p => 0 <= p < Z.of_nat (length agenda_html))
            (map sec_pos (extract_sections agenda_html)).
Proof.
  destruct (finditer_inv agenda_html section_row (fun _ => True)
              (every_match agenda_html section_row)) as [Hsec _].
  apply in_order_starts in Hsec as [Hsec Hsecb]; [| vm_compute; lia].
  unfold extract_sections. rewrite map_map. simpl.
  split; [exact Hsec |].
  apply Forall_map. eapply Forall_impl; [exact Hsecb |].
  simpl. intros m Hm. lia.
Qed.

(** X19.  Section headings and agenda items come out in page order: the
    offsets of the headings are strictly increasing, so are the offsets
    of the items, and all of them are offsets of the agenda page. *)
Theorem agenda_in_page_order (agenda_html : pystr) :
  StronglySorted Z.lt (map sec_pos (extract_sections agenda_html))
  /\ StronglySorted Z.lt (map pos (extract_items agenda_html))
  /\ Forall (fun p => 0 <= p < Z.of_nat (length agenda_html))
            (map sec_pos (extract_sections agenda_html)
             ++ map pos (extract_items agenda_html)).
Proof.
  destruct (sections_sorted agenda_html) as [Hsec Hsecb].
  destruct (finditer_inv agenda_html ta_link_pattern (fun _ => True)
              (every_match agenda_html ta_link_pattern)) as [Hta _].
  apply in_order_starts in Hta as [Hta Htab]; [| vm_compute; lia].
  destruct (flat_map_sorted
              (fun ta =>
                 let chunk := slice agenda_html (m_end ta) (m_end ta + 1500) in
                 match search question_cell chunk, search reporter_cell chunk with
                 | Some jm, Some zm =>
                   [mkItem (Z.of_nat (m_start ta))
                           (BASE_URL ++ group_str agenda_html ta 1)
                           (strip (group_str agenda_html ta 2))
                           (strip (group_str chunk jm 1))
                           (strip (group_str chunk zm 1))
                           None None None]
                 | _, _ => []
                 end)
              pos (fun m => Z.of_nat (m_start m))
              (finditer ta_link_pattern agenda_html)) as [Hitems Hin];
    [| exact Hta |].
  { intros ta. cbv zeta.
    destruct (search question_cell _); [| left; reflexivity].
    destruct (search reporter_cell _); [right | left; reflexivity].
    eexists. split; reflexivity. }
  fold (extract_items agenda_html) in Hitems, Hin.
  split; [exact Hsec | split; [exact Hitems |]].
  apply Forall_app. split; [exact Hsecb |].
  apply Forall_forall. intros z Hz.
  apply list_elem_of_In, Hin, in_map_iff in Hz as (m & <- & Hm).
  rewrite Forall_forall in Htab.
  pose proof (Htab m (proj2 (list_elem_of_In _ _) Hm)). lia.
Qed.

(** The example agenda: two headings and three items. *)
Example example_page_order :
  (map sec_pos (extract_sections agenda_page),
   map pos (extract_items agenda_page))
  = ([12; 442], [79; 257; 510]).
Proof. vm_compute. reflexivity. Qed.

(** X20.  On a real agenda page step 5 gives an item the heading nearest
    above it: the section whose offset is the greatest of those below
    the offset of the item; and the default name when no heading lies
    above the item. *)
Theorem item_gets_nearest_heading (agenda_html : pystr) (it : Item) :
  (section (assign_section (extract_sections agenda_html) it)
   = Some (py "Unknown")
   /\ none_before (pos it) (extract_sections agenda_html))
  \/ (exists s,
        s ∈ extract_sections agenda_html
        /\ section (assign_section (extract_sections agenda_html) it)
           = Some (sec_name s)
        /\ sec_pos s < pos it
        /\ forall s', s' ∈ extract_sections agenda_html ->
             sec_pos s' < pos it -> sec_pos s' <= sec_pos s).
Proof.
  destruct (sections_sorted agenda_html) as [Hsorted _].
  revert Hsorted. generalize (extract_sections agenda_html) as sections.
  intros sections Hsorted.
  unfold assign_section. cbn [section set_section].
  destruct (scan_sections_cases (pos it) (reverse sections) (py "Unknown"))
    as [[Hnone ->] | (l1 & s & l2 & Hrev & Hnone & Hs & ->)].
  - left. split; [reflexivity | apply none_before_reverse, Hnone].
  - right. exists s.
    assert (Hsec : sections = reverse l2 ++ s :: reverse l1).
    { apply (f_equal reverse) in Hrev. rewrite reverse_involutive in Hrev.
      rewrite Hrev, reverse_app, reverse_cons, <- app_assoc. reflexivity. }
    split; [rewrite Hsec; apply elem_of_app; right; left |].
    split; [reflexivity | split; [exact Hs |]].
    intros s' Hin Hlt. rewrite Hsec in Hin, Hsorted.
    apply elem_of_app in Hin as [Hin | Hin].
    + rewrite map_app in Hsorted.
      assert (sec_pos s' < sec_pos s); [| lia].
      apply (StronglySorted_app_1_elem_of Z.lt _ _ _ _ Hsorted).
      * apply (list_elem_of_fmap_2 sec_pos), Hin.
      * left.
    + apply elem_of_cons in Hin as [-> | Hin]; [lia |].
      apply none_before_reverse in Hnone. unfold none_before in Hnone.
      rewrite Forall_forall in Hnone. specialize (Hnone s' Hin). lia.
Qed.

End PageOrder.

(** ** Cabinet extractor: where the requests go *)

Section PortalRequests.
Import Cabinet.

Lemma startswith_app (p s : pystr) : startswith p (p ++ s) = true.
Proof.
  induction p as [|c p IH]; [reflexivity |].
  simpl. rewrite Z.eqb_refl, IH. reflexivity.
Qed.

Lemma portal_get (w : World) (path : pystr) :
  Forall (portal_request w) (snd (get w (BASE_URL ++ path))).
Proof. constructor; [apply startswith_app | constructor]. Qed.

Lemma ebind_trace {A B} (P : event -> Prop) (m : eff A) (f : A -> eff B) :
  Forall P (snd m) -> (forall a, Forall P (snd (f a))) ->
  Forall P (snd (ebind m f)).
Proof.
  intros Hm Hf. unfold ebind. destruct m as [[a|e] t]; [| exact Hm].
  specialize (Hf a). destruct (f a) as [r t']. simpl in *.
  apply Forall_app. split; assumption.
Qed.

Lemma catch_trace {A} (P : event -> Prop) (m : eff A) (h : exn -> eff A) :
  Forall P (snd m) -> (forall e, Forall P (snd (h e))) ->
  Forall P (snd (catch m h)).
Proof.
  intros Hm Hh. unfold catch. destruct m as [[a|e] t]; [exact Hm |].
  specialize (Hh e). destruct (h e) as [r t']. simpl in *.
  apply Forall_app. split; assumption.
Qed.

Lemma extract_essence_trace (w : World) (cleaned legal : pystr) :
  Forall (portal_request w) (snd (Summarizer._extract_essence w cleaned legal)).
Proof.
  unfold Summarizer._extract_essence.
  destruct (HAS_ANTHROPIC w) eqn:Hk; [| constructor].
  destruct (200 <? length cleaned)%nat; [| constructor]. cbn [andb].
  apply catch_trace; [| intros e; constructor].
  constructor; [exact Hk | constructor].
Qed.

Lemma fetch_legal_act_trace (w : World) (la_html : pystr) :
  Forall (portal_request w) (snd (fetch_legal_act w la_html)).
Proof.
  unfold fetch_legal_act. destruct (Re.search draft_link la_html); [| constructor].
  apply catch_trace; [| intros e; constructor].
  apply ebind_trace; [apply portal_get | intros a; constructor].
Qed.

Lemma fetch_essence_trace (w : World) (la_html legal : pystr) (it : Item) :
  Forall (portal_request w) (snd (fetch_essence w la_html legal it)).
Proof.
  unfold fetch_essence. destruct (Re.search annotation_link la_html);
    [| constructor].
  apply ebind_trace; [apply portal_get | intros page].
  apply ebind_trace; [apply extract_essence_trace | intros e; constructor].
Qed.

Lemma fetch_decision_trace (w : World) (la_html : pystr) (it : Item) :
  Forall (portal_request w) (snd (fetch_decision w la_html it)).
Proof.
  unfold fetch_decision. destruct (Re.search protocol_link la_html);
    [| constructor].
  apply ebind_trace; [apply portal_get | intros page; constructor].
Qed.

Lemma enrich_trace (w : World) (it : Item) :
  startswith BASE_URL (ta_link it) = true ->
  Forall (portal_request w) (snd (enrich w it)).
Proof.
  intros Hlink. unfold enrich.
  set (it0 := set_decision (set_essence it []) []).
  assert (H0 : Forall (portal_request w) (snd (get w (ta_link it0))))
    by (constructor; [exact Hlink | constructor]).
  destruct (get w (ta_link it0)) as [[la_html|] t]; [| exact H0].
  pose proof (fetch_legal_act_trace w la_html) as H1.
  destruct (fetch_legal_act w la_html) as [[legal|] t1]; cbn [snd] in *;
    [| apply Forall_app; split; assumption].
  pose proof (fetch_essence_trace w la_html legal it0) as H2.
  destruct (fetch_essence w la_html legal it0) as [[it1|] t2]; cbn [snd] in *;
    [| rewrite !Forall_app; auto].
  pose proof (fetch_decision_trace w la_html it1) as H3.
  unfold keep_on_error.
  destruct (fetch_decision w la_html it1) as [[it2|] t3];
    cbn [snd] in *; rewrite !Forall_app; auto.
Qed.

Lemma enrich_all_trace (w : World) (items : list Item) :
  Forall (fun it => startswith BASE_URL (ta_link it) = true) items ->
  Forall (portal_request w) (snd (enrich_all w items)).
Proof.
  induction items as [|it rest IH]; intros Hall; [constructor |].
  inversion Hall as [|? ? Hit Hrest]. subst. simpl.
  pose proof (enrich_trace w it Hit) as Ht. specialize (IH Hrest).
  destruct (enrich w it) as [it' t]. destruct (enrich_all w rest) as [rest' t'].
  simpl in *. apply Forall_app. split; assumption.
Qed.

Lemma extract_items_links (agenda_html : pystr) :
  Forall (fun it => startswith BASE_URL (ta_link it) = true)
         (extract_items agenda_html).
Proof.
  unfold extract_items. apply Forall_forall. intros it Hit.
  apply list_elem_of_In, in_flat_map in Hit as (ta & _ & Hit). cbv zeta in Hit.
  destruct (Re.search question_cell _); [| contradiction].
  destruct (Re.search reporter_cell _); [| contradiction].
  destruct Hit as [<- | []]. apply startswith_app.
Qed.

(** X21.  Every request of the cabinet extractor goes to the portal: the
    addresses it fetches all begin with the base address, whatever the
    pages it reads hold; and it asks the backend only when the backend
    is configured. *)
Theorem cabinet_requests_stay_on_portal (w : World) :
  Forall (portal_request w) (snd (get_cabinet_cudars_items w)).
Proof.
  assert (Hbody : Forall (portal_request w) (snd (cabinet_body w))).
  { unfold cabinet_body.
    apply ebind_trace; [apply (portal_get w (py "/meetings/cabinet_ministers")) |].
    intros html. destruct (Re.search meeting_link html) as [mt|]; [| constructor].
    apply ebind_trace; [apply portal_get | intros agenda_html].
    set (chosen := List.filter is_cudars _).
    assert (Hlinks : Forall (fun it => startswith BASE_URL (ta_link it) = true)
                            chosen).
    { subst chosen. apply Forall_forall. intros it Hit.
      apply list_elem_of_In, filter_In in Hit as [Hin _].
      unfold assign_sections in Hin. apply in_map_iff in Hin as (it0 & <- & Hin0).
      pose proof (extract_items_links agenda_html) as Hall.
      rewrite Forall_forall in Hall.
      apply (Hall it0), list_elem_of_In, Hin0. }
    pose proof (enrich_all_trace w chosen Hlinks) as Ht.
    destruct (enrich_all w chosen) as [done t]. exact Ht. }
  unfold get_cabinet_cudars_items.
  destruct (cabinet_body w) as [[r|e] t]; exact Hbody.
Qed.

End PortalRequests.

(** ** Parliament extractor: what a run returns *)

Section ParliamentRun.
Import PyTime Parliament.

Lemma display_length (pt : pystr) : (length (display pt) <= 303)%nat.
Proof.
  unfold display. rewrite length_app, length_take.
  destruct (300 <? length pt)%nat.
  - change (length (py "...")) with 3%nat. lia.
  - change (length (@nil Z)) with 0%nat. lia.
Qed.

Lemma point_items_inv (day : datetime) (time_str title url pt : pystr) :
  Forall (fun it =>
            link it = url /\ item_date it = strftime_A_dm day
            /\ commission it = title /\ item_time it = time_str
            /\ (length (point it) <= 303)%nat
            /\ exists p, classify p = Some (match_type it)
                         /\ point it = display p)
         (point_items day time_str title url pt).
Proof.
  unfold point_items. destruct (classify pt) as [mt|] eqn:Hc; constructor;
    [| constructor].
  simpl. repeat split; try reflexivity; [apply display_length |].
  exists pt. split; [exact Hc | reflexivity].
Qed.

Lemma sitting_items_inv (w : World) (day : datetime)
    (time_raw title unid : pystr) :
  snd (sitting_items w day time_raw title unid) = [EvGet (sitting_url unid)]
  /\ Forall (fun it =>
            link it = sitting_url unid /\ item_date it = strftime_A_dm day
            /\ (length (point it) <= 303)%nat
            /\ exists p, classify p = Some (match_type it)
                         /\ point it = display p)
         (fst (sitting_items w day time_raw title unid)).
Proof.
  unfold sitting_items, get.
  destruct (http_get w (sitting_url unid)) as [agenda_html|];
    [| split; [reflexivity | constructor]].
  destruct (agenda_text agenda_html) as [[|c text]|];
    try (split; [reflexivity | constructor]).
  split; [reflexivity |]. cbn [fst].
  apply Forall_forall. intros it Hit.
  apply list_elem_of_In, in_flat_map in Hit as (pt & _ & Hit).
  pose proof (point_items_inv day (strip (remove_dots time_raw))
                title (sitting_url unid) pt) as Hall.
  rewrite Forall_forall in Hall.
  destruct (Hall it (proj2 (list_elem_of_In _ _) Hit)) as (? & ? & _ & _ & ? & ?).
  repeat split; assumption.
Qed.

(** One day of the week whose index loads. *)
Lemma day_items_inv (w : World) (day : datetime) (page : pystr) :
  http_get w (day_url day) = Ok page ->
  exists its t,
    day_items w day = (Ok its, EvGet (day_url day) :: t)
    /\ Forall (fun ev => exists unid, ev = EvGet (sitting_url unid)) t
    /\ Forall (fun it =>
            In (EvGet (link it)) t /\ item_date it = strftime_A_dm day
            /\ (length (point it) <= 303)%nat
            /\ exists p, classify p = Some (match_type it)
                         /\ point it = display p) its.
Proof.
  intros Hp. unfold day_items, get, ebind. rewrite Hp.
  eexists. eexists. split; [reflexivity |].
  set (per := fun m : Re.rmatch => sitting_items w day _ _ _).
  generalize (Re.finditer draw_PE page) as ms.
  induction ms as [|m ms [IHt IHi]]; [split; constructor |].
  cbn [map flat_map].
  pose proof (sitting_items_inv w day (Re.group_str page m 1)
                (Re.group_str page m 2) (Re.group_str page m 3)) as [Ht Hi].
  fold (per m) in Ht, Hi.
  split.
  - apply Forall_app. split; [| exact IHt].
    rewrite Ht. constructor; [eexists; reflexivity | constructor].
  - apply Forall_app. split.
    + eapply Forall_impl; [exact Hi |].
      intros it (Hl & Hd & Hlen & Hc). split; [| auto].
      apply in_or_app. left. rewrite Ht, Hl. left. reflexivity.
    + eapply Forall_impl; [exact IHi |].
      intros it (Hl & Hrest). split; [| exact Hrest].
      apply in_or_app. right. exact Hl.
Qed.

Lemma days_loop_inv (w : World) (days : list datetime) :
  (forall day, day ∈ days -> exists page, http_get w (day_url day) = Ok page) ->
  exists its t,
    days_loop w days = (Ok its, t)
    /\ Forall (fun ev => (exists day, day ∈ days /\ ev = EvGet (day_url day))
                         \/ (exists unid, ev = EvGet (sitting_url unid))) t
    /\ Forall (fun it =>
            In (EvGet (link it)) t
            /\ (exists day, day ∈ days /\ item_date it = strftime_A_dm day)
            /\ (length (point it) <= 303)%nat
            /\ exists p, classify p = Some (match_type it)
                         /\ point it = display p) its.
Proof.
  induction days as [|day rest IH]; intros Hall.
  - exists [], []. split; [reflexivity | split; constructor].
  - destruct (Hall day ltac:(left)) as [page Hp].
    destruct (day_items_inv w day page Hp) as (its & t & Hrun & Ht & Hi).
    destruct IH as (its' & t' & Hrun' & Ht' & Hi').
    { intros d Hd. apply Hall. right. exact Hd. }
    exists (its ++ its'), ((EvGet (day_url day) :: t) ++ t' ++ []).
    split; [| split].
    + cbn [days_loop]. unfold ebind at 1. rewrite Hrun.
      unfold ebind, ret. rewrite Hrun'. reflexivity.
    + rewrite app_nil_r. apply Forall_app. split.
      * constructor.
        -- left. exists day. split; [left | reflexivity].
        -- eapply Forall_impl; [exact Ht |]. intros ev H. right. exact H.
      * eapply Forall_impl; [exact Ht' |].
        intros ev [(d & Hd & ->) | H]; [left | right; exact H].
        exists d. split; [right; exact Hd | reflexivity].
    + rewrite app_nil_r. apply Forall_app. split.
      * eapply Forall_impl; [exact Hi |].
        intros it (Hl & Hd & Hrest). split; [| split; [| exact Hrest]].
        -- apply in_or_app. left. right. exact Hl.
        -- exists day. split; [left | exact Hd].
      * eapply Forall_impl; [exact Hi' |].
        intros it (Hl & (d & Hd & Hdate) & Hrest).
        split; [| split; [| exact Hrest]].
        -- apply in_or_app. right. exact Hl.
        -- exists d. split; [right; exact Hd | exact Hdate].
Qed.

Lemma days_loop_fails (w : World) (days : list datetime) (day : datetime)
    (e : exn) :
  day ∈ days -> http_get w (day_url day) = Raise e ->
  exists e' t, days_loop w days = (Raise e', t).
Proof.
  induction days as [|d rest IH]; intros Hin Hfail.
  - apply elem_of_nil in Hin. contradiction.
  - cbn [days_loop]. unfold ebind at 1.
    destruct (day_items w d) as [[its|e1] t1] eqn:Hd;
      [| eexists; eexists; reflexivity].
    apply elem_of_cons in Hin as [-> | Hin].
    + unfold day_items, get, ebind in Hd. rewrite Hfail in Hd. discriminate Hd.
    + destruct (IH Hin Hfail) as (e' & t' & Hrest).
      unfold ebind. rewrite Hrest. eexists. eexists. reflexivity.
Qed.

Lemma week_dates_five (now : datetime) (dates : list datetime) :
  week_dates now = Ok dates -> length dates = 5%nat.
Proof.
  unfold week_dates.
  destruct (plus_days _ _) as [monday|]; cbn [bind]; [| discriminate].
  intros H. apply for_each_inv, Forall2_length in H. simpl in H. lia.
Qed.

(** X22.  When the five day indexes of the week load, the extractor
    returns a result, whatever happens to the requests for the sittings:
    the week runs from the first to the last date, every request made is
    a day index of the week or a sitting page, and every item links to a
    sitting page that was requested, carries the date of a day of the
    week, shows a point of at most 303 characters and has the match type
    its point is classified with. *)
Theorem parliament_result_when_indexes_load (w : World)
    (dates : list datetime) :
  week_dates (now w) = Ok dates ->
  (forall day, day ∈ dates -> exists page, http_get w (day_url day) = Ok page) ->
  exists r t,
    get_parliament_agenda w = (Some r, t)
    /\ Some (week_start r) = strftime_dmY <$> head dates
    /\ Some (week_end r) = strftime_dmY <$> last dates
    /\ Forall (fun ev => (exists day, day ∈ dates /\ ev = EvGet (day_url day))
                         \/ (exists unid, ev = EvGet (sitting_url unid))) t
    /\ Forall (fun it =>
            In (EvGet (link it)) t
            /\ (exists day, day ∈ dates /\ item_date it = strftime_A_dm day)
            /\ (length (point it) <= 303)%nat
            /\ exists p, classify p = Some (match_type it)
                         /\ point it = display p) (items r).
Proof.
  intros Hw Hall.
  destruct (days_loop_inv w dates Hall) as (its & t & Hrun & Ht & Hi).
  pose proof (week_dates_five _ _ Hw) as Hlen.
  destruct dates as [|d0 rest]; [discriminate Hlen |].
  destruct (last (d0 :: rest)) as [d4|] eqn:Hlast;
    [| apply last_None in Hlast; discriminate Hlast].
  unfold get_parliament_agenda, parliament_body. rewrite Hw.
  unfold ebind. rewrite Hrun. cbn [head]. rewrite Hlast.
  eexists. eexists. split; [reflexivity |]. cbn [week_start week_end items].
  rewrite app_nil_r.
  split; [reflexivity | split; [reflexivity | split; assumption]].
Qed.

Lemma parliament_result_when_indexes_load_witness :
  week_dates (now parliament_world) = Ok next_week
  /\ (forall day, day ∈ next_week ->
        exists page, http_get parliament_world (day_url day) = Ok page)
  /\ exists r t,
       get_parliament_agenda parliament_world = (Some r, t)
       /\ Some (week_start r) = strftime_dmY <$> head next_week
       /\ Some (week_end r) = strftime_dmY <$> last next_week
       /\ Forall (fun ev => (exists day, day ∈ next_week /\ ev = EvGet (day_url day))
                            \/ (exists unid, ev = EvGet (sitting_url unid))) t
       /\ Forall (fun it =>
               In (EvGet (link it)) t
               /\ (exists day, day ∈ next_week /\ item_date it = strftime_A_dm day)
               /\ (length (point it) <= 303)%nat
               /\ exists p, classify p = Some (match_type it)
                            /\ point it = display p) (items r).
Proof.
  assert (Hpages : forall day, day ∈ next_week ->
            exists page, http_get parliament_world (day_url day) = Ok page).
  { intros day Hday. exists day_page.
    repeat (apply elem_of_cons in Hday as [-> | Hday];
            [vm_compute; reflexivity |]).
    apply elem_of_nil in Hday. contradiction. }
  split; [vm_compute; reflexivity |]. split; [exact Hpages |].
  apply (parliament_result_when_indexes_load parliament_world next_week);
    [vm_compute; reflexivity | exact Hpages].
Defined.

(** X23.  A day index that fails to load loses the whole agenda: when
    the request for the index of one day of the week raises, the
    extractor returns [None]; so it does when the week cannot be
    computed. *)
Theorem parliament_none_on_day_failure (w : World) :
  (exists e, week_dates (now w) = Raise e)
  \/ (exists dates day e,
        week_dates (now w) = Ok dates /\ day ∈ dates
        /\ http_get w (day_url day) = Raise e) ->
  fst (get_parliament_agenda w) = None.
Proof.
  unfold get_parliament_agenda, parliament_body.
  intros [[e He] | (dates & day & e & Hw & Hin & Hfail)].
  - rewrite He. reflexivity.
  - rewrite Hw. destruct (days_loop_fails w dates day e Hin Hfail)
      as (e' & t & Hrun).
    unfold ebind. rewrite Hrun. reflexivity.
Qed.

Lemma parliament_none_on_day_failure_witness :
  (exists dates day e,
     week_dates (now offline_world) = Ok dates /\ day ∈ dates
     /\ http_get offline_world (day_url day) = Raise e)
  /\ fst (get_parliament_agenda offline_world) = None.
Proof.
  assert (H : exists dates day e,
            week_dates (now offline_world) = Ok dates /\ day ∈ dates
            /\ http_get offline_world (day_url day) = Raise e).
  { exists next_week, (mkDatetime 2026 11 9 0 0 0 0), RequestException.
    split; [vm_compute; reflexivity |]. split; [left | reflexivity]. }
  split; [exact H |].
  apply (parliament_none_on_day_failure offline_world). right. exact H.
Defined.

End ParliamentRun.

(** ** Parliament extractor: the split into points *)

Section SplitPoints.
Import Re Parliament.

(** A match of [point_start] is empty and stands before a digit. *)
Lemma point_start_match (s : pystr) (adv : bool) (st : mstate) (m : rmatch) :
  inside s st -> match_at point_start adv st = Some m ->
  m_end m = m_start m
  /\ exists c, s !! m_start m = Some c /\ is_digit c = true.
Proof.
  intros Hin. unfold match_at, point_start. cbn [run].
  destruct (run (seqs [WordB; plus digit; chr 46; space]) st Some)
    as [st1|] eqn:Hlook; [| discriminate].
  cbn [st_pos].
  destruct (adv && (st_pos st =? st_pos st)%nat); [discriminate |].
  intros H. inversion H. subst m. cbn [m_start m_end].
  split; [reflexivity |].
  cbn [seqs foldr run plus digit] in Hlook.
  destruct (xorb _ _); [| discriminate].
  destruct (st_rest st) as [|c rest'] eqn:Hr; [discriminate |].
  destruct (is_digit c) eqn:Hc; [| discriminate].
  exists c. split; [| exact Hc].
  apply (inside_next s st c rest' Hin Hr).
Qed.

Lemma slice_drop (s : pystr) (a b : nat) :
  (a <= b)%nat -> slice s a b ++ drop b s = drop a s.
Proof.
  intros H. unfold slice.
  replace (drop b s) with (drop (b - a) (drop a s)).
  - apply take_drop.
  - rewrite drop_drop. f_equal. lia.
Qed.

(** Splitting at empty matches loses nothing. *)
Lemma split_pieces_concat (s : pystr) (ms : list rmatch) :
  forall last adv,
    in_order s 0 last adv ms ->
    Forall (fun m => m_end m = m_start m) ms ->
    concat (split_pieces s last ms) = drop last s.
Proof.
  induction ms as [|m ms IH]; intros last adv Ho Hz; simpl.
  - apply app_nil_r.
  - destruct Ho as (H1 & _ & _ & _ & Hrest). inversion Hz as [|? ? Hm Hz']. subst.
    rewrite (IH _ _ Hrest Hz'), Hm. apply slice_drop, H1.
Qed.

(** After an empty match before a digit, every piece begins with one. *)
Lemma split_pieces_digits (s : pystr) (ms : list rmatch) :
  forall last c,
    in_order s 0 last true ms ->
    Forall (fun m => m_end m = m_start m
                     /\ exists c, s !! m_start m = Some c /\ is_digit c = true)
           ms ->
    s !! last = Some c -> is_digit c = true ->
    Forall (fun p => exists c rest, p = c :: rest /\ is_digit c = true)
           (split_pieces s last ms).
Proof.
  induction ms as [|m ms IH]; intros last c Ho Hz Hc Hd; simpl.
  - constructor; [| constructor].
    exists c, (drop (S last) s). split; [apply drop_S, Hc | exact Hd].
  - destruct Ho as (H1 & _ & _ & Hadv & Hrest).
    inversion Hz as [|? ? [Hm (c' & Hc' & Hd')] Hz']. subst.
    specialize (Hadv eq_refl). rewrite Hm in Hadv.
    constructor.
    + unfold slice. rewrite (drop_S _ _ _ Hc).
      destruct (m_start m - last)%nat as [|n] eqn:Hn; [lia |].
      eexists. eexists. split; [reflexivity | exact Hd].
    + apply (IH _ c'); [| exact Hz' | rewrite Hm; exact Hc' | exact Hd'].
      rewrite Hm, Nat.eqb_refl in Hrest. rewrite Hm. exact Hrest.
Qed.

Lemma filter_reverse {A} (f : A -> bool) (l : list A) :
  List.filter f (reverse l) = reverse (List.filter f l).
Proof.
  induction l as [|a l IH]; [reflexivity |].
  rewrite reverse_cons, List.filter_app, IH. simpl.
  destruct (f a); [rewrite reverse_cons |]; simpl;
    [reflexivity | apply app_nil_r].
Qed.

Lemma ink_lstrip (s : pystr) :
  List.filter is_ink (lstrip s) = List.filter is_ink s.
Proof.
  induction s as [|c s IH]; [reflexivity |]. simpl. unfold is_ink at 2.
  destruct (is_space c) eqn:Hc; simpl; [exact IH |].
  unfold is_ink at 1. rewrite Hc. reflexivity.
Qed.

Lemma ink_strip (s : pystr) :
  List.filter is_ink (strip s) = List.filter is_ink s.
Proof.
  unfold strip, rstrip.
  rewrite filter_reverse, ink_lstrip, <- filter_reverse, reverse_involutive.
  apply ink_lstrip.
Qed.

Lemma lstrip_snoc (l : pystr) (c : Z) :
  is_space c = false -> exists l', lstrip (l ++ [c]) = l' ++ [c].
Proof.
  intros Hc. induction l as [|a l [l' IH]]; simpl.
  - rewrite Hc. exists []. reflexivity.
  - destruct (is_space a); [exists l'; exact IH |].
    exists (a :: l). reflexivity.
Qed.

Lemma strip_digit (c : Z) (rest : pystr) :
  is_digit c = true -> exists rest', strip (c :: rest) = c :: rest'.
Proof.
  intros Hd.
  assert (Hs : is_space c = false).
  { unfold is_digit in Hd. apply andb_true_iff in Hd as [H1 H2].
    apply Z.leb_le in H1, H2. unfold is_space.
    repeat match goal with
           | |- context [(?a <=? ?b)] => destruct (Z.leb_spec a b); try lia
           | |- context [(?a =? ?b)] => destruct (Z.eqb_spec a b); try lia
           end; reflexivity. }
  unfold strip, rstrip. simpl. rewrite Hs. rewrite reverse_cons.
  destruct (lstrip_snoc (reverse rest) c Hs) as [l' ->].
  exists (reverse l'). rewrite reverse_app. reflexivity.
Qed.

(** X24.  Splitting an agenda into points loses no text: the points put
    together hold the characters of the agenda that are not white
    space, in their order; no point is empty; and every point after the
    first begins with a digit. *)
Theorem split_points_keep_the_text (text : pystr) :
  List.filter is_ink (concat (split_points text)) = List.filter is_ink text
  /\ Forall (fun p => p <> []) (split_points text)
  /\ Forall (fun p => exists c rest, p = c :: rest /\ is_digit c = true)
            (tail (split_points text)).
Proof.
  unfold split_points, split.
  destruct (finditer_inv text point_start _ (point_start_match text))
    as [Ho Hm].
  assert (Hcat : concat (split_pieces text 0 (finditer point_start text)) = text).
  { rewrite (split_pieces_concat text _ 0 false Ho); [reflexivity |].
    eapply Forall_impl; [exact Hm |]. intros m [H _]. exact H. }
  assert (Hdig : Forall (fun p => exists c rest, p = c :: rest /\ is_digit c = true)
                        (tail (split_pieces text 0 (finditer point_start text)))).
  { destruct (finditer point_start text) as [|m ms]; [constructor |].
    simpl. destruct Ho as (_ & _ & _ & _ & Hrest).
    inversion Hm as [|? ? [Hz (c & Hc & Hd)] Hm']. subst.
    rewrite Hz, Nat.eqb_refl in Hrest.
    apply (split_pieces_digits text ms _ c); rewrite ?Hz; assumption. }
  clear Ho Hm. revert Hcat Hdig.
  generalize (split_pieces text 0 (finditer point_start text)) as pieces.
  intros pieces <- Hdig.
  set (keep := fun p : pystr => match strip p with [] => [] | p' => [p'] end).
  assert (Hkeep : forall p, List.filter is_ink (concat (keep p))
                            = List.filter is_ink p).
  { intros p. rewrite <- (ink_strip p). subst keep. simpl.
    destruct (strip p); [reflexivity | simpl; rewrite app_nil_r; reflexivity]. }
  split; [| split].
  - clear Hdig. induction pieces as [|p ps IH]; [reflexivity |].
    cbn [flat_map concat]. rewrite concat_app, !List.filter_app, Hkeep, IH.
    reflexivity.
  - apply Forall_forall. intros q Hq.
    apply list_elem_of_In, in_flat_map in Hq as (p & _ & Hq). subst keep.
    simpl in Hq. destruct (strip p); [contradiction |].
    destruct Hq as [<- | []]. discriminate.
  - assert (Hall : forall ps,
               Forall (fun p => exists c rest, p = c :: rest /\ is_digit c = true) ps ->
               Forall (fun p => exists c rest, p = c :: rest /\ is_digit c = true)
                      (flat_map keep ps)).
    { intros ps Hps. apply Forall_forall. intros q Hq.
      apply list_elem_of_In, in_flat_map in Hq as (p & Hp & Hq).
      rewrite Forall_forall in Hps.
      destruct (Hps p (proj2 (list_elem_of_In _ _) Hp)) as (c & rest & -> & Hd).
      destruct (strip_digit c rest Hd) as [rest' Hs]. subst keep. simpl in Hq.
      rewrite Hs in Hq. destruct Hq as [<- | []].
      exists c, rest'. split; [reflexivity | exact Hd]. }
    destruct pieces as [|p ps]; [constructor |].
    cbn [flat_map]. simpl in Hdig. specialize (Hall ps Hdig).
    destruct (keep p) as [|q [|q' qs]] eqn:Hk.
    + simpl. destruct (flat_map keep ps); [constructor |].
      simpl. inversion Hall. assumption.
    + simpl. exact Hall.
    + subst keep. simpl in Hk. destruct (strip p); discriminate.
Qed.

(** An agenda with a heading and two points. *)
Example example_split_points :
  split_points (py "Darba kārtība: 1. VARAM ziņojums.  2. Dažādi.")
  = [py "Darba kārtība:"; py "1. VARAM ziņojums."; py "2. Dažādi."].
Proof. vm_compute. reflexivity. Qed.

End SplitPoints.
